(** * A model of [biotite.structure.io.pdbx.cif]

    The text codec for CIF files: data cells, masked columns, categories,
    blocks and files, with the lazy parse-on-access slots of the two
    containers.

    Conventions of the embedding.
    - A Python [str] is a [string]: a sequence of code points below 256.
    - A one-dimensional numpy array is the list of its elements together
      with its dtype: [StrArray] with the number of characters of an
      element, [IntArray] with the kind of integer, [FloatArray].  An
      element of an array of text is read cut to that number of
      characters and without the NUL characters at its end.
    - A [dict] is an association list in insertion order.
    - A method that mutates [self] returns the new object next to its
      outcome; an exception is the outcome [Raise e].
    - [CIFBlock.__setitem__] changes the object that its caller passes,
      so it is given over a store of the category objects, with
      references to them in the slots of the block.
    - numpy prints a float64 as the shortest decimal that reads back to
      it.  That conversion is not part of this development: the one call
      that needs it ends in the outcome [Unmodelled], which no handler
      catches and about which nothing is proved. *)

From Stdlib Require Import String Ascii List ZArith Lia Bool Arith.
From Stdlib Require Import DecimalString Floats.SpecFloat.
Import ListNotations.
Open Scope string_scope.

Set Implicit Arguments.

(** ** Outcomes *)

Inductive exn : Type :=
| IndexError
| KeyError (key : string)
| TypeError
| StopIteration
| ValueError (msg : string)
| SerializationError (msg : string)
| DeserializationError (msg : string).

Inductive result (A : Type) : Type :=
| Ok (a : A)
| Raise (e : exn)
| Unmodelled.

Arguments Ok {A} a.
Arguments Raise {A} e.
Arguments Unmodelled {A}.

Definition bind {A B : Type} (r : result A) (f : A -> result B) : result B :=
  match r with
  | Ok a => f a
  | Raise e => Raise e
  | Unmodelled => Unmodelled
  end.

Notation "x <- r ;; k" := (bind r (fun x => k))
  (at level 61, r at next level, right associativity).
Notation "' p <- r ;; k" := (bind r (fun v => let p := v in k))
  (at level 61, p pattern, r at next level, right associativity).

(** [try: r except: e] is a [try] block with a bare [except:] clause that
    raises [e]. *)
Definition try_except {A : Type} (r : result A) (e : exn) : result A :=
  match r with
  | Ok a => Ok a
  | Raise _ => Raise e
  | Unmodelled => Unmodelled
  end.

Fixpoint mapM {A B : Type} (f : A -> result B) (l : list A) : result (list B) :=
  match l with
  | [] => Ok []
  | a :: l' => b <- f a ;; bs <- mapM f l' ;; Ok (b :: bs)
  end.

(** ** Python strings *)

Module Py.

Definition chr (n : nat) : ascii := ascii_of_nat n.
Definition ord (c : ascii) : nat := nat_of_ascii c.

Definition LF : ascii := chr 10.
Definition TAB : ascii := chr 9.
Definition SP : ascii := " "%char.
Definition SQ : ascii := "'"%char.
Definition DQ : ascii := chr 34.

(** [str.isspace] on one code point below 256; it is also the class [\s]
    of [re] on a [str] pattern. *)
Definition isspace (c : ascii) : bool :=
  let n := ord c in
  (((9 <=? n) && (n <=? 13)) || ((28 <=? n) && (n <=? 32))
   || (n =? 133) || (n =? 160))%nat.

(** The line boundaries of [str.splitlines] below 256. *)
Definition islinebreak (c : ascii) : bool :=
  let n := ord c in
  (((10 <=? n) && (n <=? 13)) || ((28 <=? n) && (n <=? 30))
   || (n =? 133))%nat.

Definition str1 (c : ascii) : string := String c EmptyString.

(** [c in s] for a one-character [c]. *)
Fixpoint contains (c : ascii) (s : string) : bool :=
  match s with
  | EmptyString => false
  | String d s' => Ascii.eqb d c || contains c s'
  end.

(** [s[0]] and [s[-1]]. *)
Definition first (s : string) : result ascii :=
  match s with
  | EmptyString => Raise IndexError
  | String c _ => Ok c
  end.

Fixpoint last_char (c : ascii) (s : string) : ascii :=
  match s with
  | EmptyString => c
  | String d s' => last_char d s'
  end.

Definition last (s : string) : result ascii :=
  match s with
  | EmptyString => Raise IndexError
  | String c s' => Ok (last_char c s')
  end.

Definition first_is (c : ascii) (s : string) : bool :=
  match s with
  | String d _ => Ascii.eqb d c
  | EmptyString => false
  end.

Definition last_is (c : ascii) (s : string) : bool :=
  match s with
  | String d s' => Ascii.eqb (last_char d s') c
  | EmptyString => false
  end.

Definition startswith (p s : string) : bool := String.prefix p s.

(** [s[n:]] and [s[:n]] for [0 <= n]. *)
Fixpoint drop (n : nat) (s : string) : string :=
  match n, s with
  | S n', String _ s' => drop n' s'
  | _, _ => s
  end.

Fixpoint take (n : nat) (s : string) : string :=
  match n, s with
  | S n', String c s' => String c (take n' s')
  | _, _ => EmptyString
  end.

(** [s[lo:hi]] with Python's treatment of negative and overlong bounds. *)
Definition clamp (len i : Z) : nat :=
  let j := if (i <? 0)%Z then (i + len)%Z else i in
  Z.to_nat (Z.max 0 (Z.min len j)).

Definition slice (s : string) (lo hi : Z) : string :=
  let len := Z.of_nat (String.length s) in
  let a := clamp len lo in
  let b := clamp len hi in
  take (b - a) (drop a s).

(** [s.find(c)] for a one-character [c]: the first index, or [-1]. *)
Fixpoint find_from (c : ascii) (s : string) (i : Z) : Z :=
  match s with
  | EmptyString => (-1)%Z
  | String d s' => if Ascii.eqb d c then i else find_from c s' (i + 1)%Z
  end.

Definition find (c : ascii) (s : string) : Z := find_from c s 0%Z.

Fixpoint lstrip (s : string) : string :=
  match s with
  | String c s' => if isspace c then lstrip s' else s
  | EmptyString => EmptyString
  end.

Fixpoint rstrip (s : string) : string :=
  match s with
  | EmptyString => EmptyString
  | String c s' =>
      match rstrip s' with
      | EmptyString => if isspace c then EmptyString else str1 c
      | r => String c r
      end
  end.

Definition strip (s : string) : string := rstrip (lstrip s).

Fixpoint spaces (n : nat) : string :=
  match n with
  | O => EmptyString
  | S n' => String SP (spaces n')
  end.

Definition ljust (s : string) (width : nat) : string :=
  s ++ spaces (width - String.length s).

(** [sep.join(l)]. *)
Fixpoint join (sep : string) (l : list string) : string :=
  match l with
  | [] => EmptyString
  | [x] => x
  | x :: l' => x ++ sep ++ join sep l'
  end.

(** [s.split(c)] for a one-character separator [c]. *)
Fixpoint split_on (c : ascii) (s : string) : list string :=
  match s with
  | EmptyString => [EmptyString]
  | String d s' =>
      if Ascii.eqb d c then EmptyString :: split_on c s'
      else
        match split_on c s' with
        | w :: ws => String d w :: ws
        | [] => [str1 d]
        end
  end.

(** [s.split()]: the maximal runs of characters that are not white space. *)
Fixpoint split (s : string) : list string :=
  match s with
  | EmptyString => []
  | String c s' =>
      if isspace c then split s'
      else
        match s' with
        | EmptyString => [str1 c]
        | String d _ =>
            if isspace d then str1 c :: split s'
            else
              match split s' with
              | w :: ws => String c w :: ws
              | [] => [str1 c]
              end
        end
  end.

(** [s.splitlines()]: a carriage return directly followed by a line feed
    is one boundary, and the text after the last boundary is a line only
    when it is not empty.  [after_cr] tells that the previous character
    was a carriage return. *)
Fixpoint splitlines_aux (s : string) (after_cr : bool) : list string :=
  match s with
  | EmptyString => []
  | String c s' =>
      if after_cr && Ascii.eqb c (chr 10) then splitlines_aux s' false
      else if islinebreak c then
        EmptyString :: splitlines_aux s' (Ascii.eqb c (chr 13))
      else
        match splitlines_aux s' false with
        | l :: ls => String c l :: ls
        | [] => [str1 c]
        end
  end.

Definition splitlines (s : string) : list string := splitlines_aux s false.

End Py.

(** Decimal numerals, as [str] prints an [int]. *)
Definition str_of_nat (n : nat) : string :=
  NilZero.string_of_uint (Nat.to_uint n).

Definition str_of_Z (z : Z) : string :=
  NilZero.string_of_int (Z.to_int z).

(** ** Dictionaries

    A [dict] keeps its keys in insertion order; assigning to a key that is
    present replaces the value where it stands. *)

Section Dict.

Variable K : Type.
Variable eqb : K -> K -> bool.
Variable V : Type.

Definition dict : Type := list (K * V).

Fixpoint dict_get (d : dict) (k : K) : option V :=
  match d with
  | [] => None
  | (k', v) :: d' => if eqb k' k then Some v else dict_get d' k
  end.

Fixpoint dict_set (d : dict) (k : K) (v : V) : dict :=
  match d with
  | [] => [(k, v)]
  | (k', v') :: d' =>
      if eqb k' k then (k', v) :: d' else (k', v') :: dict_set d' k v
  end.

Fixpoint dict_del (d : dict) (k : K) : dict :=
  match d with
  | [] => []
  | (k', v') :: d' => if eqb k' k then d' else (k', v') :: dict_del d' k
  end.

Definition dict_keys (d : dict) : list K := map fst d.
Definition dict_values (d : dict) : list V := map snd d.

(** [set(d1.keys()) == set(d2.keys())] is decided on the key lists. *)
Definition mem (k : K) (l : list K) : bool := existsb (eqb k) l.

Definition same_key_set (l1 l2 : list K) : bool :=
  forallb (fun k => mem k l2) l1 && forallb (fun k => mem k l1) l2.

End Dict.

Definition key_eqb (a b : option string) : bool :=
  match a, b with
  | Some x, Some y => String.eqb x y
  | None, None => true
  | _, _ => false
  end.

(** ** numpy arrays *)

(** The integer dtypes that occur: [int64], which numpy chooses for Python
    integers, and [uint8], the dtype of a mask. *)
Inductive int_kind : Type := int64 | uint8.

(** [StrArray w a] is an array of dtype [<Uw]: an element takes [w]
    characters, a shorter string being followed by NUL characters up to
    that number.  [a] lists the strings that were stored. *)
Inductive ndarray : Type :=
| StrArray (w : nat) (a : list string)
| IntArray (k : int_kind) (a : list Z)
| FloatArray (a : list spec_float).

(** A Python scalar, as [ndarray.item] returns it; [PNone] is [None]. *)
Inductive scalar : Type :=
| PStr (s : string)
| PInt (z : Z)
| PFloat (f : spec_float)
| PNone.

(** What the constructors accept in place of a data cell: one scalar, or
    a homogeneous sequence. *)
Inductive array_like : Type :=
| Str (s : string)
| Int (z : Z)
| Float (f : spec_float)
| Strs (l : list string)
| Ints (l : list Z)
| Floats (l : list spec_float).

Inductive dtype : Type := dtype_str | dtype_uint8.

Module np.

Definition len (a : ndarray) : nat :=
  match a with
  | StrArray _ l => List.length l
  | IntArray _ l => List.length l
  | FloatArray l => List.length l
  end.

Definition NUL : ascii := Py.chr 0.

(** A string without the NUL characters at its end. *)
Fixpoint rstrip_nul (s : string) : string :=
  match s with
  | EmptyString => EmptyString
  | String c s' =>
      match rstrip_nul s' with
      | EmptyString => if Ascii.eqb c NUL then EmptyString else Py.str1 c
      | r => String c r
      end
  end.

(** An element of an array of dtype [<Uw] as it is read: the [w]
    characters that are stored, without the NUL characters at their
    end. *)
Definition read (w : nat) (s : string) : string := rstrip_nul (Py.take w s).

Definition strs (w : nat) (l : list string) : list string := map (read w) l.

Definition items (a : ndarray) : list scalar :=
  match a with
  | StrArray w l => map PStr (strs w l)
  | IntArray _ l => map PInt l
  | FloatArray l => map PFloat l
  end.

(** [a.item()]: the only element of an array of size one. *)
Definition item (a : ndarray) : result scalar :=
  match items a with
  | [x] => Ok x
  | _ => Raise (ValueError
           "can only convert an array of size 1 to a Python scalar")
  end.

Definition in_int64 (z : Z) : bool :=
  ((- 2 ^ 63 <=? z) && (z <? 2 ^ 63))%Z.

(** The number of characters of the elements of an array built from
    strings: the length of the longest, at least one. *)
Definition width (l : list string) : nat :=
  fold_right (fun s w => Nat.max (String.length s) w) 1 l.

(** [np.asarray] of a non-empty homogeneous sequence.  Integers outside
    the 64-bit range make numpy choose other dtypes and are left out. *)
Definition asarray (d : array_like) : result ndarray :=
  match d with
  | Str s => Ok (StrArray (width [s]) [s])
  | Int z => if in_int64 z then Ok (IntArray int64 [z]) else Unmodelled
  | Float f => Ok (FloatArray [f])
  | Strs l => Ok (StrArray (width l) l)
  | Ints l => if forallb in_int64 l then Ok (IntArray int64 l) else Unmodelled
  | Floats l => Ok (FloatArray l)
  end.

(** The number of characters that [astype(str)] gives to an integer:
    21 for [int64], 3 for [uint8]. *)
Definition int_width (k : int_kind) : nat :=
  match k with
  | int64 => 21
  | uint8 => 3
  end.

(** [a.astype(dtype)]. *)
Definition astype (a : ndarray) (t : dtype) : result ndarray :=
  match t, a with
  | dtype_str, StrArray w l => Ok (StrArray w l)
  | dtype_str, IntArray k l => Ok (StrArray (int_width k) (map str_of_Z l))
  | dtype_str, FloatArray _ => Unmodelled
  | dtype_uint8, IntArray _ l =>
      Ok (IntArray uint8 (map (fun z => z mod 256)%Z l))
  | dtype_uint8, _ => Unmodelled
  end.

(** [np.array(l).dtype.itemsize] for a list of strings: four bytes for
    each character. *)
Definition itemsize (l : list string) : nat := 4 * width l.

(** The elements of [np.array(l)] for a list of strings, as they are
    read. *)
Definition elements (l : list string) : list string := strs (width l) l.

Definition of_Z (z : Z) : spec_float := binary_normalize 53 1024 z 0 false.

(** [x == k] for an array element [x] and an integer [k]. *)
Definition item_eq_int (x : scalar) (k : Z) : bool :=
  match x with
  | PInt z => (z =? k)%Z
  | PFloat f => SFeqb f (of_Z k)
  | _ => false
  end.

(** [x == s] for an array element [x] and a string [s]. *)
Definition item_eq_str (x : scalar) (s : string) : bool :=
  match x with
  | PStr t => String.eqb t s
  | _ => false
  end.

Definition item_eq (x y : scalar) : bool :=
  match x, y with
  | PStr s, PStr t => String.eqb s t
  | PInt a, PInt b => (a =? b)%Z
  | PFloat f, PFloat g => SFeqb f g
  | PInt a, PFloat g => SFeqb (of_Z a) g
  | PFloat f, PInt b => SFeqb f (of_Z b)
  | _, _ => false
  end.

Fixpoint all2 {A B : Type} (f : A -> B -> bool) (l1 : list A) (l2 : list B)
  : bool :=
  match l1, l2 with
  | [], [] => true
  | x :: l1', y :: l2' => f x y && all2 f l1' l2'
  | _, _ => false
  end.

Definition array_equal (a b : ndarray) : bool :=
  all2 item_eq (items a) (items b).

End np.

(** ** Presence codes *)

(** Modelled from the spec: the enumeration [MaskValue] that [cif.py]
    imports from the module [component], with the codes PRESENT(0),
    INAPPLICABLE(1), MISSING(2). *)
Module MaskValue.
Definition PRESENT : Z := 0.
Definition INAPPLICABLE : Z := 1.
Definition MISSING : Z := 2.
End MaskValue.

Definition UNICODE_CHAR_SIZE : nat := 4.

(** ** Data cells *)

Module CIFData.

Record t : Type := mk { array : ndarray }.

Definition _arrayfy (data : array_like) : result ndarray :=
  match data with
  | Strs [] | Ints [] | Floats [] =>
      Raise (ValueError "Array must contain at least one element")
  | _ => np.asarray data
  end.

Definition __init__ (data : array_like) (dt : option dtype) : result t :=
  a <- _arrayfy data ;;
  match dt with
  | Some d => a' <- np.astype a d ;; Ok (mk a')
  | None => Ok (mk a)
  end.

Definition __len__ (self : t) : nat := np.len (array self).

Definition __eq__ (self other : t) : bool :=
  np.array_equal (array self) (array other).

End CIFData.

(** ** Rendering of numbers *)

Definition round_half_even (num den : Z) : Z :=
  let q := (num / den)%Z in
  let r := (num mod den)%Z in
  if (2 * r <? den)%Z then q
  else if (den <? 2 * r)%Z then (q + 1)%Z
  else if Z.even q then q else (q + 1)%Z.

Fixpoint zeros (n : nat) : string :=
  match n with
  | O => EmptyString
  | S n' => String "0" (zeros n')
  end.

Definition pad3 (n : Z) : string :=
  let d := str_of_Z n in zeros (3 - String.length d) ++ d.

(** The format [.3f] of a float: the exact value of the float is rounded
    to the nearest multiple of a thousandth, ties to the even one. *)
Definition format_3f (f : spec_float) : string :=
  match f with
  | S754_nan => "nan"
  | S754_infinity s => if s then "-inf" else "inf"
  | S754_zero s => (if s then "-" else "") ++ "0.000"
  | S754_finite s m e =>
      let n :=
        if (0 <=? e)%Z then (Z.pos m * 2 ^ e * 1000)%Z
        else round_half_even (Z.pos m * 1000) (2 ^ (- e)) in
      (if s then "-" else "")
        ++ str_of_Z (n / 1000) ++ "." ++ pad3 (n mod 1000)
  end.

(** [str(x)] for a scalar that is not a float. *)
Definition str_of_scalar (x : scalar) : string :=
  match x with
  | PStr s => s
  | PInt z => str_of_Z z
  | PFloat f => format_3f f
  | PNone => "None"
  end.

(** ** Masked columns *)

(** A constructor argument is a data cell or something to make one of. *)
Inductive cell_arg : Type :=
| Cell (d : CIFData.t)
| Raw (a : array_like).

Fixpoint put_where {A : Type} (a : list A) (m : list bool) (v : A) : list A :=
  match a, m with
  | x :: a', b :: m' => (if b then v else x) :: put_where a' m' v
  | _, _ => a
  end.

Module CIFColumn.

Record t : Type := mk { data : CIFData.t; mask : option CIFData.t }.

(** The presence codes read off the data: [mask[data.array == "."]] and
    [mask[data.array == "?"]] are assigned in this order. *)
Definition infer_mask (d : CIFData.t) : list Z :=
  let xs := np.items (CIFData.array d) in
  let m0 := repeat MaskValue.PRESENT (CIFData.__len__ d) in
  let m1 := put_where m0 (map (fun x => np.item_eq_str x ".") xs)
              MaskValue.INAPPLICABLE in
  put_where m1 (map (fun x => np.item_eq_str x "?") xs) MaskValue.MISSING.

Definition __init__ (data : cell_arg) (mask : option cell_arg) : result t :=
  d <- match data with
       | Cell d => Ok d
       | Raw a => CIFData.__init__ a (Some dtype_str)
       end ;;
  match mask with
  | None =>
      let m := infer_mask d in
      if forallb (fun c => (c =? MaskValue.PRESENT)%Z) m
      then Ok (mk d None)
      else Ok (mk d (Some (CIFData.mk (IntArray uint8 m))))
  | Some ma =>
      m <- match ma with
           | Cell m => Ok m
           | Raw a => CIFData.__init__ a (Some dtype_uint8)
           end ;;
      if negb (CIFData.__len__ m =? CIFData.__len__ d)%nat
      then Raise IndexError
      else Ok (mk d (Some m))
  end.

Definition __len__ (self : t) : nat := CIFData.__len__ (data self).

Definition as_item (self : t) : result scalar :=
  match mask self with
  | None => np.item (CIFData.array (data self))
  | Some m =>
      c <- np.item (CIFData.array m) ;;
      if np.item_eq_int c MaskValue.PRESENT then
        x <- np.item (CIFData.array (data self)) ;;
        match x with
        | PFloat f => Ok (PStr (format_3f f))
        | _ => Ok (PStr (str_of_scalar x))
        end
      else if np.item_eq_int c MaskValue.INAPPLICABLE then Ok (PStr ".")
      else if np.item_eq_int c MaskValue.MISSING then Ok (PStr "?")
      else Ok PNone
  end.

(** [as_array(str, masked_value)], the textual view of the column, which
    is the default and the one [cif.py] itself asks for: the elements of
    the array that the source returns, as they are read.  A value assigned
    to the masked elements is stored in the array of text, so it is read
    cut to the width of that array.  With a mask and float data the source
    calls [np.array] with the keyword [type], which numpy refuses with a
    [TypeError]. *)
Definition as_array (self : t) (masked_value : option string)
  : result (list string) :=
  let a := CIFData.array (data self) in
  match mask self with
  | None =>
      r <- np.astype a dtype_str ;;
      match r with
      | StrArray w l => Ok (np.strs w l)
      | _ => Raise TypeError
      end
  | Some m =>
      match a with
      | FloatArray _ => Raise TypeError
      | _ =>
          r <- np.astype a dtype_str ;;
          match r with
          | StrArray w l =>
              let ms := np.items (CIFData.array m) in
              if negb (List.length ms =? List.length l)%nat
              then Raise IndexError
              else
                let inapplicable :=
                  map (fun c => np.item_eq_int c MaskValue.INAPPLICABLE) ms in
                let missing :=
                  map (fun c => np.item_eq_int c MaskValue.MISSING) ms in
                match masked_value with
                | None =>
                    Ok (np.strs w
                          (put_where (put_where l inapplicable ".")
                             missing "?"))
                | Some v =>
                    Ok (np.strs w
                          (put_where (put_where l inapplicable v) missing v))
                end
          | _ => Raise TypeError
          end
      end
  end.

Definition opt_eq (a b : option CIFData.t) : bool :=
  match a, b with
  | Some x, Some y => CIFData.__eq__ x y
  | None, None => true
  | _, _ => false
  end.

Definition __eq__ (self other : t) : bool :=
  if negb (CIFData.__eq__ (data self) (data other)) then false
  else if negb (opt_eq (mask self) (mask other)) then false
  else true.

End CIFColumn.

(** ** Quoting *)

Definition len (s : string) : nat := String.length s.

(** [value[0] == value[-1] == c]. *)
Definition first_last_are (c : ascii) (value : string) : bool :=
  match value with
  | String a s' =>
      Ascii.eqb a (Py.last_char a s') && Ascii.eqb (Py.last_char a s') c
  | EmptyString => false
  end.

Definition squoted (value : string) : string :=
  String Py.SQ (value ++ Py.str1 Py.SQ).

Definition dquoted (value : string) : string :=
  String Py.DQ (value ++ Py.str1 Py.DQ).

Definition _quote (value : string) : string :=
  if (len value =? 0)%nat then "''"
  else if (2 <=? len value)%nat && first_last_are Py.SQ value then value
  else if (2 <=? len value)%nat && first_last_are Py.DQ value then value
  else if Py.first_is "_" value then squoted value
  else if Py.contains Py.SQ value then dquoted value
  else if Py.contains Py.DQ value then squoted value
  else if Py.contains Py.SP value then squoted value
  else if Py.contains Py.TAB value then squoted value
  else if Py.contains Py.LF value then squoted value
  else value.

Definition _multiline (value : string) : string :=
  if Py.contains Py.LF value
  then String Py.LF (String ";" (value ++ String Py.LF (String ";" (Py.str1 Py.LF))))
  else value.

(** [_quote] applied to whatever [as_item] returned: [len] of a number or
    of [None] is a [TypeError]. *)
Definition _quote_item (x : scalar) : result string :=
  match x with
  | PStr s => Ok (_quote s)
  | _ => Raise TypeError
  end.

Definition float_one : spec_float := S754_finite false 4503599627370496 (-52).

(** ** Regular expressions

    The fragment of [re] that [_split_one_line] uses, matched the way
    [re] does: alternatives in order, greedy repetition, backtracking
    through the continuation [k]. *)

Inductive regex : Type :=
| Chr (p : ascii -> bool)
| Eos
| Seq (r1 r2 : regex)
| Alt (r1 r2 : regex)
| Star (r : regex)
| NotAhead (r : regex)
| Group (n : nat) (r : regex).

(** The text of the groups that took part in a match, latest first. *)
Definition caps : Type := list (nat * string).

Fixpoint group (g : caps) (n : nat) : string :=
  match g with
  | [] => EmptyString
  | (m, s) :: g' => if (m =? n)%nat then s else group g' n
  end.

Fixpoint rmatch (R : Type) (r : regex) (s : string) (g : caps)
  (k : string -> caps -> option R) {struct r} : option R :=
  match r with
  | Chr p =>
      match s with
      | String c s' => if p c then k s' g else None
      | EmptyString => None
      end
  | Eos =>
      match s with
      | EmptyString => k s g
      | String c EmptyString => if Ascii.eqb c Py.LF then k s g else None
      | _ => None
      end
  | Seq r1 r2 => rmatch r1 s g (fun s1 g1 => rmatch r2 s1 g1 k)
  | Alt r1 r2 =>
      match rmatch r1 s g k with
      | Some x => Some x
      | None => rmatch r2 s g k
      end
  | Star r1 =>
      (fix loop (fuel : nat) (s : string) (g : caps) {struct fuel}
         : option R :=
         match fuel with
         | O => k s g
         | S fuel' =>
             match
               rmatch r1 s g
                 (fun s1 g1 =>
                    if (len s1 <? len s)%nat then loop fuel' s1 g1 else None)
             with
             | Some x => Some x
             | None => k s g
             end
         end) (len s) s g
  | NotAhead r1 =>
      match rmatch r1 s g (fun _ _ => Some tt) with
      | Some _ => None
      | None => k s g
      end
  | Group n r1 =>
      rmatch r1 s g
        (fun s1 g1 => k s1 ((n, Py.take (len s - len s1) s) :: g1))
  end.

(** [re.findall]: the matches from left to right, each search starting
    where the previous match ended.  [skip] counts the characters of the
    current match that are still to be passed. *)
Fixpoint findall_aux (r : regex) (s : string) (skip : nat) : list caps :=
  match s with
  | EmptyString =>
      match skip, rmatch r s [] (fun _ g => Some g) with
      | O, Some g => [g]
      | _, _ => []
      end
  | String _ s' =>
      match skip with
      | S n => findall_aux r s' n
      | O =>
          match rmatch r s [] (fun rest g => Some (rest, g)) with
          | Some (rest, g) => g :: findall_aux r s' (len s - len rest - 1)
          | None => findall_aux r s' 0
          end
      end
  end.

Definition findall (r : regex) (s : string) : list caps := findall_aux r s 0.

Definition is_char (c : ascii) : ascii -> bool := fun d => Ascii.eqb d c.
Definition not_char (c : ascii) : ascii -> bool :=
  fun d => negb (Ascii.eqb d c).
Definition not_space : ascii -> bool := fun d => negb (Py.isspace d).

(** [(q(?:q(?! )|[^q])*q)(?:\s|$)] for a quote character [q]. *)
Definition quote_pattern (n : nat) (q : ascii) : regex :=
  Seq (Group n
         (Seq (Chr (is_char q))
            (Seq (Star (Alt (Seq (Chr (is_char q))
                               (NotAhead (Chr (is_char Py.SP))))
                          (Chr (not_char q))))
               (Chr (is_char q)))))
      (Alt (Chr Py.isspace) Eos).

Definition single_quote_pattern : regex := quote_pattern 1 Py.SQ.
Definition double_quote_pattern : regex := quote_pattern 2 Py.DQ.

(** [([^\s]+)] *)
Definition unquoted_pattern : regex :=
  Group 3 (Seq (Chr not_space) (Star (Chr not_space))).

Definition combined_pattern : regex :=
  Alt single_quote_pattern (Alt double_quote_pattern unquoted_pattern).

(** [next(group for group in match if group)] *)
Definition first_nonempty (g : caps) : result string :=
  match filter (fun x => negb (len x =? 0)%nat) [group g 1; group g 2; group g 3]
  with
  | x :: _ => Ok x
  | [] => Raise StopIteration
  end.

Definition unquote_field (field : string) : string :=
  if first_last_are Py.SQ field || first_last_are Py.DQ field
  then Py.slice field 1 (-1)
  else field.

Definition _split_one_line (line : string) : result (list string) :=
  mapM (fun m => field <- first_nonempty m ;; Ok (unquote_field field))
       (findall combined_pattern line).

(** ** Line helpers *)

(** [line[0]] is read only when the line has something left after
    stripping, so it is there. *)
Definition _is_empty (line : string) : bool :=
  (len (Py.strip line) =? 0)%nat || Py.first_is "#" line.

Definition _parse_data_block_name (line : string) : option string :=
  if Py.startswith "data_" line then Some (Py.drop 5 line) else None.

Definition _parse_category_name (line : string) : result (option string) :=
  c <- Py.first line ;;
  if negb (Ascii.eqb c "_") then Ok None
  else Ok (Some (Py.slice line 1 (Py.find "." line))).

Definition _is_loop_start (line : string) : bool :=
  Py.startswith "loop_" line.

(** [processed_lines[out_i - 1] += extra], where [out] is the part of
    [processed_lines] filled so far.  With nothing filled the index is
    [-1], the last entry, which still holds [None]. *)
Fixpoint add_to_last (out : list string) (extra : string)
  : result (list string) :=
  match out with
  | [] => Raise TypeError
  | [x] => Ok [x ++ extra]
  | x :: out' => r <- add_to_last out' extra ;; Ok (x :: r)
  end.

(** The loop of [_to_single] over [lines[in_i:]].  [multi] is the text of
    a multi-line value whose closing line has not been read yet (the
    inner [while]); running out of lines there is the [IndexError] of
    [lines[j]].  [out] is [processed_lines[:out_i]]. *)
Fixpoint _to_single_loop (is_looped : bool) (lines : list string)
  (multi : option string) (out : list string) : result (list string) :=
  match lines with
  | [] =>
      match multi with
      | Some _ => Raise IndexError
      | None => Ok out
      end
  | line :: rest =>
      match multi with
      | Some multi_line_str =>
          if negb (String.eqb line ";") then
            _to_single_loop is_looped rest
              (Some (multi_line_str ++ String Py.LF line)) out
          else if is_looped then
            _to_single_loop is_looped rest None
              (out ++ [_quote multi_line_str])%list
          else
            out' <- add_to_last out (String Py.SP (_quote multi_line_str)) ;;
            _to_single_loop is_looped rest None out'
      | None =>
          c <- Py.first line ;;
          if Ascii.eqb c ";" then
            _to_single_loop is_looped rest (Some (Py.drop 1 line)) out
          else if negb is_looped && negb (Ascii.eqb c "_") then
            out' <- add_to_last out (String Py.SP line) ;;
            _to_single_loop is_looped rest None out'
          else _to_single_loop is_looped rest None (out ++ [line])%list
      end
  end.

Definition _to_single (lines : list string) (is_looped : bool)
  : result (list string) :=
  _to_single_loop is_looped lines None [].

(** [l[i]] for [0 <= i]. *)
Definition index {A : Type} (l : list A) (i : nat) : result A :=
  match nth_error l i with
  | Some x => Ok x
  | None => Raise IndexError
  end.

(** The lines of a text that are not empty and not comments, stripped. *)
Definition content_lines (lines : list string) : list string :=
  map Py.strip (filter (fun line => negb (_is_empty line)) lines).

(** ** Categories *)

(** A column given to a category: a column, or what makes one. *)
Inductive column_arg : Type :=
| Col (c : CIFColumn.t)
| NoCol (a : cell_arg).

Definition sdict (V : Type) : Type := dict string V.
Definition sget {V : Type} (d : sdict V) (k : string) : option V :=
  dict_get String.eqb d k.
Definition sset {V : Type} (d : sdict V) (k : string) (v : V) : sdict V :=
  dict_set String.eqb d k v.
Definition sdel {V : Type} (d : sdict V) (k : string) : sdict V :=
  dict_del String.eqb d k.

(** [itertools.cycle] over a list: [next] yields the head and moves it to
    the end. *)
Definition cycle_next (names : list string) : result (string * list string) :=
  match names with
  | [] => Raise StopIteration
  | x :: rest => Ok (x, (rest ++ [x])%list)
  end.

Module CIFCategory.

Record t : Type := mk {
  _name : option string;
  _row_count : option nat;
  _columns : sdict CIFColumn.t
}.

(** The dict comprehension of the constructor. *)
Fixpoint coerce_columns (items : list (string * column_arg))
  (acc : sdict CIFColumn.t) : result (sdict CIFColumn.t) :=
  match items with
  | [] => Ok acc
  | (key, col) :: rest =>
      c <- match col with
           | Col c => Ok c
           | NoCol a => CIFColumn.__init__ a None
           end ;;
      coerce_columns rest (sset acc key c)
  end.

Definition __init__ (columns : option (sdict column_arg))
  (name : option string) : result t :=
  match columns with
  | None => Ok (mk name None [])
  | Some cs => d <- coerce_columns cs [] ;; Ok (mk name None d)
  end.

Definition name (self : t) : option string := _name self.

Definition set_name (self : t) (name : option string) : t :=
  mk name (_row_count self) (_columns self).

(** The property [row_count]; it fills the cache [_row_count]. *)
Definition row_count (self : t) : t * result nat :=
  match _row_count self with
  | Some n => (self, Ok n)
  | None =>
      match dict_values (_columns self) with
      | [] => (self, Raise StopIteration)
      | c :: _ =>
          let n := CIFColumn.__len__ c in
          (mk (_name self) (Some n) (_columns self), Ok n)
      end
  end.

Definition __getitem__ (self : t) (key : string) : result CIFColumn.t :=
  match sget (_columns self) key with
  | Some c => Ok c
  | None => Raise (KeyError key)
  end.

Definition __setitem__ (self : t) (key : string) (column : column_arg)
  : t * result unit :=
  match
    match column with
    | Col c => Ok c
    | NoCol a => CIFColumn.__init__ a None
    end
  with
  | Ok c => (mk (_name self) (_row_count self) (sset (_columns self) key c),
             Ok tt)
  | Raise e => (self, Raise e)
  | Unmodelled => (self, Unmodelled)
  end.

Definition __delitem__ (self : t) (key : string) : t * result unit :=
  if (List.length (_columns self) =? 1)%nat then
    (self, Raise (ValueError "At least one column must remain"))
  else
    match sget (_columns self) key with
    | Some _ =>
        (mk (_name self) (_row_count self) (sdel (_columns self) key), Ok tt)
    | None => (self, Raise (KeyError key))
    end.

Definition __len__ (self : t) : nat := List.length (_columns self).

Definition keys (self : t) : list string := dict_keys (_columns self).

(** [self[col_name] != other[col_name]] for every key of [self]; the key
    sets are equal when this loop runs. *)
Fixpoint columns_equal (ks : list string) (self other : t) : result bool :=
  match ks with
  | [] => Ok true
  | k :: ks' =>
      a <- __getitem__ self k ;;
      b <- __getitem__ other k ;;
      if negb (CIFColumn.__eq__ a b) then Ok false
      else columns_equal ks' self other
  end.

Definition __eq__ (self other : t) : result bool :=
  if negb (same_key_set String.eqb (keys self) (keys other)) then Ok false
  else columns_equal (keys self) self other.

Fixpoint _deserialize_single_loop (lines : list string)
  (category_dict : sdict CIFColumn.t) : result (sdict CIFColumn.t) :=
  match lines with
  | [] => Ok category_dict
  | line :: rest =>
      parts <- _split_one_line line ;;
      p0 <- index parts 0 ;;
      column_name <- index (Py.split_on "." p0) 1 ;;
      column <- index parts 1 ;;
      c <- CIFColumn.__init__ (Raw (Str column)) None ;;
      _deserialize_single_loop rest (sset category_dict column_name c)
  end.

Definition _deserialize_single (lines : list string)
  : result (sdict CIFColumn.t) :=
  _deserialize_single_loop lines [].

(** The first loop of [_deserialize_looped]: the leading key lines.  It
    returns the dictionary, the column names and the lines from index
    [i] on. *)
Fixpoint read_keys (lines : list string)
  (category_dict : sdict (list string)) (column_names : list string)
  : result (sdict (list string) * list string * list string) :=
  match lines with
  | [] => Ok (category_dict, column_names, [])
  | key_line :: rest =>
      c <- Py.first key_line ;;
      if Ascii.eqb c "_" then
        key <- index (Py.split_on "." key_line) 1 ;;
        read_keys rest (sset category_dict key []) (column_names ++ [key])%list
      else Ok (category_dict, column_names, lines)
  end.

(** The removal of quotes in the branch without [_split_one_line]. *)
Definition strip_quotes (v : string) : result string :=
  a <- Py.first v ;;
  z <- Py.last v ;;
  if (Ascii.eqb a Py.DQ && Ascii.eqb z Py.DQ)
     || (Ascii.eqb a Py.SQ && Ascii.eqb z Py.SQ)
  then Ok (Py.slice v 1 (-1))
  else Ok v.

Definition line_values (expect_whitespace : bool) (data_line : string)
  : result (list string) :=
  if expect_whitespace then _split_one_line data_line
  else mapM strip_quotes (Py.split data_line).

(** [for val in values: category_dict[next(column_names)].append(val)] *)
Fixpoint append_values (values : list string)
  (category_dict : sdict (list string)) (column_names : list string)
  : result (sdict (list string) * list string) :=
  match values with
  | [] => Ok (category_dict, column_names)
  | val :: rest =>
      '(column_name, column_names') <- cycle_next column_names ;;
      match sget category_dict column_name with
      | None => Raise (KeyError column_name)
      | Some l =>
          append_values rest (sset category_dict column_name (l ++ [val])%list)
            column_names'
      end
  end.

Fixpoint read_data (expect_whitespace : bool) (data_lines : list string)
  (category_dict : sdict (list string)) (column_names : list string)
  : result (sdict (list string)) :=
  match data_lines with
  | [] => Ok category_dict
  | data_line :: rest =>
      values <- line_values expect_whitespace data_line ;;
      '(d, names) <- append_values values category_dict column_names ;;
      read_data expect_whitespace rest d names
  end.

Definition _deserialize_looped (lines : list string)
  (expect_whitespace : bool) : result (sdict (list string)) :=
  '(category_dict, column_names, data_lines) <- read_keys lines [] [] ;;
  read_data expect_whitespace data_lines category_dict column_names.

Definition deserialize (text : string) (expect_whitespace : bool)
  : result t :=
  let lines := content_lines (Py.splitlines text) in
  l0 <- index lines 0 ;;
  let is_looped := _is_loop_start l0 in
  let lines := if is_looped then tl lines else lines in
  l0 <- index lines 0 ;;
  category_name <- _parse_category_name l0 ;;
  match category_name with
  | None => Raise (DeserializationError "Failed to parse category name")
  | Some _ =>
      lines <- _to_single lines is_looped ;;
      if is_looped then
        category_dict <- _deserialize_looped lines expect_whitespace ;;
        __init__
          (Some (map (fun kv => (fst kv, NoCol (Raw (Strs (snd kv)))))
                   category_dict))
          category_name
      else
        category_dict <- _deserialize_single lines ;;
        __init__ (Some (map (fun kv => (fst kv, Col (snd kv))) category_dict))
          category_name
  end.

Definition length_error (column_name : string) (n row_count : nat) : exn :=
  SerializationError
    ("All columns must have the same length, but '" ++ column_name
     ++ "' has length " ++ str_of_nat n
     ++ ", while the first column has row_count " ++ str_of_nat row_count).

(** The loop of [serialize] over the columns; it returns the cache
    [_row_count] as the loop leaves it. *)
Fixpoint check_lengths (items : list (string * CIFColumn.t))
  (row_count : option nat) : option nat * result unit :=
  match items with
  | [] => (row_count, Ok tt)
  | (column_name, column) :: rest =>
      match row_count with
      | None => check_lengths rest (Some (CIFColumn.__len__ column))
      | Some n =>
          if negb (CIFColumn.__len__ column =? n)%nat
          then (row_count,
                Raise (length_error column_name (CIFColumn.__len__ column) n))
          else check_lengths rest row_count
      end
  end.

Definition full_key (name key : string) : string :=
  "_" ++ name ++ "." ++ key.

Definition max_len (keys : list string) : result nat :=
  match keys with
  | [] => Raise (ValueError "max() arg is an empty sequence")
  | k :: ks => Ok (fold_left (fun m x => Nat.max m (len x)) ks (len k))
  end.

Definition _serialize_single (self : t) : result (list string) :=
  match _name self with
  | None => Raise TypeError
  | Some name =>
      let keys := map (full_key name) (keys self) in
      m <- max_len keys ;;
      let req_len := m + 3 in
      mapM (fun kc : string * CIFColumn.t =>
              x <- CIFColumn.as_item (snd kc) ;;
              q <- _quote_item x ;;
              Ok (Py.ljust (fst kc) req_len ++ _multiline q))
           (combine keys (dict_values (_columns self)))
  end.

(** One line of values: [array[i].ljust(column_n_chars[j])] for every
    column [j].  An array is given by the list of strings that [np.array]
    was called with. *)
Fixpoint value_line (column_arrays : list (list string))
  (column_n_chars : list nat) (i : nat) : result string :=
  match column_arrays, column_n_chars with
  | array :: arrays, n :: ns =>
      x <- index (np.elements array) i ;;
      r <- value_line arrays ns i ;;
      Ok (Py.ljust x n ++ r)
  | _, _ => Ok EmptyString
  end.

Definition _serialize_looped (self : t) : result (list string) :=
  match _name self with
  | None => Raise TypeError
  | Some name =>
      let key_lines :=
        map (fun key => full_key name key ++ " ") (keys self) in
      column_arrays <-
        mapM (fun column =>
                array <- CIFColumn.as_array column None ;;
                Ok (map (fun element => _multiline (_quote element)) array))
             (dict_values (_columns self)) ;;
      let column_n_chars :=
        map (fun array => np.itemsize array / UNICODE_CHAR_SIZE + 1)
            column_arrays in
      match _row_count self with
      | None => Raise TypeError
      | Some row_count =>
          value_lines <-
            mapM (value_line column_arrays column_n_chars) (seq 0 row_count) ;;
          Ok ("loop_" :: key_lines ++ value_lines)%list
      end
  end.

Definition NL : string := Py.str1 Py.LF.

Definition serialize (self : t) : t * result string :=
  match _name self with
  | None => (self, Raise (SerializationError "Category name is required"))
  | Some _ =>
      if (List.length (_columns self) =? 0)%nat then
        (self, Raise (ValueError "At least one column is required"))
      else
        let (row_count, checked) :=
          check_lengths (_columns self) (_row_count self) in
        let self' := mk (_name self) row_count (_columns self) in
        (self',
         _ <- checked ;;
         lines <-
           match row_count with
           | Some 0 => Raise (ValueError "At least one row is required")
           | Some 1 => _serialize_single self'
           | _ => _serialize_looped self'
           end ;;
         Ok (Py.join NL (lines ++ [EmptyString])%list))
  end.

End CIFCategory.

(** ** Lazy slots

    A block or a file keeps an element as text until it is asked for. *)

Inductive slot (A : Type) : Type :=
| Text (text : string)
| Obj (a : A).

Arguments Text {A} text.
Arguments Obj {A} a.

(** [lines[a:b]] *)
Definition lines_between {A : Type} (l : list A) (a b : nat) : list A :=
  firstn (b - a) (skipn a l).

Section ElementDict.

Variable K : Type.
Variable eqb : K -> K -> bool.
Variable A : Type.

(** The dict comprehension of [_create_element_dict]; [starts] holds
    [element_starts[i:]], the stop index included. *)
Fixpoint element_dict (lines : list string) (names : list K)
  (starts : list nat) (acc : dict K (slot A)) : result (dict K (slot A)) :=
  match names with
  | [] => Ok acc
  | element_name :: names' =>
      a <- index starts 0 ;;
      b <- index starts 1 ;;
      element_dict lines names' (tl starts)
        (dict_set eqb acc element_name
           (Text (Py.join (Py.str1 Py.LF) (lines_between lines a b))))
  end.

Definition _create_element_dict (lines : list string)
  (element_names : list K) (element_starts : list nat)
  : result (dict K (slot A)) :=
  element_dict lines element_names
    (element_starts ++ [List.length lines])%list [].

End ElementDict.

Arguments element_dict {K} eqb {A} lines names starts acc.
Arguments _create_element_dict {K} eqb {A} lines element_names element_starts.

(** A key as an f-string prints it. *)
Definition str_of_key (k : option string) : string :=
  match k with
  | Some s => s
  | None => "None"
  end.

(** ** Blocks *)

Module CIFBlock.

(** The name of a category that [deserialize] finds may be [None], so the
    keys are optional strings. *)
Definition key : Type := option string.

Record t : Type := mk { _categories : dict key (slot CIFCategory.t) }.

Definition __init__ (categories : option (dict key (slot CIFCategory.t)))
  : t :=
  match categories with
  | None => mk []
  | Some d => mk d
  end.

(** The loop of [deserialize] over [enumerate(lines)], at the line of
    index [i]; [lines] is [lines[i:]], so [lines[i + 1]] is its second
    element. *)
Fixpoint find_categories (lines : list string) (i : nat)
  (current_category_name : key)
  : result (list nat * list key) :=
  match lines with
  | [] => Ok ([], [])
  | line :: rest =>
      if negb (_is_empty line) then
        let is_loop_in_line := _is_loop_start line in
        category_name_in_line <- _parse_category_name line ;;
        if is_loop_in_line
           || (negb (key_eqb category_name_in_line current_category_name)
               && match category_name_in_line with
                  | Some _ => true
                  | None => false
                  end)
        then
          category_name_in_line <-
            (if is_loop_in_line then
               next <- index rest 0 ;; _parse_category_name next
             else Ok category_name_in_line) ;;
          '(starts, names) <-
            find_categories rest (S i) category_name_in_line ;;
          Ok (i :: starts, category_name_in_line :: names)
        else find_categories rest (S i) current_category_name
      else find_categories rest (S i) current_category_name
  end.

Definition deserialize (text : string) : result t :=
  let lines := Py.splitlines text in
  '(category_starts, category_names) <- find_categories lines 0 None ;;
  d <- _create_element_dict key_eqb lines category_names category_starts ;;
  Ok (mk d).

Definition serialize_error (category_name : key) : exn :=
  SerializationError
    ("Failed to serialize category '" ++ str_of_key category_name ++ "'").

(** The loop of [serialize]; it returns the slots as the loop leaves
    them: a category that was serialized has its name set and its row
    count cached. *)
Fixpoint serialize_items (items : list (key * slot CIFCategory.t))
  : list (key * slot CIFCategory.t) * result (list string) :=
  match items with
  | [] => ([], Ok [])
  | (category_name, Text category) :: rest =>
      let (rest', r) := serialize_items rest in
      ((category_name, Text category) :: rest',
       text_blocks <- r ;; Ok (category :: text_blocks))
  | (category_name, Obj category) :: rest =>
      let (category', r) :=
        CIFCategory.serialize (CIFCategory.set_name category category_name) in
      match try_except r (serialize_error category_name) with
      | Ok text =>
          let (rest', r') := serialize_items rest in
          ((category_name, Obj category') :: rest',
           text_blocks <- r' ;;
           Ok (text :: ("#" ++ CIFCategory.NL) :: text_blocks))
      | Raise e => ((category_name, Obj category') :: rest, Raise e)
      | Unmodelled => ((category_name, Obj category') :: rest, Unmodelled)
      end
  end.

Definition serialize (self : t) : t * result string :=
  let (items, r) := serialize_items (_categories self) in
  (mk items, text_blocks <- r ;; Ok (Py.join EmptyString text_blocks)).

Definition deserialize_error (k : key) : exn :=
  DeserializationError
    ("Failed to deserialize category '" ++ str_of_key k ++ "'").

Definition __getitem__ (self : t) (k : key) : t * result CIFCategory.t :=
  match dict_get key_eqb (_categories self) k with
  | None => (self, Raise (KeyError (str_of_key k)))
  | Some (Obj category) => (self, Ok category)
  | Some (Text category) =>
      let expect_whitespace :=
        if key_eqb k (Some "atom_site") then false else true in
      match
        try_except (CIFCategory.deserialize category expect_whitespace)
          (deserialize_error k)
      with
      | Ok category =>
          (mk (dict_set key_eqb (_categories self) k (Obj category)),
           Ok category)
      | Raise e => (self, Raise e)
      | Unmodelled => (self, Unmodelled)
      end
  end.

(** A block holds its categories by reference, and [__setitem__] sets
    the name of the object that its caller passes: whoever holds this
    object sees the new name, also the block itself under another key.
    So [__setitem__] is given over a [heap] of the category objects that
    exist, a reference [ref] being a position in it, and over the slots
    of the block with a reference in the place of each object,
    [references].  A reference to no object does not occur in the
    program. *)
Definition ref : Type := nat.

Definition heap : Type := list CIFCategory.t.

Definition references : Type := dict key (slot ref).

(** The object at [r] replaced by [c]. *)
Fixpoint assign (h : heap) (r : ref) (c : CIFCategory.t) : heap :=
  match h, r with
  | [], _ => []
  | _ :: h', 0 => c :: h'
  | x :: h', S r' => x :: assign h' r' c
  end.

Definition __setitem__ (h : heap) (self : references) (k : key)
  (category : ref) : heap * references * result unit :=
  match nth_error h category with
  | Some c =>
      (assign h category (CIFCategory.set_name c k),
       dict_set key_eqb self k (Obj category),
       Ok tt)
  | None => (h, self, Unmodelled)
  end.

Definition __delitem__ (self : t) (k : key) : t * result unit :=
  match dict_get key_eqb (_categories self) k with
  | None => (self, Raise (KeyError (str_of_key k)))
  | Some _ => (mk (dict_del key_eqb (_categories self) k), Ok tt)
  end.

Definition __len__ (self : t) : nat := List.length (_categories self).

Definition keys (self : t) : list key := dict_keys (_categories self).

(** The loop of [__eq__]: [self[cat_name] != other[cat_name]], which
    parses the slots it meets on both sides. *)
Fixpoint categories_equal (ks : list key) (self other : t)
  : t * t * result bool :=
  match ks with
  | [] => (self, other, Ok true)
  | k :: ks' =>
      let (self', a) := __getitem__ self k in
      match a with
      | Ok a =>
          let (other', b) := __getitem__ other k in
          match b with
          | Ok b =>
              match CIFCategory.__eq__ a b with
              | Ok true => categories_equal ks' self' other'
              | r => (self', other', r)
              end
          | Raise e => (self', other', Raise e)
          | Unmodelled => (self', other', Unmodelled)
          end
      | Raise e => (self', other, Raise e)
      | Unmodelled => (self', other, Unmodelled)
      end
  end.

Definition __eq__ (self other : t) : t * t * result bool :=
  if negb (same_key_set key_eqb (keys self) (keys other))
  then (self, other, Ok false)
  else categories_equal (keys self) self other.

End CIFBlock.

(** ** Files *)

Module CIFFile.

Record t : Type := mk { _blocks : dict string (slot CIFBlock.t) }.

Definition __init__ (blocks : option (dict string (slot CIFBlock.t))) : t :=
  match blocks with
  | None => mk []
  | Some d => mk d
  end.

(** The loop of [deserialize] over [enumerate(lines)], at index [i]. *)
Fixpoint find_blocks (lines : list string) (i : nat)
  : list nat * list string :=
  match lines with
  | [] => ([], [])
  | line :: rest =>
      let (starts, names) := find_blocks rest (S i) in
      if negb (_is_empty line) then
        match _parse_data_block_name line with
        | Some data_block_name => (i :: starts, data_block_name :: names)
        | None => (starts, names)
        end
      else (starts, names)
  end.

Definition deserialize (text : string) : result t :=
  let lines := Py.splitlines text in
  let (block_starts, block_names) := find_blocks lines 0 in
  d <- _create_element_dict String.eqb lines block_names block_starts ;;
  Ok (mk d).

Definition serialize_error (block_name : string) : exn :=
  SerializationError ("Failed to serialize block '" ++ block_name ++ "'").

(** The loop of [serialize]; it returns the slots as the loop leaves
    them. *)
Fixpoint serialize_items (items : list (string * slot CIFBlock.t))
  : list (string * slot CIFBlock.t) * result (list string) :=
  match items with
  | [] => ([], Ok [])
  | (block_name, Text block) :: rest =>
      let (rest', r) := serialize_items rest in
      ((block_name, Text block) :: rest',
       text_blocks <- r ;;
       Ok (("data_" ++ block_name ++ CIFCategory.NL)
             :: ("#" ++ CIFCategory.NL) :: block :: text_blocks))
  | (block_name, Obj block) :: rest =>
      let (block', r) := CIFBlock.serialize block in
      match try_except r (serialize_error block_name) with
      | Ok text =>
          let (rest', r') := serialize_items rest in
          ((block_name, Obj block') :: rest',
           text_blocks <- r' ;;
           Ok (("data_" ++ block_name ++ CIFCategory.NL)
                 :: ("#" ++ CIFCategory.NL) :: text :: text_blocks))
      | Raise e => ((block_name, Obj block') :: rest, Raise e)
      | Unmodelled => ((block_name, Obj block') :: rest, Unmodelled)
      end
  end.

Definition serialize (self : t) : t * result string :=
  let (items, r) := serialize_items (_blocks self) in
  (mk items,
   text_blocks <- r ;;
   Ok (Py.join EmptyString (text_blocks ++ [EmptyString])%list)).

Definition deserialize_error (key : string) : exn :=
  DeserializationError ("Failed to deserialize block '" ++ key ++ "'").

Definition __getitem__ (self : t) (key : string) : t * result CIFBlock.t :=
  match dict_get String.eqb (_blocks self) key with
  | None => (self, Raise (KeyError key))
  | Some (Obj block) => (self, Ok block)
  | Some (Text block) =>
      match try_except (CIFBlock.deserialize block) (deserialize_error key)
      with
      | Ok block =>
          (mk (dict_set String.eqb (_blocks self) key (Obj block)), Ok block)
      | Raise e => (self, Raise e)
      | Unmodelled => (self, Unmodelled)
      end
  end.

Definition __setitem__ (self : t) (key : string) (block : CIFBlock.t) : t :=
  mk (dict_set String.eqb (_blocks self) key (Obj block)).

Definition __delitem__ (self : t) (key : string) : t * result unit :=
  match dict_get String.eqb (_blocks self) key with
  | None => (self, Raise (KeyError key))
  | Some _ => (mk (dict_del String.eqb (_blocks self) key), Ok tt)
  end.

Definition __len__ (self : t) : nat := List.length (_blocks self).

Definition keys (self : t) : list string := dict_keys (_blocks self).

(** [self[block_name]] stores the parsed block before the comparison,
    which parses categories of that block; the stored block is written
    back here with what the comparison did to it. *)
Fixpoint blocks_equal (ks : list string) (self other : t)
  : t * t * result bool :=
  match ks with
  | [] => (self, other, Ok true)
  | k :: ks' =>
      let (self', a) := __getitem__ self k in
      match a with
      | Ok a =>
          let (other', b) := __getitem__ other k in
          match b with
          | Ok b =>
              let '(a', b', r) := CIFBlock.__eq__ a b in
              let self'' := __setitem__ self' k a' in
              let other'' := __setitem__ other' k b' in
              match r with
              | Ok true => blocks_equal ks' self'' other''
              | _ => (self'', other'', r)
              end
          | Raise e => (self', other', Raise e)
          | Unmodelled => (self', other', Unmodelled)
          end
      | Raise e => (self', other, Raise e)
      | Unmodelled => (self', other, Unmodelled)
      end
  end.

Definition __eq__ (self other : t) : t * t * result bool :=
  if negb (same_key_set String.eqb (keys self) (keys other))
  then (self, other, Ok false)
  else blocks_equal (keys self) self other.

(** The property [lines]: [self.serialize().splitlines()]. *)
Definition lines (self : t) : t * result (list string) :=
  let (self', r) := serialize self in
  (self', text <- r ;; Ok (Py.splitlines text)).

(** The property [block]: [self[next(iter(self))]] when there is one
    block. *)
Definition block (self : t) : t * result CIFBlock.t :=
  if negb (__len__ self =? 1)%nat then
    (self, Raise (ValueError "There are multiple blocks in the file"))
  else
    match keys self with
    | k :: _ => __getitem__ self k
    | [] => (self, Raise StopIteration)
    end.

End CIFFile.

(** * Vocabulary of the properties *)

(** ** Strings *)

(** [has c s]: the character [c] occurs in [s]. *)
Definition has (c : ascii) (s : string) : Prop :=
  In c (list_ascii_of_string s).

(** [wrapped q s]: [s] starts and ends with the quote [q], the two being
    different characters of [s]. *)
Definition wrapped (q : ascii) (s : string) : Prop :=
  exists body, s = String q (body ++ Py.str1 q).

(** ** The quoting rule *)

(** The rule in the words of the specification, which asks for double
    quotes around a value that begins with the name marker. *)
Definition quote_as_specified (value : string) : string :=
  if (len value =? 0)%nat then "''"
  else if ((2 <=? len value)%nat && first_last_are Py.SQ value)
          || ((2 <=? len value)%nat && first_last_are Py.DQ value)
  then value
  else if Py.first_is "_" value || Py.contains Py.SQ value
  then dquoted value
  else if Py.contains Py.DQ value || Py.contains Py.SP value
          || Py.contains Py.TAB value || Py.contains Py.LF value
  then squoted value
  else value.

(** ** Mask inference *)

(** The presence code of a token in the words of the specification. *)
Definition presence_code (s : string) : Z :=
  if String.eqb s "." then MaskValue.INAPPLICABLE
  else if String.eqb s "?" then MaskValue.MISSING
  else MaskValue.PRESENT.

(** [textual d w l]: the constructor argument [d] is the text tokens [l],
    which are stored with [w] characters each. *)
Inductive textual : cell_arg -> nat -> list string -> Prop :=
| textual_seq (l : list string) :
    l <> [] -> textual (Raw (Strs l)) (np.width l) l
| textual_one (s : string) : textual (Raw (Str s)) (np.width [s]) [s]
| textual_cell (w : nat) (l : list string) :
    textual (Cell (CIFData.mk (StrArray w l))) w l.

(** The last character of [s] is not NUL. *)
Definition nul_free_end (s : string) : bool :=
  negb (Py.last_is np.NUL s).

(** The tokens [l] as an array built from them gives them back: without
    the NUL characters at their ends. *)
Definition kept (l : list string) : list string := map np.rstrip_nul l.

(** The column that the constructor makes of the strings [l] stored with
    [w] characters each. *)
Definition column_of (w : nat) (l : list string) : CIFColumn.t :=
  CIFColumn.mk (CIFData.mk (StrArray w l))
    (if forallb (fun c => (c =? MaskValue.PRESENT)%Z)
          (map presence_code (np.strs w l))
     then None
     else Some (CIFData.mk (IntArray uint8 (map presence_code (np.strs w l))))).

(** The column that the constructor makes of the tokens [l]. *)
Definition column_of_tokens (l : list string) : CIFColumn.t :=
  column_of (np.width l) l.

(** A token that ends with NUL. *)
Definition dot_nul : string := String "." (Py.str1 np.NUL).

(** ** Single items *)

Definition unmasked_float (f : spec_float) : result CIFColumn.t :=
  CIFColumn.__init__ (Cell (CIFData.mk (FloatArray [f]))) None.

Definition masked_float (f : spec_float) (code : Z) : result CIFColumn.t :=
  CIFColumn.__init__ (Cell (CIFData.mk (FloatArray [f])))
    (Some (Raw (Ints [code]))).

(** ** Row counts at serialization *)

Definition col_len (kc : string * CIFColumn.t) : nat :=
  CIFColumn.__len__ (snd kc).

(** ** Failures of serialization *)

Definition nameless_category : CIFCategory.t :=
  CIFCategory.mk None None
    [("c", CIFColumn.mk (CIFData.mk (StrArray 1 ["v"])) None)].

Definition empty_category : CIFCategory.t := CIFCategory.mk (Some "n") None [].

(** ** Failure of a lazy parse *)

Definition block_with_bad_text : CIFBlock.t :=
  CIFBlock.mk [(Some "a", Text "x")].

Definition file_with_bad_text : CIFFile.t :=
  CIFFile.mk [("b", Text "loop_")].

(** ** Repeated access *)

(** [text_column c]: the column holds text and, if it has a mask, integer
    codes; such are the columns that come out of a parse. *)
Definition text_column (c : CIFColumn.t) : Prop :=
  (exists w l, CIFColumn.data c = CIFData.mk (StrArray w l))
  /\ (CIFColumn.mask c = None
      \/ exists k m, CIFColumn.mask c = Some (CIFData.mk (IntArray k m))).

Definition text_columns (d : sdict CIFColumn.t) : Prop :=
  forall kc, In kc d -> text_column (snd kc).

Definition spaced_text : string :=
  "_a.b 1" ++ CIFCategory.NL ++ "#" ++ CIFCategory.NL.

(** ** Round-robin reading of a looped category *)

(** Row [i] of column [j] out of [k] takes token [i * k + j]. *)
Definition round_robin_column (tokens : list string) (k j n : nat)
  : list string :=
  map (fun i => nth (i * k + j) tokens "") (seq 0 n).

Definition round_robin_columns (tokens : list string) (k n : nat)
  : list (list string) :=
  map (fun j => round_robin_column tokens k j n) (seq 0 k).

(** [key_line name line]: the line declares the column [name]. *)
Definition key_line (line name : string) : Prop :=
  Py.first_is "_" line = true
  /\ nth_error (Py.split_on "." line) 1 = Some name.

(** The category that a looped text with the column names [names] and the
    tokens [tokens] is read into. *)
Definition looped_category (name : option string) (names tokens : list string)
  (n : nat) : CIFCategory.t :=
  CIFCategory.mk name None
    (combine names
       (map column_of_tokens
          (round_robin_columns tokens (List.length names) n))).

Definition text_of (lines : list string) : string :=
  Py.join CIFCategory.NL (lines ++ [""]).

Definition duplicate_names_text : string :=
  text_of ["loop_"; "_c.a"; "_c.a"; "1 2"; "3 4"].

Definition no_rows_text : string := text_of ["loop_"; "_c.a"; "_c.b"].

Definition wrapped_rows_text : string :=
  text_of ["loop_"; "_c.x"; "_c.y"; "_c.z"; "1 2 3 4"; "5 6"; "7 8 9"].

(** ** Words and the two tokenizers *)

Fixpoint all_chars (p : ascii -> bool) (s : string) : bool :=
  match s with
  | EmptyString => true
  | String c s' => p c && all_chars p s'
  end.

Definition is_quote (c : ascii) : bool :=
  Ascii.eqb c Py.SQ || Ascii.eqb c Py.DQ.

Definition no_break : ascii -> bool := fun c => negb (Py.islinebreak c).

(** A bare word: not empty, free of white space, not opened by a quote. *)
Definition bare (t : string) : bool :=
  match t with
  | EmptyString => false
  | String c _ => negb (is_quote c) && all_chars not_space t
  end.

(** [s] does not begin, or does not end, with white space. *)
Definition no_leading (s : string) : bool :=
  match s with
  | String c _ => negb (Py.isspace c)
  | EmptyString => true
  end.

Definition no_trailing (s : string) : bool :=
  match s with
  | String c s' => negb (Py.isspace (Py.last_char c s'))
  | EmptyString => true
  end.

(** A text that is not empty and has no white space at its ends. *)
Definition solid (w : string) : Prop :=
  w <> "" /\ no_leading w = true /\ no_trailing w = true.

(** The quote [q] stands in [s] directly before a space. *)
Fixpoint closes_early (q : ascii) (s : string) : bool :=
  match s with
  | String a (String b _ as s') =>
      (Ascii.eqb a q && Ascii.eqb b Py.SP) || closes_early q s'
  | _ => false
  end.

(** A text in the quotes [q] in which no quote stands directly before a
    space. *)
Definition enclosed (q : ascii) (w : string) : Prop :=
  exists body, w = String q (body ++ Py.str1 q) /\ closes_early q body = false.

(** A field of a line, as the regular expression of [_split_one_line]
    takes it: a bare word, or a text in single or in double quotes. *)
Definition field (w : string) : Prop :=
  bare w = true \/ enclosed Py.SQ w \/ enclosed Py.DQ w.

(** What the lines are made of for each of the two tokenizers: fields for
    the regular expression, anything without white space for
    [str.split]; nothing empty and nothing with a line break. *)
Definition token (regex : bool) (w : string) : Prop :=
  (if regex then field w else all_chars not_space w = true)
  /\ w <> "" /\ all_chars no_break w = true.

(** Words with the white space that follows each of them. *)
Fixpoint spaced (toks : list (string * nat)) : string :=
  match toks with
  | [] => EmptyString
  | (t, m) :: rest => t ++ Py.spaces m ++ spaced rest
  end.

(** Only the last word may go without white space after it. *)
Fixpoint gaps (toks : list (string * nat)) : Prop :=
  match toks with
  | [] => True
  | (_, m) :: rest => (m = 0 -> rest = []) /\ gaps rest
  end.

(** [s] is empty or begins with white space. *)
Definition at_gap (s : string) : Prop :=
  match s with
  | EmptyString => True
  | String c _ => Py.isspace c = true
  end.

(** [s] is empty or begins with a space. *)
Definition at_sp (s : string) : Prop :=
  match s with
  | EmptyString => True
  | String c _ => c = Py.SP
  end.

(** ** Values and labels *)

(** What is written for a value: the value as its array gives it back,
    in the quotes that [_quote] sets. *)
Definition written (v : string) : string :=
  _multiline (_quote (np.rstrip_nul v)).

(** The quote that [_quote] sets around [v], if it sets one. *)
Definition quote_mark (v : string) : option ascii :=
  if String.eqb (_quote v) (squoted v) then Some Py.SQ
  else if String.eqb (_quote v) (dquoted v) then Some Py.DQ
  else None.

(** A value that [_split_one_line] reads back from what [_quote] makes of
    it: it holds no line break; where [_quote] sets quotes, none of these
    stands in the value directly before a space; where it sets none, the
    value is a bare word. *)
Definition one_field (v : string) : bool :=
  all_chars no_break v
  && match quote_mark v with
     | Some q => negb (closes_early q v)
     | None => bare v
     end.

(** A value that [str.split] and the removal of quotes read back: in
    addition it holds no white space. *)
Definition one_word (v : string) : bool :=
  one_field v && all_chars not_space v.

Definition readable (regex : bool) (v : string) : bool :=
  if regex then one_field v else one_word v.

(** Where a text is read: as a category, as a category of a block, or as
    a category of a block of a file. *)
Inductive level : Type := in_category | in_block | in_file.

(** A line that begins with [w] is read as a line of values: it is no
    comment and opens no multi-line value, in a block it is no loop
    marker, and in a file it is no header of a block either. *)
Definition opens_row (lv : level) (w : string) : bool :=
  negb (Py.first_is "#" w) && negb (Py.first_is ";" w)
  && match lv with
     | in_category => true
     | in_block => negb (Py.startswith "loop_" w)
     | in_file =>
         negb (Py.startswith "loop_" w) && negb (Py.startswith "data_" w)
     end.

Definition label_char (c : ascii) : bool :=
  not_space c && negb (Ascii.eqb c ".").

(** A label, for the name of a category or of a column: no white space
    and no dot. *)
Definition label (s : string) : bool := all_chars label_char s.

(** ** Reading a serialized category back *)

(** The columns [items], each a name with its values, as their arrays
    give the values back. *)
Definition stored (items : list (string * list string))
  : list (string * list string) :=
  map (fun kv => (fst kv, kept (snd kv))) items.

(** The category made of the columns [items]. *)
Definition category_of (nm : string) (rc : option nat)
  (items : list (string * list string)) : CIFCategory.t :=
  CIFCategory.mk (Some nm) rc
    (map (fun kv => (fst kv, column_of_tokens (snd kv))) items).

(** [n] values under each of the labels. *)
Definition shape (items : list (string * list string)) (n : nat) : Prop :=
  items <> [] /\ forall kv, In kv items -> List.length (snd kv) = n.

(** [n] values under each of the distinct labels, every value, as its
    array gives it back, being one that the tokenizer reads back: a
    single row is always read with the regular expression, several rows
    are read with it when white space is expected; with several rows the
    values of the first column, as they are written, open a line of
    values. *)
Definition table (lv : level) (ew : bool)
  (items : list (string * list string)) (n : nat) : Prop :=
  items <> []
  /\ NoDup (map fst items)
  /\ (forall kv, In kv items ->
        label (fst kv) = true
        /\ List.length (snd kv) = n
        /\ Forall (fun v =>
                     readable ((n =? 1)%nat || ew) (np.rstrip_nul v) = true)
             (snd kv))
  /\ (2 <= n ->
      Forall (fun v => opens_row lv (written v) = true)
        (snd (hd ("", []) items))).

(** One line of a single-row category. *)
Definition single_line (nm : string) (w : nat) (kv : string * list string)
  : string :=
  Py.ljust (CIFCategory.full_key nm (fst kv)) w ++ written (hd "" (snd kv)).

Definition single_toks (nm : string) (w : nat) (kv : string * list string)
  : list (string * nat) :=
  [(CIFCategory.full_key nm (fst kv),
    w - len (CIFCategory.full_key nm (fst kv)));
   (written (hd "" (snd kv)), 0)].

(** ** Looped categories *)

(** The columns as they are written. *)
Definition written_arrays (items : list (string * list string))
  : list (list string) :=
  map (fun kv => map written (snd kv)) items.

(** The words of row [i] with the white space after each. *)
Definition row_toks (arrays : list (list string)) (i : nat)
  : list (string * nat) :=
  map (fun l => (nth i l "", np.width l + 1 - len (nth i l ""))) arrays.

(** The same words with nothing after the last one. *)
Fixpoint trimmed (toks : list (string * nat)) : list (string * nat) :=
  match toks with
  | [] => []
  | [(t, _)] => [(t, 0)]
  | tm :: rest => tm :: trimmed rest
  end.

(** The lines that [_serialize_looped] writes. *)
Definition looped_lines (nm : string) (items : list (string * list string))
  (n : nat) : list string :=
  let key_lines :=
    map (fun kv => CIFCategory.full_key nm (fst kv) ++ " ") items in
  let value_lines :=
    map (fun i => spaced (row_toks (written_arrays items) i)) (seq 0 n) in
  "loop_" :: (key_lines ++ value_lines)%list.


(** ** The round trip of a category *)

Definition columns_of (items : list (string * list string))
  : sdict CIFColumn.t :=
  map (fun kv => (fst kv, column_of_tokens (snd kv))) items.

Definition max_key_len (nm : string) (items : list (string * list string))
  : nat :=
  match
    CIFCategory.max_len
      (map (fun kv => CIFCategory.full_key nm (fst kv)) items)
  with
  | Ok M => M
  | _ => 0
  end.

(** The lines that [serialize] writes for a table of [n] rows. *)
Definition category_lines (nm : string)
  (items : list (string * list string)) (n : nat) : list string :=
  match n with
  | 1 => map (single_line nm (max_key_len nm items + 3)) items
  | _ => looped_lines nm items n
  end.

(** ** Lines as a block or a file meets them *)

(** A line that starts no category while [cur] is the current one. *)
Definition quiet (cur : CIFBlock.key) (line : string) : Prop :=
  _is_empty line = true
  \/ (_is_loop_start line = false
      /\ exists r, _parse_category_name line = Ok r /\ (r = None \/ r = cur)).



(** ** The round trip of a block *)

(** A category of a block: its name, its columns and its number of
    rows. *)
Definition entry : Type := string * list (string * list string) * nat.

Definition entry_name (e : entry) : string := fst (fst e).

Definition entry_key (e : entry) : CIFBlock.key := Some (entry_name e).

Definition entry_lines (e : entry) : list string :=
  category_lines (fst (fst e)) (snd (fst e)) (snd e).

(** What [CIFBlock.__getitem__] passes for [expect_whitespace] when it
    parses the category named [nm]. *)
Definition expects_whitespace (nm : string) : bool :=
  if key_eqb (Some nm) (Some "atom_site") then false else true.

Definition entry_ok (lv : level) (e : entry) : Prop :=
  label (fst (fst e)) = true
  /\ table lv (expects_whitespace (fst (fst e))) (snd (fst e)) (snd e)
  /\ 1 <= snd e.

(** The lines of the categories, each followed by a comment line. *)
Definition block_lines (cats : list entry) : list string :=
  concat (map (fun e => entry_lines e ++ ["#"])%list cats).

Definition catalog (lv : level) (cats : list entry) : Prop :=
  NoDup (map entry_name cats) /\ Forall (entry_ok lv) cats.

(** The slot holds the category of the entry as an object. *)
Definition holds (e : entry) (kv : CIFBlock.key * slot CIFCategory.t)
  : Prop :=
  fst kv = entry_key e
  /\ exists c,
       snd kv = Obj c
       /\ CIFCategory._columns c = columns_of (snd (fst e))
       /\ (CIFCategory._row_count c = None
           \/ CIFCategory._row_count c = Some (snd e)).



(** ** Slicing the lines into elements *)



(** ** The round trip of a file *)

(** A block of a file: its name and its categories. *)
Definition volume : Type := string * list entry.

Definition volume_ok (b : volume) : Prop :=
  all_chars no_break (fst b) = true /\ catalog in_file (snd b).

Definition library (blocks : list volume) : Prop :=
  NoDup (map fst blocks) /\ Forall volume_ok blocks.

(** The header of the block, a comment line, and the lines of its
    categories. *)
Definition volume_lines (b : volume) : list string :=
  ("data_" ++ fst b) :: "#" :: block_lines (snd b).

Definition file_lines (blocks : list volume) : list string :=
  concat (map volume_lines blocks).

(** The slot holds the block of the volume as an object. *)
Definition keeps (b : volume) (kv : string * slot CIFBlock.t) : Prop :=
  fst kv = fst b
  /\ exists slots,
       snd kv = Obj (CIFBlock.mk slots) /\ Forall2 holds (snd b) slots.



(** ** Objects built from values *)

(** The columns given to [CIFCategory] as lists of strings. *)
Definition raw_columns (items : list (string * list string))
  : sdict column_arg :=
  map (fun kv => (fst kv, NoCol (Raw (Strs (snd kv))))) items.

(** [CIFCategory(columns)] under the name of the entry, as an item of the
    dictionary given to [CIFBlock]. *)
Definition build_slot (e : entry)
  : result (CIFBlock.key * slot CIFCategory.t) :=
  c <- CIFCategory.__init__ (Some (raw_columns (snd (fst e)))) None ;;
  Ok (entry_key e, Obj c).

Definition build_block (cats : list entry) : result CIFBlock.t :=
  slots <- mapM build_slot cats ;;
  Ok (CIFBlock.__init__ (Some slots)).

Definition build_volume (b : volume) : result (string * slot CIFBlock.t) :=
  block <- build_block (snd b) ;;
  Ok (fst b, Obj block).

Definition build_file (blocks : list volume) : result CIFFile.t :=
  slots <- mapM build_volume blocks ;;
  Ok (CIFFile.__init__ (Some slots)).

(** ** The round trip *)

Definition fruits : list (string * list string) :=
  [("name", ["apple"; "banana"]); ("color", ["red"; "yellow"])].

(** A value that ends with NUL. *)
Definition red_nul : string := "red" ++ Py.str1 np.NUL.

(** Values that [_quote] encloses, and one that ends with NUL. *)
Definition basket : list (string * list string) :=
  [("name", ["green apple"; "it's"; ""]);
   ("color", [red_nul; "_none"; "#fff"])].

Definition measures : list (string * list string) :=
  [("cm", ["5"]); ("note", ["; about"])].

(** Atoms, which are read without the regular expression. *)
Definition atoms : list (string * list string) :=
  [("id", ["1"; "2"]); ("name", ["N"; "C'"])].

Definition larder : list entry :=
  [("basket", basket, 3); ("measures", measures, 1); ("atom_site", atoms, 2)].

Definition cellar : list volume := [("first", larder); ("second", [])].

(** ** Further vocabulary *)

(** What a slot of references holds: the text, or the object that the
    reference points to. *)
Definition deref (h : CIFBlock.heap) (s : slot CIFBlock.ref)
  : option (slot CIFCategory.t) :=
  match s with
  | Text raw => Some (Text raw)
  | Obj r =>
      match nth_error h r with
      | Some c => Some (Obj c)
      | None => None
      end
  end.

(** The block that the slots of references stand for. *)
Fixpoint view (h : CIFBlock.heap) (self : CIFBlock.references)
  : option CIFBlock.t :=
  match self with
  | [] => Some (CIFBlock.mk [])
  | (k, s) :: rest =>
      match deref h s, view h rest with
      | Some v, Some b => Some (CIFBlock.mk ((k, v) :: CIFBlock._categories b))
      | _, _ => None
      end
  end.

(** What the block holds under [other] once the object at [r] is [c]. *)
Definition seen (self : CIFBlock.references) (b : CIFBlock.t)
  (r : CIFBlock.ref) (c : CIFCategory.t) (other : CIFBlock.key)
  : option (slot CIFCategory.t) :=
  match dict_get key_eqb self other with
  | Some (Obj r') =>
      if (r' =? r)%nat then Some (Obj c)
      else dict_get key_eqb (CIFBlock._categories b) other
  | _ => dict_get key_eqb (CIFBlock._categories b) other
  end.

(** One category held under two keys, and another one. *)
Definition shared_heap : CIFBlock.heap :=
  [CIFCategory.mk (Some "a") None [("x", column_of_tokens ["1"])];
   CIFCategory.mk (Some "c") None [("y", column_of_tokens ["2"])]].

Definition shared_slots : CIFBlock.references :=
  [(Some "a", Obj 0); (Some "c", Obj 1)].

(** No quote character occurs in [s]. *)
Definition quote_free (s : string) : bool :=
  all_chars (fun c => negb (is_quote c)) s.

(** A block that holds one category without columns, and a file that
    holds this block. *)
Definition block_without_columns : CIFBlock.t :=
  CIFBlock.mk [(Some "a", Obj (CIFCategory.mk None None []))].

Definition file_without_columns : CIFFile.t :=
  CIFFile.mk [("b", Obj block_without_columns)].

(** A slot that still holds text. *)
Definition unparsed {A : Type} (s : slot A) : Prop :=
  match s with
  | Text _ => True
  | Obj _ => False
  end.

(** What [CIFFile.serialize] writes for slots that hold text: the header
    of each block, a comment line, and the text of the slot. *)
Definition stored_blocks (d : dict string (slot CIFBlock.t)) : list string :=
  flat_map
    (fun kv =>
       match snd kv with
       | Text raw =>
           [("data_" ++ fst kv ++ CIFCategory.NL)%string;
            ("#" ++ CIFCategory.NL)%string; raw]
       | Obj _ => []
       end) d.

(** What [CIFBlock.serialize] writes for slots that hold text. *)
Definition stored_categories (d : dict CIFBlock.key (slot CIFCategory.t))
  : list string :=
  flat_map
    (fun kv =>
       match snd kv with
       | Text raw => [raw]
       | Obj _ => []
       end) d.

(** A text of two blocks. *)
Definition two_blocks_text : string :=
  text_of ["data_a"; "_c.x 1"; "data_b"; "_c.y 2"].

(** What [np.ndarray.item] says about an array that does not hold one
    element. *)
Definition item_error : exn :=
  ValueError "can only convert an array of size 1 to a Python scalar".

(** Columns of two and of three rows. *)
Definition two_rows : CIFColumn.t := column_of_tokens ["a"; "b"].
Definition three_rows : CIFColumn.t := column_of_tokens ["a"; "b"; "c"].

(** A text of one block with one category. *)
Definition one_block_text : string := text_of ["data_a"; "_c.x 1"].

(** A value that [_quote] protects: it holds no double quote; when it
    holds a single quote it neither begins with the name marker nor is
    wrapped in single quotes; when it holds none, and holds white space,
    it begins with the name marker or holds a space, a tab or a line
    feed. *)
Definition quote_safe (v : string) : bool :=
  negb (Py.contains Py.DQ v)
  && (if Py.contains Py.SQ v
      then negb (Py.first_is "_" v)
           && negb ((2 <=? len v)%nat && first_last_are Py.SQ v)
      else all_chars not_space v || Py.first_is "_" v
           || Py.contains Py.SP v || Py.contains Py.TAB v
           || Py.contains Py.LF v).

(** A value that one line can carry and that an array gives back as it
    is: it holds no line break and does not end with NUL. *)
Definition quotable (v : string) : bool :=
  quote_safe v && all_chars no_break v && nul_free_end v.

(** One value under each of the distinct labels. *)
Definition one_row (items : list (string * string)) : Prop :=
  items <> []
  /\ NoDup (map fst items)
  /\ forall kv, In kv items ->
       label (fst kv) = true /\ quotable (snd kv) = true.

(** The columns given to [CIFCategory] as single strings. *)
Definition raw_values (items : list (string * string)) : sdict column_arg :=
  map (fun kv => (fst kv, NoCol (Raw (Str (snd kv))))) items.

Definition one_row_columns (items : list (string * string))
  : sdict CIFColumn.t :=
  map (fun kv => (fst kv, column_of_tokens [snd kv])) items.

(** The line of a column that holds one value. *)
Definition quoted_line (nm : string) (w : nat) (kv : string * string)
  : string :=
  Py.ljust (CIFCategory.full_key nm (fst kv)) w ++ _quote (snd kv).

(** A game and its maker. *)
Definition games : list (string * string) :=
  [("title", "a dog's life"); ("genre", "_puzzle"); ("year", "2003")].

(** A text of two categories. *)
Definition two_categories_text : string := text_of ["_a.x 1"; "_b.y 2"].

(** The value of a column with one row: a string that one line carries,
    or a text of several lines, given by its first line, the lines in
    between and its last line. *)
Inductive cell : Type :=
| One (v : string)
| Many (first : string) (middle : list string) (last : string).

Definition value_of (c : cell) : string :=
  match c with
  | One v => v
  | Many a ms b => Py.join CIFCategory.NL (a :: ms ++ [b])
  end.

(** A line of a text: no quote characters and no line breaks. *)
Definition text_line (l : string) : bool :=
  quote_free l && all_chars no_break l.

(** A line between the first and the last: it is not empty, has no white
    space at its ends, is no comment and does not close the text. *)
Definition inner_line (l : string) : bool :=
  text_line l && negb (len l =? 0)%nat && no_leading l && no_trailing l
  && negb (Py.first_is "#" l) && negb (String.eqb l ";").

Definition cell_ok (c : cell) : Prop :=
  match c with
  | One v => quotable v = true
  | Many a ms b =>
      text_line a = true /\ no_trailing a = true
      /\ Forall (fun l => inner_line l = true) ms
      /\ text_line b = true /\ no_leading b = true
      /\ Py.first_is "#" b = false /\ nul_free_end b = true
  end.

(** One cell under each of the distinct labels. *)
Definition one_row_of_cells (items : list (string * cell)) : Prop :=
  items <> []
  /\ NoDup (map fst items)
  /\ forall kv, In kv items -> label (fst kv) = true /\ cell_ok (snd kv).

Definition raw_cells (items : list (string * cell)) : sdict column_arg :=
  map (fun kv => (fst kv, NoCol (Raw (Str (value_of (snd kv)))))) items.

Definition cell_columns (items : list (string * cell)) : sdict CIFColumn.t :=
  map (fun kv => (fst kv, column_of_tokens [value_of (snd kv)])) items.

(** What [_serialize_single] writes for a column. *)
Definition cell_line (nm : string) (w : nat) (kv : string * cell) : string :=
  Py.ljust (CIFCategory.full_key nm (fst kv)) w
  ++ _multiline (_quote (value_of (snd kv))).

(** The lines of the text that come from a column. *)
Definition cell_text_lines (nm : string) (w : nat) (kv : string * cell)
  : list string :=
  match snd kv with
  | One v => [cell_line nm w kv]
  | Many a ms b =>
      Py.ljust (CIFCategory.full_key nm (fst kv)) w
      :: (";'" ++ a)%string
      :: (ms ++ [(b ++ "'")%string; ";"; ""])%list
  end.

(** The same lines as [deserialize] keeps them. *)
Definition cell_content_lines (nm : string) (w : nat) (kv : string * cell)
  : list string :=
  match snd kv with
  | One v => [cell_line nm w kv]
  | Many a ms b =>
      CIFCategory.full_key nm (fst kv)
      :: (";'" ++ a)%string
      :: (ms ++ [(b ++ "'")%string; ";"])%list
  end.

(** The line that [_to_single] makes of them. *)
Definition cell_single_line (nm : string) (w : nat) (kv : string * cell)
  : string :=
  match snd kv with
  | One v => cell_line nm w kv
  | Many a ms b =>
      CIFCategory.full_key nm (fst kv)
      ++ " " ++ _quote (value_of (snd kv))
  end.

(** A note of two lines and its title. *)
Definition notes : list (string * cell) :=
  [("title", One "two words"); ("text", Many "first line" [] "second line")].

(** * Properties *)

(** ** The model on sample values *)

Example format_3f_one : format_3f float_one = "1.000".
Proof. reflexivity. Qed.
Example format_3f_small :
  format_3f (S754_finite true 4503599627370496 (-72)) = "-0.000".
Proof. reflexivity. Qed.
Example format_3f_half :
  format_3f (S754_finite false 4507997673881600 (-51)) = "2.002".
Proof. vm_compute. reflexivity. Qed.
Example quote_ex1 : _quote "has space" = "'has space'".
Proof. reflexivity. Qed.

Example split_one_line_ex1 :
  _split_one_line "_n.c   'a dog's life' x" = Ok ["_n.c"; "a dog's life"; "x"].
Proof. vm_compute. reflexivity. Qed.
Example split_one_line_ex2 :
  _split_one_line "'ab'" = Ok ["ab"].
Proof. vm_compute. reflexivity. Qed.
Example split_one_line_ex3 :
  _split_one_line "'a b' 'c" = Ok ["a b"; "'c"].
Proof. vm_compute. reflexivity. Qed.
Example split_one_line_ex4 :
  _split_one_line "a'b' '' x'" = Ok ["a'b'"; ""; "x'"].
Proof. vm_compute. reflexivity. Qed.

(** ** Strings *)

Lemma append_nil_r (s : string) : s ++ "" = s.
Proof. induction s as [|c s IH]; simpl; [reflexivity | now rewrite IH]. Qed.

Lemma append_assoc (a b c : string) : (a ++ b) ++ c = a ++ (b ++ c).
Proof. induction a as [|x a IH]; simpl; [reflexivity | now rewrite IH]. Qed.

Lemma length_append (a b : string) :
  String.length (a ++ b) = String.length a + String.length b.
Proof. induction a as [|x a IH]; simpl; [reflexivity | now rewrite IH]. Qed.

Lemma contains_has (c : ascii) (s : string) :
  Py.contains c s = true <-> has c s.
Proof.
  unfold has. induction s as [|d s IH]; simpl.
  - split; [discriminate | tauto].
  - rewrite orb_true_iff, IH, Ascii.eqb_eq. tauto.
Qed.

Lemma contains_false (c : ascii) (s : string) :
  Py.contains c s = false <-> ~ has c s.
Proof.
  rewrite <- contains_has. destruct (Py.contains c s); split; intros; easy.
Qed.

Lemma last_char_append (a : ascii) (body : string) (q : ascii) :
  Py.last_char a (body ++ Py.str1 q) = q.
Proof.
  revert a. induction body as [|b body IH]; intros a; simpl; auto.
Qed.

Lemma last_char_split (a : ascii) (s : string) :
  s <> "" -> exists body, s = body ++ Py.str1 (Py.last_char a s).
Proof.
  revert a. induction s as [|b s IH]; intros a Hne; [congruence|].
  destruct s as [|c s].
  - exists "". reflexivity.
  - destruct (IH b) as [body Hb]; [discriminate|].
    exists (String b body). simpl in *. now rewrite <- Hb.
Qed.

Lemma wrapped_spec (q : ascii) (s : string) :
  (2 <=? len s)%nat && first_last_are q s = true <-> wrapped q s.
Proof.
  unfold wrapped, len. split.
  - intros H. apply andb_true_iff in H as [Hlen H].
    destruct s as [|a s]; [discriminate|].
    simpl in H. apply andb_true_iff in H as [H1 H2].
    apply Ascii.eqb_eq in H1, H2.
    destruct s as [|b s]; [discriminate|].
    destruct (last_char_split a (s := String b s)) as [body Hb];
      [discriminate|].
    exists body. rewrite Hb at 1. congruence.
  - intros [body ->]. simpl.
    rewrite last_char_append, !Ascii.eqb_refl.
    destruct body; reflexivity.
Qed.

Lemma wrapped_dec (q : ascii) (s : string) :
  (2 <=? len s)%nat && first_last_are q s = false <-> ~ wrapped q s.
Proof.
  rewrite <- wrapped_spec.
  destruct ((2 <=? len s)%nat && first_last_are q s); split; intros; easy.
Qed.

(** ** The quoting rule *)

Lemma quote_name_marker_single :
  _quote "_a" = "'_a'" /\ _quote "_a" <> quote_as_specified "_a".
Proof. split; [reflexivity | discriminate]. Qed.

(** C5 (amended): the cases of [_quote] apply in this order: the empty
    string gives two single quotes; a value wrapped in single or in double
    quotes is returned as it is; a value that begins with the name marker
    is wrapped in single quotes; a value with a single quote in it is
    wrapped in double quotes; a value with a double quote, a space, a tab
    or a line feed in it is wrapped in single quotes; any other value is
    returned as it is. *)
Theorem quote_rule (value : string) :
  (value = "" -> _quote value = "''")
  /\ (wrapped Py.SQ value \/ wrapped Py.DQ value -> _quote value = value)
  /\ (value <> "" -> ~ wrapped Py.SQ value -> ~ wrapped Py.DQ value ->
      (Py.first_is "_" value = true -> _quote value = squoted value)
      /\ (Py.first_is "_" value = false ->
          (has Py.SQ value -> _quote value = dquoted value)
          /\ (~ has Py.SQ value ->
              (has Py.DQ value \/ has Py.SP value \/ has Py.TAB value
               \/ has Py.LF value -> _quote value = squoted value)
              /\ (~ has Py.DQ value -> ~ has Py.SP value ->
                  ~ has Py.TAB value -> ~ has Py.LF value ->
                  _quote value = value))))
  /\ _quote "" = "''"
  /\ _quote "plain" = "plain"
  /\ _quote "has space" = "'has space'"
  /\ _quote "it's" = dquoted "it's".
Proof.
  split; [intros ->; reflexivity|].
  split.
  { intros [Hw | Hw]; unfold _quote.
    - apply wrapped_spec in Hw. rewrite Hw.
      destruct (len value =? 0)%nat eqn:E; [|reflexivity].
      apply andb_true_iff in Hw as [Hw _]. unfold len in *.
      destruct value; discriminate.
    - apply wrapped_spec in Hw. rewrite Hw.
      destruct (len value =? 0)%nat eqn:E.
      + apply andb_true_iff in Hw as [Hw _]. unfold len in *.
        destruct value; discriminate.
      + destruct ((2 <=? len value)%nat && first_last_are Py.SQ value);
          reflexivity. }
  split.
  { intros Hne Hs Hd. apply wrapped_dec in Hs, Hd.
    assert (Hl : (len value =? 0)%nat = false)
      by (destruct value; [congruence | reflexivity]).
    unfold _quote. rewrite Hl, Hs, Hd. split.
    - intros ->. reflexivity.
    - intros ->. split.
      + intros Hq. apply contains_has in Hq. now rewrite Hq.
      + intros Hq. apply contains_false in Hq. rewrite Hq. split.
        * intros [H | [H | [H | H]]]; apply contains_has in H; rewrite H;
            repeat match goal with
              | |- context [if ?b then _ else _] => destruct b
              end; reflexivity.
        * intros Hdq Hsp Htab Hlf.
          apply contains_false in Hdq, Hsp, Htab, Hlf.
          now rewrite Hdq, Hsp, Htab, Hlf. }
  repeat split.
Qed.

(** ** Strings in arrays *)

Lemma take_fits (n : nat) (s : string) : len s <= n -> Py.take n s = s.
Proof.
  revert n. induction s as [|c s IH]; intros n H; [now destruct n|].
  destruct n as [|n]; [simpl in H; lia|].
  simpl. rewrite IH; [reflexivity | simpl in H; lia].
Qed.

Lemma width_ge (l : list string) (x : string) :
  In x l -> len x <= np.width l.
Proof.
  induction l as [|y l IH]; [intros []|]. unfold np.width in *. simpl.
  intros [-> | Hx]; [unfold len; lia|]. specialize (IH Hx). lia.
Qed.

Lemma rstrip_nul_cons (c : ascii) (s : string) :
  np.rstrip_nul s <> "" -> np.rstrip_nul (String c s) = String c (np.rstrip_nul s).
Proof.
  intros H. cbn [np.rstrip_nul]. now destruct (np.rstrip_nul s).
Qed.

(** What is read of a string does not end with NUL. *)
Lemma rstrip_nul_end (s : string) : nul_free_end (np.rstrip_nul s) = true.
Proof.
  induction s as [|c s IH]; [reflexivity|].
  cbn [np.rstrip_nul]. destruct (np.rstrip_nul s) as [|d r] eqn:E.
  - destruct (Ascii.eqb c np.NUL) eqn:Ec; [reflexivity|].
    unfold nul_free_end. simpl. now rewrite Ec.
  - exact IH.
Qed.

(** A string that does not end with NUL is read as it is. *)
Lemma rstrip_nul_id (s : string) :
  nul_free_end s = true -> np.rstrip_nul s = s.
Proof.
  induction s as [|c s IH]; [reflexivity|]. intros H.
  destruct s as [|d s].
  - unfold nul_free_end in H. simpl in H.
    cbn [np.rstrip_nul]. now destruct (Ascii.eqb c np.NUL).
  - assert (Hs : nul_free_end (String d s) = true) by exact H.
    rewrite rstrip_nul_cons; rewrite (IH Hs); [reflexivity | discriminate].
Qed.

Lemma rstrip_nul_len (s : string) : len (np.rstrip_nul s) <= len s.
Proof.
  induction s as [|c s IH]; [reflexivity|].
  cbn [np.rstrip_nul]. unfold len in *.
  destruct (np.rstrip_nul s) as [|d r].
  - destruct (Ascii.eqb c np.NUL); simpl; lia.
  - simpl in *. lia.
Qed.

Lemma read_fits (w : nat) (s : string) :
  len s <= w -> np.read w s = np.rstrip_nul s.
Proof. intros H. unfold np.read. now rewrite take_fits. Qed.

(** The elements of an array built from strings are the strings without
    the NUL characters at their ends. *)
Lemma strs_wide (w : nat) (l : list string) :
  (forall s, In s l -> len s <= w) -> np.strs w l = kept l.
Proof.
  intros H. unfold np.strs, kept. apply map_ext_in.
  intros s Hs. now apply read_fits, H.
Qed.

Lemma strs_width (l : list string) : np.strs (np.width l) l = kept l.
Proof. apply strs_wide. intros s. apply width_ge. Qed.

Lemma elements_kept (l : list string) : np.elements l = kept l.
Proof. apply strs_width. Qed.

Lemma kept_id (l : list string) :
  Forall (fun s => nul_free_end s = true) l -> kept l = l.
Proof.
  induction 1 as [|s l Hs _ IH]; [reflexivity|].
  unfold kept in *. cbn [map]. now rewrite IH, rstrip_nul_id.
Qed.




(** ** Mask inference *)

Lemma infer_mask_codes (w : nat) (l : list string) :
  CIFColumn.infer_mask (CIFData.mk (StrArray w l))
  = map presence_code (np.strs w l).
Proof.
  unfold CIFColumn.infer_mask, CIFData.__len__. simpl.
  unfold np.strs. induction l as [|s l IH]; simpl; [reflexivity|].
  rewrite IH. f_equal. unfold presence_code.
  destruct (String.eqb_spec (np.read w s) ".") as [-> | _]; [reflexivity|].
  destruct (np.read w s =? "?"); reflexivity.
Qed.

(** A sentinel that is read in an array fits into its elements. *)
Lemma read_sentinel (w : nat) (s : string) (c : ascii) :
  c <> np.NUL -> np.read w s = Py.str1 c -> np.read w (Py.str1 c) = Py.str1 c.
Proof.
  intros Hc H. destruct w as [|w]; [destruct s; discriminate|].
  unfold np.read. assert (E : Py.take (S w) (Py.str1 c) = Py.str1 c)
    by (now destruct w).
  rewrite E. simpl. destruct (Ascii.eqb_spec c np.NUL); easy.
Qed.

Lemma put_sentinels_back (w : nat) (l : list string) :
  np.strs w
    (put_where
       (put_where l
          (map (fun c => np.item_eq_int c MaskValue.INAPPLICABLE)
             (map PInt (map presence_code (np.strs w l)))) ".")
       (map (fun c => np.item_eq_int c MaskValue.MISSING)
          (map PInt (map presence_code (np.strs w l)))) "?")
  = np.strs w l.
Proof.
  unfold np.strs. induction l as [|s l IH]; [reflexivity|].
  cbn [map put_where]. rewrite IH. f_equal. unfold presence_code.
  destruct (String.eqb_spec (np.read w s) ".") as [E | _].
  - cbn. rewrite E. now apply (@read_sentinel w s "."%char).
  - destruct (String.eqb_spec (np.read w s) "?") as [E | _]; [|reflexivity].
    cbn. rewrite E. now apply (@read_sentinel w s "?"%char).
Qed.

Lemma all_present_iff (l : list string) :
  forallb (fun c => (c =? MaskValue.PRESENT)%Z) (map presence_code l) = true
  <-> Forall (fun s => presence_code s = MaskValue.PRESENT) l.
Proof.
  rewrite forallb_forall, Forall_forall. split.
  - intros H s Hs. apply Z.eqb_eq, H, in_map, Hs.
  - intros H c Hc. apply in_map_iff in Hc as [s [<- Hs]].
    apply Z.eqb_eq, H, Hs.
Qed.

Lemma column_of_text (w : nat) (l : list string) :
  CIFColumn.__init__ (Cell (CIFData.mk (StrArray w l))) None
  = Ok (column_of w l)
  /\ CIFColumn.as_array (column_of w l) None = Ok (np.strs w l).
Proof.
  unfold column_of, CIFColumn.__init__. cbn [bind].
  rewrite infer_mask_codes.
  destruct (forallb _ (map presence_code (np.strs w l))) eqn:E;
    split; try reflexivity.
  unfold CIFColumn.as_array. simpl.
  unfold np.strs at 1 2. rewrite !length_map, Nat.eqb_refl. simpl.
  f_equal. apply put_sentinels_back.
Qed.

Lemma column_of_strs (l : list string) :
  l <> [] ->
  CIFColumn.__init__ (Raw (Strs l)) None = Ok (column_of_tokens l).
Proof.
  intros Hne. destruct l; [congruence|]. apply column_of_text.
Qed.

Lemma column_of_str (s : string) :
  CIFColumn.__init__ (Raw (Str s)) None = Ok (column_of_tokens [s]).
Proof. apply (column_of_text (np.width [s]) [s]). Qed.

(** The tokens come back from the column without the NUL characters at
    their ends. *)
Lemma as_array_tokens (l : list string) :
  CIFColumn.as_array (column_of_tokens l) None = Ok (kept l).
Proof.
  unfold column_of_tokens. rewrite <- strs_width. apply column_of_text.
Qed.

(** A token that ends with NUL is stored without it: the token [.]
    followed by NUL counts as inapplicable and is given back as [.]. *)
Lemma token_with_nul_is_cut :
  exists col,
    CIFColumn.__init__ (Raw (Strs [dot_nul; "b"])) None = Ok col
    /\ presence_code dot_nul = MaskValue.PRESENT
    /\ CIFColumn.mask col
       = Some (CIFData.mk
                 (IntArray uint8 [MaskValue.INAPPLICABLE; MaskValue.PRESENT]))
    /\ CIFColumn.as_array col None = Ok ["."; "b"]
    /\ CIFColumn.as_array col None <> Ok [dot_nul; "b"].
Proof.
  eexists. split; [reflexivity|]. split; [reflexivity|].
  split; [reflexivity|]. split; [reflexivity | discriminate].
Qed.

(** C3 (amended): a column made from text tokens without a mask has the
    presence codes of its elements ([.] inapplicable, [?] missing,
    anything else present), an element being the token as the array of
    text gives it back; it stores no mask exactly when every code is
    PRESENT and these codes otherwise, and [as_array()] gives the
    elements.  The elements of a column made from strings are the tokens
    without the NUL characters at their ends, so they are the tokens,
    the markers [.] and [?] included, when no token ends with NUL. *)
Theorem mask_inferred_from_text (d : cell_arg) (w : nat) (l : list string) :
  textual d w l ->
  exists col,
    CIFColumn.__init__ d None = Ok col
    /\ CIFData.array (CIFColumn.data col) = StrArray w l
    /\ CIFColumn.infer_mask (CIFColumn.data col)
       = map presence_code (np.strs w l)
    /\ (CIFColumn.mask col = None
        <-> Forall (fun s => presence_code s = MaskValue.PRESENT)
              (np.strs w l))
    /\ (CIFColumn.mask col <> None ->
        CIFColumn.mask col
        = Some (CIFData.mk (IntArray uint8 (map presence_code (np.strs w l)))))
    /\ CIFColumn.as_array col None = Ok (np.strs w l)
    /\ (forall a, d = Raw a -> np.strs w l = kept l)
    /\ (forall a, d = Raw a ->
        Forall (fun s => nul_free_end s = true) l -> np.strs w l = l).
Proof.
  intros Ht.
  destruct (column_of_text w l) as [Hinit Harr].
  exists (column_of w l). split.
  - destruct Ht as [l Hne | s | w l]; try exact Hinit.
    destruct l; [congruence | exact Hinit].
  - simpl. split; [reflexivity|]. split; [apply infer_mask_codes|].
    split; [|split; [|split; [exact Harr|]]].
    + rewrite <- all_present_iff.
      destruct (forallb _ (map presence_code (np.strs w l))); split; easy.
    + destruct (forallb _ (map presence_code (np.strs w l))); easy.
    + assert (Hw : forall a, d = Raw a -> np.strs w l = kept l).
      { intros a ->. inversion Ht; subst; apply strs_width. }
      split; [exact Hw|].
      intros a Ha Hn. rewrite (Hw a Ha). now apply kept_id.
Qed.

Lemma mask_inferred_from_text_example :
  exists col,
    CIFColumn.__init__ (Raw (Strs ["a"; "."; "?"; "b"])) None = Ok col
    /\ CIFColumn.infer_mask (CIFColumn.data col)
       = [MaskValue.PRESENT; MaskValue.INAPPLICABLE; MaskValue.MISSING;
          MaskValue.PRESENT]
    /\ CIFColumn.as_array col None = Ok ["a"; "."; "?"; "b"].
Proof.
  destruct (mask_inferred_from_text
              (textual_seq (l := ["a"; "."; "?"; "b"])
                 ltac:(discriminate)))
    as [col [H1 [_ [H3 [_ [_ [H6 _]]]]]]].
  exists col. split; [exact H1|]. split; [exact H3 | exact H6].
Defined.

(** ** Single items *)

(** The branch of [as_item] behind a mask renders as the documentation
    says. *)
Lemma as_item_masked_float (f : spec_float) :
  (exists col, masked_float f MaskValue.PRESENT = Ok col
               /\ CIFColumn.as_item col = Ok (PStr (format_3f f)))
  /\ (exists col, masked_float f MaskValue.INAPPLICABLE = Ok col
                  /\ CIFColumn.as_item col = Ok (PStr "."))
  /\ (exists col, masked_float f MaskValue.MISSING = Ok col
                  /\ CIFColumn.as_item col = Ok (PStr "?")).
Proof. repeat split; eexists; split; reflexivity. Qed.

(** C4: a column of length one that holds a float and has no mask gives
    the float itself from [as_item], not the text with three decimals:
    the float 1.0 comes back as a float, while the same float behind a
    PRESENT mask comes back as the text 1.000. *)
Theorem as_item_unmasked_float_is_raw (f : spec_float) :
  exists col,
    unmasked_float f = Ok col
    /\ CIFColumn.mask col = None
    /\ CIFColumn.as_item col = Ok (PFloat f)
    /\ CIFColumn.as_item col <> Ok (PStr (format_3f f))
    /\ format_3f float_one = "1.000"
    /\ (exists col1, masked_float float_one MaskValue.PRESENT = Ok col1
                     /\ CIFColumn.as_item col1 = Ok (PStr "1.000")).
Proof.
  eexists. split; [reflexivity|]. repeat split; try discriminate.
  eexists. split; reflexivity.
Qed.

(** ** Deleting columns *)

(** C9: deleting from a category with exactly one column raises the
    [ValueError] and leaves the category as it was; a deletion that
    succeeds had more than one column to start from and removes the
    key; with more than one column a present key is deleted. *)
Theorem delitem_keeps_last_column (self : CIFCategory.t) (key : string) :
  (List.length (CIFCategory._columns self) = 1 ->
   CIFCategory.__delitem__ self key
   = (self, Raise (ValueError "At least one column must remain")))
  /\ (forall self',
        CIFCategory.__delitem__ self key = (self', Ok tt) ->
        1 < List.length (CIFCategory._columns self)
        /\ CIFCategory._columns self' = sdel (CIFCategory._columns self) key)
  /\ (1 < List.length (CIFCategory._columns self) ->
      sget (CIFCategory._columns self) key <> None ->
      CIFCategory.__delitem__ self key
      = (CIFCategory.mk (CIFCategory._name self)
           (CIFCategory._row_count self)
           (sdel (CIFCategory._columns self) key), Ok tt)).
Proof.
  unfold CIFCategory.__delitem__. repeat split.
  - intros ->. reflexivity.
  - destruct (List.length (CIFCategory._columns self) =? 1)%nat eqn:E;
      [discriminate|].
    destruct (sget (CIFCategory._columns self) key) eqn:G; [|discriminate].
    apply Nat.eqb_neq in E.
    destruct (CIFCategory._columns self); [discriminate | simpl in *; lia].
  - destruct (List.length (CIFCategory._columns self) =? 1)%nat;
      [discriminate|].
    destruct (sget (CIFCategory._columns self) key); [|discriminate].
    now inversion H.
  - intros Hlen Hkey.
    destruct (List.length (CIFCategory._columns self) =? 1)%nat eqn:E;
      [apply Nat.eqb_eq in E; lia|].
    destruct (sget (CIFCategory._columns self) key); [reflexivity | easy].
Qed.

Lemma delitem_keeps_last_column_example :
  let self :=
    CIFCategory.mk (Some "n") None
      [("c", CIFColumn.mk (CIFData.mk (StrArray 1 ["v"])) None)] in
  CIFCategory.__delitem__ self "c"
  = (self, Raise (ValueError "At least one column must remain")).
Proof.
  intros self.
  exact (proj1 (delitem_keeps_last_column self "c") eq_refl).
Defined.

(** ** Row counts at serialization *)

Lemma check_lengths_cached (items : list (string * CIFColumn.t)) (n : nat) :
  fst (CIFCategory.check_lengths items (Some n)) = Some n
  /\ ((forall kc, In kc items -> col_len kc = n) ->
      snd (CIFCategory.check_lengths items (Some n)) = Ok tt)
  /\ ((exists kc, In kc items /\ col_len kc <> n) ->
      exists msg,
        snd (CIFCategory.check_lengths items (Some n))
        = Raise (SerializationError msg))
  /\ (snd (CIFCategory.check_lengths items (Some n)) = Ok tt ->
      forall kc, In kc items -> col_len kc = n).
Proof.
  induction items as [|[k c] items IH]; simpl.
  - repeat split; auto. intros [kc [[] _]]. intros _ kc [].
  - destruct (Nat.eqb_spec (CIFColumn.__len__ c) n) as [E | E]; simpl.
    + destruct IH as [I1 [I2 [I3 I4]]]. repeat split; auto.
      * intros [kc [[<- | Hin] Hne]]; [now elim Hne|].
        apply I3. now exists kc.
      * intros Hok kc [<- | Hin]; [exact E | now apply I4].
    + repeat split.
      * intros H. elim E. apply (H (k, c)). now left.
      * intros _. eexists. reflexivity.
      * discriminate.
Qed.

(** C10: when [serialize] raises because the columns differ in length,
    the category it leaves behind has the length of the first column
    cached as its row count, where there was none before, and the
    property [row_count] then reads that length. *)
Theorem serialize_failure_caches_row_count
  (self : CIFCategory.t) (name k0 : string) (c0 : CIFColumn.t)
  (rest : list (string * CIFColumn.t)) :
  CIFCategory._name self = Some name ->
  CIFCategory._row_count self = None ->
  CIFCategory._columns self = (k0, c0) :: rest ->
  (exists kc, In kc rest /\ col_len kc <> CIFColumn.__len__ c0) ->
  let self' := fst (CIFCategory.serialize self) in
  (exists msg,
     snd (CIFCategory.serialize self) = Raise (SerializationError msg))
  /\ CIFCategory._row_count self' = Some (CIFColumn.__len__ c0)
  /\ CIFCategory._columns self' = CIFCategory._columns self
  /\ CIFCategory.row_count self' = (self', Ok (CIFColumn.__len__ c0)).
Proof.
  intros Hname Hrc Hcols Hbad self'.
  destruct (check_lengths_cached rest (CIFColumn.__len__ c0))
    as [H1 [_ [H3 _]]].
  destruct (H3 Hbad) as [msg Hmsg].
  assert (Hs : CIFCategory.serialize self
               = (CIFCategory.mk (Some name) (Some (CIFColumn.__len__ c0))
                    ((k0, c0) :: rest),
                  Raise (SerializationError msg))).
  { unfold CIFCategory.serialize. rewrite Hname, Hrc, Hcols. simpl.
    destruct (CIFCategory.check_lengths rest (Some (CIFColumn.__len__ c0)))
      as [rc r]. simpl in *. subst. reflexivity. }
  subst self'. rewrite Hs. simpl. repeat split; auto.
  now exists msg.
Qed.

Lemma serialize_failure_caches_row_count_example :
  let one := CIFColumn.mk (CIFData.mk (StrArray 1 ["a"])) None in
  let two := CIFColumn.mk (CIFData.mk (StrArray 1 ["b"; "c"])) None in
  let self := CIFCategory.mk (Some "n") None [("x", one); ("y", two)] in
  CIFCategory._row_count (fst (CIFCategory.serialize self)) = Some 1.
Proof.
  intros one two self.
  refine (proj1 (proj2
    (serialize_failure_caches_row_count self (name := "n") (k0 := "x")
       (c0 := one) (rest := [("y", two)]) eq_refl eq_refl eq_refl _))).
  exists ("y", two). split; [now left | discriminate].
Defined.

(** ** Failures of serialization *)

Lemma check_lengths_mixed (items : list (string * CIFColumn.t))
  (rc : option nat) :
  (exists a b, In a items /\ In b items /\ col_len a <> col_len b) ->
  exists msg,
    snd (CIFCategory.check_lengths items rc) = Raise (SerializationError msg).
Proof.
  intros [a [b [Ha [Hb Hab]]]].
  destruct rc as [n|].
  - apply check_lengths_cached.
    destruct (Nat.eq_dec (col_len a) n) as [E|E].
    + exists b. split; [exact Hb | congruence].
    + exists a. split; [exact Ha | exact E].
  - destruct items as [|[k0 c0] rest]; [destruct Ha|]. simpl.
    apply check_lengths_cached.
    destruct (Nat.eq_dec (col_len a) (CIFColumn.__len__ c0)) as [E|E].
    + exists b. split; [|unfold col_len in *; congruence].
      destruct Hb as [<- | Hb]; [|exact Hb].
      elim Hab. exact E.
    + exists a. split; [|exact E].
      destruct Ha as [<- | Ha]; [|exact Ha]. now elim E.
Qed.

Lemma check_lengths_uniform (items : list (string * CIFColumn.t))
  (rc : option nat) (m : nat) :
  items <> [] ->
  (forall kc, In kc items -> col_len kc = m) ->
  rc = None \/ rc = Some m ->
  CIFCategory.check_lengths items rc = (Some m, Ok tt).
Proof.
  intros Hne Hall Hrc.
  assert (Hc : forall l,
             (forall kc, In kc l -> col_len kc = m) ->
             CIFCategory.check_lengths l (Some m) = (Some m, Ok tt)).
  { intros l Hl. destruct (check_lengths_cached l m) as [H1 [H2 _]].
    specialize (H2 Hl).
    destruct (CIFCategory.check_lengths l (Some m)). simpl in *.
    congruence. }
  destruct Hrc as [-> | ->]; [|now apply Hc].
  destruct items as [|[k0 c0] rest]; [congruence|]. simpl.
  rewrite (Hall (k0, c0) (or_introl eq_refl) : CIFColumn.__len__ c0 = m).
  apply Hc. intros kc Hin. apply Hall. now right.
Qed.

Lemma check_lengths_ok (items : list (string * CIFColumn.t))
  (rc : option nat) :
  items <> [] ->
  snd (CIFCategory.check_lengths items rc) = Ok tt ->
  exists n,
    fst (CIFCategory.check_lengths items rc) = Some n
    /\ forall kc, In kc items -> col_len kc = n.
Proof.
  intros Hne Hok. destruct rc as [n|].
  - exists n. destruct (check_lengths_cached items n) as [H1 [_ [_ H4]]].
    split; [exact H1 | now apply H4].
  - destruct items as [|[k0 c0] rest]; [congruence|]. simpl in *.
    exists (CIFColumn.__len__ c0).
    destruct (check_lengths_cached rest (CIFColumn.__len__ c0))
      as [H1 [_ [_ H4]]].
    split; [exact H1|].
    intros kc [<- | Hin]; [reflexivity | now apply H4].
Qed.

(** A category with a name and no column: [serialize] raises a
    [ValueError], which is not a [SerializationError]. *)
Lemma serialize_no_columns_value_error :
  CIFCategory.serialize empty_category
  = (empty_category, Raise (ValueError "At least one column is required"))
  /\ forall msg,
       snd (CIFCategory.serialize empty_category)
       <> Raise (SerializationError msg).
Proof. split; [reflexivity | discriminate]. Qed.

(** C6 (amended): [serialize] returns no text and raises a
    [SerializationError] when the name is missing or, the name being set,
    when two columns differ in length; it raises a [ValueError] when the
    name is set and there is no column, or when every column is empty; it
    returns text only when the name is set, there is at least one column
    and all columns have one length that is at least 1. *)
Theorem serialize_failures (self : CIFCategory.t) :
  let columns := CIFCategory._columns self in
  (CIFCategory._name self = None ->
   CIFCategory.serialize self
   = (self, Raise (SerializationError "Category name is required")))
  /\ (CIFCategory._name self <> None -> columns = [] ->
      CIFCategory.serialize self
      = (self, Raise (ValueError "At least one column is required")))
  /\ (CIFCategory._name self <> None ->
      (exists a b, In a columns /\ In b columns /\ col_len a <> col_len b) ->
      exists msg,
        snd (CIFCategory.serialize self) = Raise (SerializationError msg))
  /\ (CIFCategory._name self <> None -> columns <> [] ->
      (forall kc, In kc columns -> col_len kc = 0) ->
      CIFCategory._row_count self = None
      \/ CIFCategory._row_count self = Some 0 ->
      snd (CIFCategory.serialize self)
      = Raise (ValueError "At least one row is required"))
  /\ (forall text,
        snd (CIFCategory.serialize self) = Ok text ->
        CIFCategory._name self <> None
        /\ columns <> []
        /\ exists n, 1 <= n /\ forall kc, In kc columns -> col_len kc = n).
Proof.
  intros columns. subst columns. unfold CIFCategory.serialize.
  destruct self as [name rc cols]. simpl.
  split; [intros ->; reflexivity|].
  split; [intros Hn ->; destruct name; [reflexivity | congruence]|].
  split.
  { intros Hn Hmixed. destruct name; [|congruence].
    destruct cols as [|kc cols]; [now destruct Hmixed as [a [b [[] _]]]|].
    cbn [List.length Nat.eqb].
    destruct (@check_lengths_mixed _ rc Hmixed) as [msg Hmsg].
    destruct (CIFCategory.check_lengths (kc :: cols) rc) as [rc' r].
    simpl in *. subst r. now exists msg. }
  split.
  { intros Hn Hne Hall Hrc. destruct name; [|congruence].
    destruct cols as [|kc cols]; [congruence|].
    cbn [List.length Nat.eqb].
    now rewrite (@check_lengths_uniform _ rc 0 Hne Hall Hrc). }
  intros text Hok. destruct name as [name|]; [|discriminate].
  split; [discriminate|].
  destruct cols as [|kc cols]; [discriminate|].
  split; [discriminate|].
  cbn [List.length Nat.eqb] in Hok.
  destruct (CIFCategory.check_lengths (kc :: cols) rc) as [rc' r] eqn:E.
  simpl in Hok. destruct r as [[]| |]; try discriminate.
  destruct (@check_lengths_ok (kc :: cols) rc) as [n [Hn Hall]];
    [discriminate | now rewrite E |].
  rewrite E in Hn. simpl in Hn. subst rc'.
  exists n. split; [|exact Hall].
  destruct n; [discriminate | lia].
Qed.

(** ** Dictionaries *)

Section DictFacts.

Variable K : Type.
Variable eqb : K -> K -> bool.
Hypothesis eqb_spec : forall a b, eqb a b = true <-> a = b.
Variable V : Type.

Lemma eqb_refl_ (a : K) : eqb a a = true.
Proof. now apply eqb_spec. Qed.

Lemma dict_get_set_same (d : dict K V) (k : K) (v : V) :
  dict_get eqb (dict_set eqb d k v) k = Some v.
Proof.
  induction d as [|[k' v'] d IH]; simpl.
  - now rewrite eqb_refl_.
  - destruct (eqb k' k) eqn:E; simpl; rewrite E; auto.
Qed.


Lemma dict_get_in (d : dict K V) (k : K) (v : V) :
  dict_get eqb d k = Some v -> In (k, v) d.
Proof.
  induction d as [|[k' v'] d IH]; simpl; [discriminate|].
  destruct (eqb k' k) eqn:E.
  - intros [= ->]. apply eqb_spec in E. subst. now left.
  - intros H. right. now apply IH.
Qed.

Lemma in_dict_get (d : dict K V) (k : K) :
  In k (dict_keys d) -> exists v, dict_get eqb d k = Some v /\ In (k, v) d.
Proof.
  induction d as [|[k' v'] d IH]; simpl; [easy|].
  intros Hin. destruct (eqb k' k) eqn:E.
  - apply eqb_spec in E. subst. exists v'. split; [reflexivity | now left].
  - destruct Hin as [-> | Hin]; [now rewrite eqb_refl_ in E|].
    destruct (IH Hin) as [v [Hg Hi]]. exists v. split; [exact Hg | now right].
Qed.

Lemma mem_in (k : K) (l : list K) : In k l -> mem eqb k l = true.
Proof.
  intros Hin. unfold mem. apply existsb_exists. exists k.
  split; [exact Hin | apply eqb_refl_].
Qed.

Lemma same_key_set_refl (l : list K) : same_key_set eqb l l = true.
Proof.
  unfold same_key_set.
  assert (H : forallb (fun k => mem eqb k l) l = true)
    by (apply forallb_forall; intros k Hk; now apply mem_in).
  now rewrite H.
Qed.

Lemma in_dict_set (d : dict K V) (k : K) (v : V) (kv : K * V) :
  In kv (dict_set eqb d k v) -> In kv d \/ snd kv = v.
Proof.
  induction d as [|[k' v'] d IH]; simpl.
  - intros [<- | []]. now right.
  - destruct (eqb k' k); simpl.
    + intros [<- | H]; [now right | left; now right].
    + intros [<- | H]; [left; now left|].
      destruct (IH H) as [H1 | H1]; [left; now right | now right].
Qed.

End DictFacts.

Lemma key_eqb_spec (a b : option string) : key_eqb a b = true <-> a = b.
Proof.
  destruct a as [x|], b as [y|]; simpl; try easy.
  rewrite String.eqb_eq. split; congruence.
Qed.

(** ** Failure of a lazy parse *)

(** C7: when a slot holds text and its parse on access fails, the access
    raises the [DeserializationError] that names the key, and the
    container is as it was, the slot still holding its text. *)
Theorem lazy_parse_failure_keeps_text :
  (forall (b : CIFBlock.t) (k : CIFBlock.key) (raw : string) (e : exn),
      dict_get key_eqb (CIFBlock._categories b) k = Some (Text raw) ->
      CIFCategory.deserialize raw
        (if key_eqb k (Some "atom_site") then false else true) = Raise e ->
      CIFBlock.__getitem__ b k
      = (b, Raise (DeserializationError
                     ("Failed to deserialize category '" ++ str_of_key k
                      ++ "'")))
      /\ dict_get key_eqb
           (CIFBlock._categories (fst (CIFBlock.__getitem__ b k))) k
         = Some (Text raw))
  /\ (forall (f : CIFFile.t) (k : string) (raw : string) (e : exn),
         dict_get String.eqb (CIFFile._blocks f) k = Some (Text raw) ->
         CIFBlock.deserialize raw = Raise e ->
         CIFFile.__getitem__ f k
         = (f, Raise (DeserializationError
                        ("Failed to deserialize block '" ++ k ++ "'")))
         /\ dict_get String.eqb
              (CIFFile._blocks (fst (CIFFile.__getitem__ f k))) k
            = Some (Text raw)).
Proof.
  split.
  - intros b k raw e Hslot Hfail.
    assert (H : CIFBlock.__getitem__ b k
                = (b, Raise (CIFBlock.deserialize_error k))).
    { unfold CIFBlock.__getitem__. now rewrite Hslot, Hfail. }
    rewrite H. split; [reflexivity | exact Hslot].
  - intros f k raw e Hslot Hfail.
    assert (H : CIFFile.__getitem__ f k
                = (f, Raise (CIFFile.deserialize_error k))).
    { unfold CIFFile.__getitem__. now rewrite Hslot, Hfail. }
    rewrite H. split; [reflexivity | exact Hslot].
Qed.

Lemma lazy_parse_failure_keeps_text_example :
  CIFBlock.__getitem__ block_with_bad_text (Some "a")
  = (block_with_bad_text,
     Raise (DeserializationError "Failed to deserialize category 'a'"))
  /\ CIFFile.__getitem__ file_with_bad_text "b"
     = (file_with_bad_text,
        Raise (DeserializationError "Failed to deserialize block 'b'")).
Proof.
  split.
  - refine (proj1 (proj1 lazy_parse_failure_keeps_text
                     block_with_bad_text (Some "a") "x"
                     (DeserializationError "Failed to parse category name")
                     eq_refl _)).
    vm_compute. reflexivity.
  - refine (proj1 (proj2 lazy_parse_failure_keeps_text
                     file_with_bad_text "b" "loop_" IndexError eq_refl _)).
    vm_compute. reflexivity.
Defined.

(** ** Repeated access *)

Lemma all2_refl {A : Type} (f : A -> A -> bool) (l : list A) :
  (forall x, In x l -> f x x = true) -> np.all2 f l l = true.
Proof.
  induction l as [|x l IH]; simpl; [reflexivity|].
  intros H. rewrite (H x (or_introl eq_refl)). simpl.
  apply IH. intros y Hy. apply H. now right.
Qed.

Lemma text_column_eq_refl (c : CIFColumn.t) :
  text_column c -> CIFColumn.__eq__ c c = true.
Proof.
  intros [[w [l Hd]] Hm]. unfold CIFColumn.__eq__, CIFData.__eq__.
  rewrite Hd. unfold np.array_equal. simpl.
  rewrite all2_refl.
  - simpl. destruct Hm as [-> | [k [m ->]]]; simpl; [reflexivity|].
    unfold CIFData.__eq__, np.array_equal. simpl.
    rewrite all2_refl; [reflexivity|].
    intros x Hx. apply in_map_iff in Hx as [z [<- _]]. simpl.
    apply Z.eqb_refl.
  - intros x Hx. apply in_map_iff in Hx as [s [<- _]]. simpl.
    apply String.eqb_refl.
Qed.

Lemma init_text_column (a : array_like) (c : CIFColumn.t) :
  (exists l, a = Strs l) \/ (exists s, a = Str s) ->
  CIFColumn.__init__ (Raw a) None = Ok c -> text_column c.
Proof.
  intros Ha. unfold CIFColumn.__init__, CIFData.__init__.
  assert (Harr : forall w l,
             (let d := CIFData.mk (StrArray w l) in
              if forallb (fun c => (c =? MaskValue.PRESENT)%Z)
                   (CIFColumn.infer_mask d)
              then Ok (CIFColumn.mk d None)
              else Ok (CIFColumn.mk d
                         (Some (CIFData.mk
                                  (IntArray uint8 (CIFColumn.infer_mask d))))))
             = Ok c -> text_column c).
  { intros w l. simpl. destruct (forallb _ _); intros [= <-]; split; simpl;
      eauto. }
  destruct Ha as [[l ->] | [s ->]].
  - destruct l as [|s l]; [discriminate|]. apply Harr.
  - apply Harr.
Qed.

Lemma text_columns_set (d : sdict CIFColumn.t) (k : string)
  (c : CIFColumn.t) :
  text_columns d -> text_column c -> text_columns (sset d k c).
Proof.
  intros Hd Hc kc Hin. apply in_dict_set in Hin as [Hin | ->]; auto.
Qed.

Lemma coerce_text_columns (items : list (string * column_arg))
  (acc d : sdict CIFColumn.t) :
  (forall kv, In kv items ->
     match snd kv with
     | Col c => text_column c
     | NoCol (Raw (Strs _)) => True
     | _ => False
     end) ->
  text_columns acc ->
  CIFCategory.coerce_columns items acc = Ok d -> text_columns d.
Proof.
  revert acc. induction items as [|[k col] items IH]; intros acc Hit Hacc.
  - simpl. now intros [= <-].
  - simpl. pose proof (Hit (k, col) (or_introl eq_refl)) as Hcol.
    simpl in Hcol.
    assert (Hrest : forall kv, In kv items ->
              match snd kv with
              | Col c => text_column c
              | NoCol (Raw (Strs _)) => True
              | _ => False
              end) by (intros kv Hkv; apply Hit; now right).
    destruct col as [c | [cd | a]]; try easy.
    + simpl. apply IH; auto. now apply text_columns_set.
    + destruct a as [| | | l | |]; try easy.
      destruct (CIFColumn.__init__ (Raw (Strs l)) None) as [c| |] eqn:E;
        simpl; try discriminate.
      apply IH; auto. apply text_columns_set; auto.
      eapply init_text_column; [|exact E]. left. now exists l.
Qed.

Lemma deserialize_single_text (lines : list string)
  (acc d : sdict CIFColumn.t) :
  text_columns acc ->
  CIFCategory._deserialize_single_loop lines acc = Ok d -> text_columns d.
Proof.
  revert acc. induction lines as [|line lines IH]; intros acc Hacc; simpl.
  - now intros [= <-].
  - destruct (_split_one_line line) as [parts| |]; simpl; try discriminate.
    destruct (index parts 0) as [p0| |]; simpl; try discriminate.
    destruct (index (Py.split_on "." p0) 1) as [name| |]; simpl;
      try discriminate.
    destruct (index parts 1) as [column| |]; simpl; try discriminate.
    destruct (CIFColumn.__init__ (Raw (Str column)) None) as [c| |] eqn:E;
      simpl; try discriminate.
    apply IH. apply text_columns_set; auto.
    eapply init_text_column; [|exact E]. right. now exists column.
Qed.

Lemma deserialize_text_columns (text : string) (ew : bool)
  (c : CIFCategory.t) :
  CIFCategory.deserialize text ew = Ok c ->
  text_columns (CIFCategory._columns c).
Proof.
  unfold CIFCategory.deserialize.
  set (lines := content_lines (Py.splitlines text)).
  destruct (index lines 0) as [l0| |]; simpl; try discriminate.
  set (lines' := if _is_loop_start l0 then tl lines else lines).
  destruct (index lines' 0) as [l1| |]; simpl; try discriminate.
  destruct (_parse_category_name l1) as [[name|]| |]; simpl;
    try discriminate.
  destruct (_to_single lines' (_is_loop_start l0)) as [ls| |]; simpl;
    try discriminate.
  destruct (_is_loop_start l0).
  - destruct (CIFCategory._deserialize_looped ls ew) as [d| |]; simpl;
      try discriminate.
    unfold CIFCategory.__init__.
    destruct (CIFCategory.coerce_columns _ []) as [d'| |] eqn:E; simpl;
      try discriminate.
    intros [= <-]. simpl. eapply coerce_text_columns; [| |exact E].
    + intros kv Hkv. apply in_map_iff in Hkv as [x [<- _]]. exact I.
    + intros kc [].
  - destruct (CIFCategory._deserialize_single ls) as [d| |] eqn:Ed; simpl;
      try discriminate.
    unfold CIFCategory.__init__.
    destruct (CIFCategory.coerce_columns _ []) as [d'| |] eqn:E; simpl;
      try discriminate.
    intros [= <-]. simpl. eapply coerce_text_columns; [| |exact E].
    + intros kv Hkv. apply in_map_iff in Hkv as [x [<- Hx]]. simpl.
      eapply deserialize_single_text in Ed; [apply (Ed x Hx)|].
      intros kc [].
    + intros kc [].
Qed.

Lemma columns_equal_refl (self : CIFCategory.t) (ks : list string) :
  text_columns (CIFCategory._columns self) ->
  incl ks (CIFCategory.keys self) ->
  CIFCategory.columns_equal ks self self = Ok true.
Proof.
  intros Ht. induction ks as [|k ks IH]; intros Hincl; simpl;
    [reflexivity|].
  destruct (in_dict_get String.eqb String.eqb_eq
              (CIFCategory._columns self) k) as [c [Hg Hin]].
  { apply Hincl. now left. }
  unfold CIFCategory.__getitem__, sget. rewrite Hg. simpl.
  rewrite (text_column_eq_refl (Ht (k, c) Hin : text_column c)). simpl.
  apply IH. intros x Hx. apply Hincl. now right.
Qed.

Lemma category_eq_refl (self : CIFCategory.t) :
  text_columns (CIFCategory._columns self) ->
  CIFCategory.__eq__ self self = Ok true.
Proof.
  intros Ht. unfold CIFCategory.__eq__.
  rewrite (same_key_set_refl String.eqb String.eqb_eq). simpl.
  apply columns_equal_refl; [exact Ht | apply incl_refl].
Qed.

(** A block read from a text whose only category has one space between
    key and value: before the category is asked for the block serializes
    to the stored text, afterwards to the rendering of the parsed
    category. *)
Lemma serialize_differs_after_access :
  exists b b1 c,
    CIFBlock.deserialize spaced_text = Ok b
    /\ CIFBlock.__getitem__ b (Some "a") = (b1, Ok c)
    /\ snd (CIFBlock.serialize b) = Ok ("_a.b 1" ++ CIFCategory.NL ++ "#")
    /\ snd (CIFBlock.serialize b1)
       = Ok ("_a.b   1" ++ CIFCategory.NL ++ "#" ++ CIFCategory.NL)
    /\ snd (CIFBlock.serialize b) <> snd (CIFBlock.serialize b1).
Proof.
  do 3 eexists. split; [vm_compute; reflexivity|].
  split; [vm_compute; reflexivity|].
  split; [vm_compute; reflexivity|].
  split; [vm_compute; reflexivity|].
  vm_compute. discriminate.
Qed.

(** C8 (amended): an access that succeeds leaves the parsed object in the
    slot; every later access of the same key returns that same object and
    leaves the container as it is, so the container serializes after a
    later access as it does after the first one; a category parsed from
    the text of a slot is equal to itself under [__eq__]. *)
Theorem repeated_access_is_stable :
  (forall (b b1 : CIFBlock.t) (k : CIFBlock.key) (c : CIFCategory.t),
      CIFBlock.__getitem__ b k = (b1, Ok c) ->
      CIFBlock.__getitem__ b1 k = (b1, Ok c)
      /\ dict_get key_eqb (CIFBlock._categories b1) k = Some (Obj c)
      /\ CIFBlock.serialize (fst (CIFBlock.__getitem__ b1 k))
         = CIFBlock.serialize b1
      /\ (forall raw,
            dict_get key_eqb (CIFBlock._categories b) k = Some (Text raw) ->
            CIFCategory.__eq__ c c = Ok true))
  /\ (forall (f f1 : CIFFile.t) (k : string) (b : CIFBlock.t),
         CIFFile.__getitem__ f k = (f1, Ok b) ->
         CIFFile.__getitem__ f1 k = (f1, Ok b)
         /\ dict_get String.eqb (CIFFile._blocks f1) k = Some (Obj b)
         /\ CIFFile.serialize (fst (CIFFile.__getitem__ f1 k))
            = CIFFile.serialize f1).
Proof.
  split.
  - intros b b1 k c Hget.
    assert (Hslot : dict_get key_eqb (CIFBlock._categories b1) k
                    = Some (Obj c)
                    /\ forall raw,
                         dict_get key_eqb (CIFBlock._categories b) k
                         = Some (Text raw) ->
                         CIFCategory.__eq__ c c = Ok true).
    { unfold CIFBlock.__getitem__ in Hget.
      destruct (dict_get key_eqb (CIFBlock._categories b) k)
        as [[raw | c0]|] eqn:G; [| |discriminate].
      - destruct (CIFCategory.deserialize raw _) as [c0| |] eqn:D;
          simpl in Hget; try discriminate.
        injection Hget as <- <-. simpl. split.
        + apply dict_get_set_same, key_eqb_spec.
        + intros _ _. apply category_eq_refl.
          eapply deserialize_text_columns, D.
      - injection Hget as <- <-. split; [exact G | discriminate]. }
    destruct Hslot as [Hslot Heq].
    assert (H2 : CIFBlock.__getitem__ b1 k = (b1, Ok c))
      by (unfold CIFBlock.__getitem__; now rewrite Hslot).
    rewrite H2. repeat split; auto.
  - intros f f1 k b Hget.
    assert (Hslot : dict_get String.eqb (CIFFile._blocks f1) k
                    = Some (Obj b)).
    { unfold CIFFile.__getitem__ in Hget.
      destruct (dict_get String.eqb (CIFFile._blocks f) k)
        as [[raw | b0]|] eqn:G; [| |discriminate].
      - destruct (CIFBlock.deserialize raw) as [b0| |] eqn:D;
          simpl in Hget; try discriminate.
        injection Hget as <- <-. simpl.
        apply dict_get_set_same, String.eqb_eq.
      - injection Hget as <- <-. exact G. }
    assert (H2 : CIFFile.__getitem__ f1 k = (f1, Ok b))
      by (unfold CIFFile.__getitem__; now rewrite Hslot).
    rewrite H2. repeat split; auto.
Qed.

Lemma repeated_access_is_stable_example :
  exists b b1 c,
    CIFBlock.deserialize spaced_text = Ok b
    /\ CIFBlock.__getitem__ b (Some "a") = (b1, Ok c)
    /\ CIFBlock.__getitem__ b1 (Some "a") = (b1, Ok c).
Proof.
  do 3 eexists. split; [vm_compute; reflexivity|].
  assert (H : forall b b1 c,
             CIFBlock.__getitem__ b (Some "a") = (b1, Ok c) ->
             CIFBlock.__getitem__ b (Some "a") = (b1, Ok c)
             /\ CIFBlock.__getitem__ b1 (Some "a") = (b1, Ok c)).
  { intros b b1 c Hg. split; [exact Hg|].
    exact (proj1 (proj1 repeated_access_is_stable b b1 (Some "a") c Hg)). }
  apply H. vm_compute. reflexivity.
Defined.

(** ** Round-robin reading of a looped category *)

Lemma sget_combine {V : Type} (pre post : list string) (x : string)
  (cpre cpost : list V) (c : V) :
  List.length pre = List.length cpre -> ~ In x pre ->
  sget (combine (pre ++ x :: post) (cpre ++ c :: cpost)) x = Some c.
Proof.
  revert cpre. induction pre as [|p pre IH]; intros [|cp cpre] Hlen Hnin;
    simpl in *; try discriminate.
  - unfold sget. simpl. now rewrite String.eqb_refl.
  - unfold sget in *. simpl.
    destruct (String.eqb_spec p x) as [-> | _]; [tauto|].
    apply IH; [lia | tauto].
Qed.

Lemma sset_combine {V : Type} (pre post : list string) (x : string)
  (cpre cpost : list V) (c v : V) :
  List.length pre = List.length cpre -> ~ In x pre ->
  sset (combine (pre ++ x :: post) (cpre ++ c :: cpost)) x v
  = combine (pre ++ x :: post) (cpre ++ v :: cpost).
Proof.
  revert cpre. induction pre as [|p pre IH]; intros [|cp cpre] Hlen Hnin;
    simpl in *; try discriminate.
  - unfold sset. simpl. now rewrite String.eqb_refl.
  - unfold sset in *. simpl.
    destruct (String.eqb_spec p x) as [-> | _]; [tauto|].
    f_equal. apply IH; [lia | tauto].
Qed.

Lemma sset_fresh {V : Type} (d : sdict V) (k : string) (v : V) :
  ~ In k (dict_keys d) -> sset d k v = (d ++ [(k, v)])%list.
Proof.
  induction d as [|[k' v'] d IH]; simpl; intros Hnin; [reflexivity|].
  unfold sset in *. simpl.
  destruct (String.eqb_spec k' k) as [-> | _]; [tauto|].
  f_equal. apply IH. tauto.
Qed.

Lemma dict_keys_app {V : Type} (a b : sdict V) :
  dict_keys (a ++ b)%list = (dict_keys a ++ dict_keys b)%list.
Proof. apply map_app. Qed.

(** One pass through the cycle of names adds one value to each column. *)
Lemma append_values_row (pre post : list string)
  (cpre cpost : list (list string)) (row : list string) :
  NoDup (pre ++ post) ->
  List.length pre = List.length cpre ->
  List.length post = List.length cpost ->
  List.length row = List.length post ->
  CIFCategory.append_values row
    (combine (pre ++ post) (cpre ++ cpost)) (post ++ pre)%list
  = Ok (combine (pre ++ post)
          (cpre ++ map (fun cv => (fst cv ++ [snd cv])%list)
                     (combine cpost row)),
        (pre ++ post)%list).
Proof.
  revert pre cpre cpost row.
  induction post as [|x post IH]; intros pre cpre cpost row Hnd Hpre Hpost Hrow.
  - destruct cpost; [|discriminate]. destruct row; [|discriminate].
    simpl. now rewrite !app_nil_r.
  - destruct cpost as [|c cpost]; [discriminate|].
    destruct row as [|v row]; [discriminate|].
    simpl in Hpost, Hrow.
    assert (Hx : ~ In x pre).
    { apply NoDup_remove_2 in Hnd. intros Hin. apply Hnd.
      apply in_or_app. now left. }
    cbn [CIFCategory.append_values cycle_next app bind].
    rewrite (@sget_combine _ pre post x cpre cpost c Hpre Hx).
    rewrite (@sset_combine _ pre post x cpre cpost c (c ++ [v])%list Hpre Hx).
    replace (pre ++ x :: post)%list with ((pre ++ [x]) ++ post)%list
      by (now rewrite <- app_assoc).
    replace (cpre ++ (c ++ [v]) :: cpost)%list
      with ((cpre ++ [(c ++ [v])%list]) ++ cpost)%list
      by (now rewrite <- app_assoc).
    replace ((post ++ pre) ++ [x])%list with (post ++ (pre ++ [x]))%list
      by (now rewrite app_assoc).
    rewrite IH.
    + simpl. now rewrite <- !app_assoc.
    + now rewrite <- app_assoc.
    + rewrite !length_app. simpl. lia.
    + lia.
    + lia.
Qed.

Lemma append_values_app (a b : list string) (d : sdict (list string))
  (names : list string) :
  CIFCategory.append_values (a ++ b) d names
  = ('(d', names') <- CIFCategory.append_values a d names ;;
     CIFCategory.append_values b d' names').
Proof.
  revert d names. induction a as [|v a IH]; intros d names; simpl.
  - reflexivity.
  - destruct (cycle_next names) as [[x names']| |]; simpl; try reflexivity.
    destruct (sget d x); [apply IH | reflexivity].
Qed.

Lemma round_robin_column_snoc (init row : list string) (k j n : nat) :
  List.length init = n * k -> j < k ->
  round_robin_column (init ++ row) k j (S n)
  = (round_robin_column init k j n ++ [nth j row ""])%list.
Proof.
  intros Hlen Hj. unfold round_robin_column.
  rewrite seq_S, map_app. simpl. f_equal.
  - apply map_ext_in. intros i Hi. apply in_seq in Hi.
    apply app_nth1. rewrite Hlen. nia.
  - f_equal. rewrite app_nth2 by lia. f_equal. lia.
Qed.

Lemma combine_map_seq {A B : Type} (g : nat -> A) (row : list B) (d : B)
  (start : nat) :
  combine (map g (seq start (List.length row))) row
  = map (fun j => (g j, nth (j - start) row d))
      (seq start (List.length row)).
Proof.
  revert start. induction row as [|b row IH]; intros start; simpl;
    [reflexivity|].
  rewrite Nat.sub_diag. f_equal. rewrite IH.
  apply map_ext_in. intros j Hj. apply in_seq in Hj.
  replace (j - start) with (S (j - S start)) by lia. reflexivity.
Qed.

Lemma add_row_columns (init row : list string) (k n : nat) :
  List.length init = n * k -> List.length row = k ->
  map (fun cv => (fst cv ++ [snd cv])%list)
      (combine (round_robin_columns init k n) row)
  = round_robin_columns (init ++ row) k (S n).
Proof.
  intros Hinit Hrow. unfold round_robin_columns. subst k.
  rewrite (combine_map_seq _ row "" 0), map_map.
  apply map_ext_in. intros j Hj. apply in_seq in Hj. simpl.
  rewrite Nat.sub_0_r. symmetry.
  apply round_robin_column_snoc; [exact Hinit | lia].
Qed.

(** [n] rows of [k] tokens fill the columns in round-robin order. *)
Lemma append_values_rows (names tokens : list string) (n : nat) :
  NoDup names ->
  List.length tokens = n * List.length names ->
  CIFCategory.append_values tokens
    (combine names (round_robin_columns [] (List.length names) 0)) names
  = Ok (combine names (round_robin_columns tokens (List.length names) n),
        names).
Proof.
  intros Hnd. set (k := List.length names).
  revert tokens. induction n as [|n IH]; intros tokens Hlen.
  - destruct tokens; [|discriminate]. reflexivity.
  - assert (Hsplit : tokens
                     = (firstn (n * k) tokens ++ skipn (n * k) tokens)%list)
      by (now rewrite firstn_skipn).
    assert (Hinit : List.length (firstn (n * k) tokens) = n * k)
      by (rewrite length_firstn; simpl in Hlen; lia).
    assert (Hrow : List.length (skipn (n * k) tokens) = k)
      by (rewrite length_skipn; simpl in Hlen; lia).
    rewrite Hsplit at 1. rewrite append_values_app, IH by exact Hinit.
    cbn [bind].
    pose proof (@append_values_row [] names []
                  (round_robin_columns (firstn (n * k) tokens) k n)
                  (skipn (n * k) tokens)) as H.
    simpl in H. rewrite app_nil_r in H. rewrite H.
    + rewrite add_row_columns by assumption. now rewrite <- Hsplit.
    + exact Hnd.
    + reflexivity.
    + unfold round_robin_columns. now rewrite length_map, length_seq.
    + exact Hrow.
Qed.

Lemma first_is_first (c : ascii) (s : string) :
  Py.first_is c s = true -> Py.first s = Ok c.
Proof.
  destruct s as [|d s]; simpl; [discriminate|].
  intros H. apply Ascii.eqb_eq in H. now subst.
Qed.

Lemma first_is_not (c : ascii) (s : string) :
  s <> "" -> Py.first_is c s = false ->
  exists d, Py.first s = Ok d /\ Ascii.eqb d c = false.
Proof.
  destruct s as [|d s]; simpl; [congruence|]. intros _ H. now exists d.
Qed.

Lemma read_keys_spec (key_lines data_lines names : list string)
  (d : sdict (list string)) (ns : list string) :
  Forall2 key_line key_lines names ->
  (forall line, In line data_lines -> line <> "") ->
  Py.first_is "_" (hd "" data_lines) = false ->
  CIFCategory.read_keys (key_lines ++ data_lines) d ns
  = Ok (fold_left (fun d k => sset d k []) names d, (ns ++ names)%list,
        data_lines).
Proof.
  intros Hkeys Hne Hdata. revert d ns.
  induction Hkeys as [|line name key_lines names [Hl Hn] _ IH]; intros d ns.
  - simpl. rewrite app_nil_r. destruct data_lines as [|l0 data]; simpl.
    + reflexivity.
    + simpl in Hdata.
      destruct (@first_is_not "_" l0) as [c [Hc Hneq]];
        [apply Hne; now left | exact Hdata |].
      now rewrite Hc; simpl; rewrite Hneq.
  - simpl. rewrite (first_is_first _ _ Hl). simpl.
    unfold index. rewrite Hn. simpl. rewrite IH.
    now rewrite <- app_assoc.
Qed.

Lemma fold_sset_fresh {V : Type} (names : list string) (v : V)
  (acc : sdict V) :
  NoDup names -> (forall k, In k names -> ~ In k (dict_keys acc)) ->
  fold_left (fun d k => sset d k v) names acc
  = (acc ++ map (fun k => (k, v)) names)%list.
Proof.
  revert acc. induction names as [|k names IH]; intros acc Hnd Hfresh; simpl.
  - now rewrite app_nil_r.
  - inversion Hnd as [|? ? Hk Hnd']; subst.
    rewrite sset_fresh by (apply Hfresh; now left).
    rewrite IH; [now rewrite <- app_assoc | exact Hnd' |].
    intros k' Hk' Hin. rewrite dict_keys_app in Hin.
    apply in_app_or in Hin as [Hin | [<- | []]].
    + apply (Hfresh k'); [now right | exact Hin].
    + contradiction.
Qed.

Lemma combine_const {A B C : Type} (names : list A) (l : list B) (v : C) :
  List.length l = List.length names ->
  combine names (map (fun _ => v) l) = map (fun k => (k, v)) names.
Proof.
  revert l. induction names as [|k names IH]; intros [|j l] Hl;
    simpl in *; try discriminate.
  - reflexivity.
  - f_equal. apply IH. lia.
Qed.

Lemma empty_columns (names : list string) :
  map (fun k => (k, @nil string)) names
  = combine names (round_robin_columns [] (List.length names) 0).
Proof.
  unfold round_robin_columns, round_robin_column. simpl.
  symmetry. apply combine_const. apply length_seq.
Qed.

Lemma read_data_concat (ew : bool) (data_lines : list string)
  (values : list (list string)) (d : sdict (list string))
  (names : list string) :
  mapM (CIFCategory.line_values ew) data_lines = Ok values ->
  CIFCategory.read_data ew data_lines d names
  = ('(d', _) <- CIFCategory.append_values (concat values) d names ;; Ok d').
Proof.
  revert values d names.
  induction data_lines as [|line data IH]; intros values d names; simpl.
  - now intros [= <-].
  - destruct (CIFCategory.line_values ew line) as [vs| |]; simpl;
      try discriminate.
    destruct (mapM (CIFCategory.line_values ew) data) as [vss| |] eqn:E;
      simpl; try discriminate.
    intros [= <-]. simpl. rewrite append_values_app.
    destruct (CIFCategory.append_values vs d names) as [[d' names']| |];
      simpl; try reflexivity.
    now apply IH.
Qed.

Lemma to_single_looped_plain (lines out : list string) :
  (forall line, In line lines ->
     line <> "" /\ Py.first_is ";" line = false) ->
  _to_single_loop true lines None out = Ok (out ++ lines)%list.
Proof.
  revert out. induction lines as [|line lines IH]; intros out Hl; simpl.
  - now rewrite app_nil_r.
  - destruct (Hl line (or_introl eq_refl)) as [Hne Hsemi].
    destruct (@first_is_not ";" line Hne Hsemi) as [c [Hc Hneq]].
    rewrite Hc. simpl. rewrite Hneq. simpl.
    rewrite IH by (intros l Hin; apply Hl; now right).
    now rewrite <- app_assoc.
Qed.

Lemma coerce_fresh_columns (items : list (string * list string))
  (acc : sdict CIFColumn.t) :
  NoDup (map fst items) ->
  (forall k, In k (map fst items) -> ~ In k (dict_keys acc)) ->
  (forall kv, In kv items -> snd kv <> []) ->
  CIFCategory.coerce_columns
    (map (fun kv => (fst kv, NoCol (Raw (Strs (snd kv))))) items) acc
  = Ok (acc ++ map (fun kv => (fst kv, column_of_tokens (snd kv))) items)%list.
Proof.
  revert acc. induction items as [|[k l] items IH]; intros acc Hnd Hfresh Hne;
    simpl.
  - now rewrite app_nil_r.
  - simpl in Hnd. inversion Hnd as [|? ? Hk Hnd']; subst.
    rewrite column_of_strs by (apply (Hne (k, l)); now left). simpl.
    rewrite sset_fresh by (apply Hfresh; now left).
    rewrite IH; [now rewrite <- app_assoc | exact Hnd' | |].
    + intros k' Hk' Hin. rewrite dict_keys_app in Hin.
      apply in_app_or in Hin as [Hin | [<- | []]].
      * apply (Hfresh k'); [now right | exact Hin].
      * contradiction.
    + intros kv Hkv. apply Hne. now right.
Qed.

Lemma Forall2_in_left {A B : Type} (R : A -> B -> Prop) (l1 : list A)
  (l2 : list B) (x : A) :
  Forall2 R l1 l2 -> In x l1 -> exists y, In y l2 /\ R x y.
Proof.
  induction 1 as [|a b l1 l2 Hab _ IH]; intros Hin; [destruct Hin|].
  destruct Hin as [<- | Hin].
  - exists b. split; [now left | exact Hab].
  - destruct (IH Hin) as [y [Hy Hr]]. exists y. split; [now right | exact Hr].
Qed.

Lemma content_lines_nonempty (lines : list string) (line : string) :
  In line (content_lines lines) -> line <> "".
Proof.
  unfold content_lines. intros Hin.
  apply in_map_iff in Hin as [x [<- Hx]].
  apply filter_In in Hx as [_ Hx]. unfold _is_empty in Hx.
  apply negb_true_iff, orb_false_iff in Hx as [Hx _].
  intros E. rewrite E in Hx. discriminate.
Qed.

Lemma map_combine_snd {A B C : Type} (f : B -> C) (l1 : list A)
  (l2 : list B) :
  map (fun kv => (fst kv, f (snd kv))) (combine l1 l2)
  = combine l1 (map f l2).
Proof.
  revert l2. induction l1 as [|a l1 IH]; intros [|b l2]; simpl;
    try reflexivity.
  f_equal. apply IH.
Qed.

Lemma map_fst_combine {A B : Type} (l1 : list A) (l2 : list B) :
  List.length l1 = List.length l2 -> map fst (combine l1 l2) = l1.
Proof.
  revert l2. induction l1 as [|a l1 IH]; intros [|b l2] Hl; simpl in *;
    try discriminate; [reflexivity|].
  f_equal. apply IH. lia.
Qed.

Lemma round_robin_column_length (tokens : list string) (k j n : nat) :
  List.length (round_robin_column tokens k j n) = n.
Proof. unfold round_robin_column. now rewrite length_map, length_seq. Qed.

Lemma round_robin_columns_length (tokens : list string) (k n : nat) :
  List.length (round_robin_columns tokens k n) = k.
Proof. unfold round_robin_columns. now rewrite length_map, length_seq. Qed.

Lemma deserialize_looped_lines (text : string) (ew : bool) (header : string)
  (key_lines data_lines names : list string) (values : list (list string))
  (n : nat) :
  content_lines (Py.splitlines text) = header :: key_lines ++ data_lines ->
  _is_loop_start header = true ->
  Forall2 key_line key_lines names ->
  names <> [] ->
  NoDup names ->
  (forall line, In line data_lines -> Py.first_is ";" line = false) ->
  Py.first_is "_" (hd "" data_lines) = false ->
  mapM (CIFCategory.line_values ew) data_lines = Ok values ->
  List.length (concat values) = n * List.length names ->
  1 <= n ->
  exists name,
    _parse_category_name (hd "" key_lines) = Ok (Some name)
    /\ CIFCategory.deserialize text ew
       = Ok (looped_category (Some name) names (concat values) n).
Proof.
  intros Hlines Hloop Hkeys Hnames Hnd Hsemi Hdata Hvals Hlen Hn.
  assert (Hnonempty : forall line, In line data_lines -> line <> "").
  { intros line Hin. apply (@content_lines_nonempty (Py.splitlines text)).
    rewrite Hlines. right. apply in_or_app. now right. }
  destruct Hkeys as [|k0 name0 key_lines names [Hk0 Hn0] Hkeys];
    [congruence|].
  exists (Py.slice k0 1 (Py.find "." k0)).
  assert (Hparse : _parse_category_name k0
                   = Ok (Some (Py.slice k0 1 (Py.find "." k0)))).
  { unfold _parse_category_name. now rewrite (first_is_first _ _ Hk0). }
  split; [exact Hparse|].
  unfold CIFCategory.deserialize. rewrite Hlines.
  cbn [index nth_error bind]. rewrite Hloop.
  cbn [tl app index nth_error bind]. rewrite Hparse. cbn [bind].
  unfold _to_single.
  rewrite to_single_looped_plain.
  2:{ intros line [<- | Hin].
      - destruct k0 as [|c k0]; [discriminate|]. split; [discriminate|].
        simpl in Hk0. apply Ascii.eqb_eq in Hk0. now subst.
      - apply in_app_or in Hin as [Hin | Hin].
        + apply (@Forall2_in_left _ _ _ _ _ line Hkeys) in Hin as [nm [_ [Hl _]]].
          destruct line as [|c line]; [discriminate|]. split; [discriminate|].
          simpl in Hl. apply Ascii.eqb_eq in Hl. now subst.
        + split; [now apply Hnonempty | now apply Hsemi]. }
  cbn [app bind]. unfold CIFCategory._deserialize_looped.
  change (k0 :: key_lines ++ data_lines)%list
    with ((k0 :: key_lines) ++ data_lines)%list.
  rewrite (@read_keys_spec (k0 :: key_lines) data_lines (name0 :: names)
             [] [] (Forall2_cons _ _ (conj Hk0 Hn0) Hkeys) Hnonempty Hdata).
  cbn [bind app].
  rewrite fold_sset_fresh by (auto; intros k _ []).
  cbn [app]. rewrite empty_columns.
  rewrite (@read_data_concat ew data_lines values _ _ Hvals).
  rewrite (@append_values_rows _ _ n Hnd Hlen). cbn [bind].
  unfold CIFCategory.__init__.
  rewrite coerce_fresh_columns.
  - cbn [app bind]. unfold looped_category.
    now rewrite map_combine_snd.
  - rewrite map_fst_combine; [exact Hnd|].
    now rewrite round_robin_columns_length.
  - intros k _ [].
  - intros [k l] Hin. apply in_combine_r in Hin.
    unfold round_robin_columns in Hin.
    apply in_map_iff in Hin as [j [<- _]]. simpl.
    intros E. apply (f_equal (@List.length string)) in E.
    rewrite round_robin_column_length in E. simpl in E. lia.
Qed.

Lemma nth_split_at {A : Type} (l : list A) (j : nat) (x : A) :
  nth_error l j = Some x ->
  exists pre post, l = (pre ++ x :: post)%list /\ List.length pre = j.
Proof.
  intros H. destruct (nth_error_split l j H) as [pre [post [E L]]].
  now exists pre, post.
Qed.

Lemma getitem_looped (name : option string) (names tokens : list string)
  (n j : nat) (key : string) :
  NoDup names -> nth_error names j = Some key ->
  CIFCategory.__getitem__ (looped_category name names tokens n) key
  = Ok (column_of_tokens
          (round_robin_column tokens (List.length names) j n)).
Proof.
  intros Hnd Hj. unfold CIFCategory.__getitem__, looped_category. simpl.
  set (cols := map column_of_tokens
                 (round_robin_columns tokens (List.length names) n)).
  assert (Hlen : List.length cols = List.length names)
    by (unfold cols; now rewrite length_map, round_robin_columns_length).
  assert (Hjlt : j < List.length names)
    by (apply nth_error_Some; congruence).
  assert (Hc : nth_error cols j
               = Some (column_of_tokens
                         (round_robin_column tokens (List.length names) j n))).
  { unfold cols, round_robin_columns. rewrite !nth_error_map.
    rewrite nth_error_seq.
    destruct (Nat.ltb_spec j (List.length names)); [reflexivity | lia]. }
  destruct (nth_split_at _ _ Hj) as [pre [post [En Lp]]].
  destruct (nth_split_at _ _ Hc) as [cpre [cpost [Ec Lc]]].
  rewrite En at 1. rewrite Ec.
  rewrite sget_combine; [reflexivity | lia |].
  rewrite En in Hnd. apply NoDup_remove_2 in Hnd.
  intros Hin. apply Hnd, in_or_app. now left.
Qed.

(** Two declared names that are the same name give one column, which
    takes every token; and names without any row give no category. *)
Lemma looped_same_name_twice :
  (exists cat column,
      CIFCategory.deserialize duplicate_names_text true = Ok cat
      /\ CIFCategory.keys cat = ["a"]
      /\ CIFCategory.__getitem__ cat "a" = Ok column
      /\ CIFColumn.as_array column None = Ok ["1"; "2"; "3"; "4"])
  /\ CIFCategory.deserialize no_rows_text true
     = Raise (ValueError "Array must contain at least one element").
Proof.
  split; [|vm_compute; reflexivity].
  do 2 eexists. split; [vm_compute; reflexivity|].
  split; [reflexivity|]. split; [vm_compute; reflexivity|].
  vm_compute. reflexivity.
Qed.

Lemma round_robin_ends (tokens : list string) (k j n : nat) :
  Forall (fun s => nul_free_end s = true) tokens ->
  Forall (fun s => nul_free_end s = true) (round_robin_column tokens k j n).
Proof.
  intros H. apply Forall_forall. intros s Hs.
  unfold round_robin_column in Hs. apply in_map_iff in Hs as [i [<- _]].
  destruct (nth_in_or_default (i * k + j) tokens "") as [Hin | ->];
    [|reflexivity].
  rewrite Forall_forall in H. now apply H.
Qed.

(** C2 (amended): a looped category text whose lines, once the blank and
    comment lines are dropped, are the loop marker, [k >= 1] key lines
    with pairwise distinct column names and then data lines (the first
    not starting with the name marker, none starting a multi-line value)
    with [n * k] tokens in all, [n >= 1], is read into a category whose
    keys are the names in declaration order and whose column [j] holds,
    in its row [i], the token [i * k + j] without the NUL characters at
    its end, which an array of text does not keep: [n] rows per column,
    whatever the lines the tokens stand on; the rows are the tokens
    themselves when no token ends with NUL. *)
Theorem looped_round_robin (text : string) (expect_whitespace : bool)
  (header : string) (key_lines data_lines names : list string)
  (values : list (list string)) (n : nat) :
  content_lines (Py.splitlines text) = header :: key_lines ++ data_lines ->
  _is_loop_start header = true ->
  Forall2 key_line key_lines names ->
  names <> [] ->
  NoDup names ->
  (forall line, In line data_lines -> Py.first_is ";" line = false) ->
  Py.first_is "_" (hd "" data_lines) = false ->
  mapM (CIFCategory.line_values expect_whitespace) data_lines = Ok values ->
  List.length (concat values) = n * List.length names ->
  1 <= n ->
  exists cat,
    CIFCategory.deserialize text expect_whitespace = Ok cat
    /\ CIFCategory.keys cat = names
    /\ forall j name,
         nth_error names j = Some name ->
         exists column,
           CIFCategory.__getitem__ cat name = Ok column
           /\ CIFColumn.__len__ column = n
           /\ CIFColumn.as_array column None
              = Ok (kept (round_robin_column (concat values)
                            (List.length names) j n))
           /\ (Forall (fun s => nul_free_end s = true) (concat values) ->
               CIFColumn.as_array column None
               = Ok (round_robin_column (concat values)
                       (List.length names) j n)).
Proof.
  intros Hlines Hloop Hkeys Hnames Hnd Hsemi Hdata Hvals Hlen Hn.
  destruct (@deserialize_looped_lines text expect_whitespace header key_lines
              data_lines names values n Hlines Hloop Hkeys Hnames Hnd Hsemi
              Hdata Hvals Hlen Hn) as [name [_ Hcat]].
  eexists. split; [exact Hcat|]. split.
  - unfold CIFCategory.keys, looped_category, dict_keys. simpl.
    apply map_fst_combine.
    now rewrite length_map, round_robin_columns_length.
  - intros j key Hj. eexists.
    split; [exact (@getitem_looped _ names _ n j key Hnd Hj)|]. split.
    + unfold CIFColumn.__len__, CIFData.__len__. simpl.
      apply round_robin_column_length.
    + split; [apply as_array_tokens|]. intros Hends.
      rewrite as_array_tokens. f_equal.
      now apply kept_id, round_robin_ends.
Qed.

Lemma looped_round_robin_example :
  exists cat,
    CIFCategory.deserialize wrapped_rows_text true = Ok cat
    /\ CIFCategory.keys cat = ["x"; "y"; "z"]
    /\ forall j name,
         nth_error ["x"; "y"; "z"] j = Some name ->
         exists column,
           CIFCategory.__getitem__ cat name = Ok column
           /\ CIFColumn.__len__ column = 3
           /\ CIFColumn.as_array column None
              = Ok (round_robin_column
                      ["1"; "2"; "3"; "4"; "5"; "6"; "7"; "8"; "9"] 3 j 3).
Proof.
  assert (H : exists cat,
    CIFCategory.deserialize wrapped_rows_text true = Ok cat
    /\ CIFCategory.keys cat = ["x"; "y"; "z"]
    /\ forall j name,
         nth_error ["x"; "y"; "z"] j = Some name ->
         exists column,
           CIFCategory.__getitem__ cat name = Ok column
           /\ CIFColumn.__len__ column = 3
           /\ CIFColumn.as_array column None
              = Ok (kept (round_robin_column
                            ["1"; "2"; "3"; "4"; "5"; "6"; "7"; "8"; "9"]
                            3 j 3))
           /\ (Forall (fun s => nul_free_end s = true)
                 ["1"; "2"; "3"; "4"; "5"; "6"; "7"; "8"; "9"] ->
               CIFColumn.as_array column None
               = Ok (round_robin_column
                       ["1"; "2"; "3"; "4"; "5"; "6"; "7"; "8"; "9"] 3 j 3))).
  2: { destruct H as [cat [Hd [Hk Hc]]]. exists cat.
       split; [exact Hd|]. split; [exact Hk|]. intros j name Hj.
       destruct (Hc j name Hj) as [column [Hg [Hl [_ Ha]]]].
       exists column. split; [exact Hg|]. split; [exact Hl|].
       apply Ha. repeat constructor. }
  apply (@looped_round_robin wrapped_rows_text true "loop_"
           ["_c.x"; "_c.y"; "_c.z"] ["1 2 3 4"; "5 6"; "7 8 9"]
           ["x"; "y"; "z"] [["1"; "2"; "3"; "4"]; ["5"; "6"]; ["7"; "8"; "9"]]
           3).
  - vm_compute. reflexivity.
  - reflexivity.
  - repeat constructor.
  - discriminate.
  - repeat constructor; simpl; intuition discriminate.
  - intros line [<- | [<- | [<- | []]]]; reflexivity.
  - reflexivity.
  - vm_compute. reflexivity.
  - reflexivity.
  - lia.
Defined.

(** ** Words and the two tokenizers *)

Lemma take_append (a b : string) : Py.take (len a) (a ++ b) = a.
Proof. induction a as [|c a IH]; simpl; [now destruct b | now rewrite IH]. Qed.

Lemma space_not_quote (c : ascii) :
  Py.isspace c = true -> is_quote c = false.
Proof.
  intros H. unfold is_quote.
  destruct (Ascii.eqb_spec c Py.SQ) as [-> | _]; [discriminate|].
  destruct (Ascii.eqb_spec c Py.DQ) as [-> | _]; [discriminate|].
  reflexivity.
Qed.

Lemma quote_pattern_no_quote (R : Type) (n : nat) (q c : ascii) (s : string)
  (g : caps) (k : string -> caps -> option R) :
  Ascii.eqb c q = false ->
  rmatch (quote_pattern n q) (String c s) g k = None.
Proof.
  intros H. unfold quote_pattern. cbn [rmatch]. unfold is_char.
  now rewrite H.
Qed.

(** The greedy run of [Star (Chr p)]. *)
Lemma star_run (R : Type) (p : ascii -> bool) (t rest : string) (g : caps)
  (k : string -> caps -> option R) (x : R) :
  all_chars p t = true ->
  match rest with
  | EmptyString => True
  | String c _ => p c = false
  end ->
  k rest g = Some x ->
  rmatch (Star (Chr p)) (t ++ rest) g k = Some x.
Proof.
  intros Ht Hrest Hk. cbn [rmatch].
  generalize (Nat.le_refl (len (t ++ rest))).
  generalize (len (t ++ rest)) at 2 3 as fuel.
  intros fuel. revert fuel. induction t as [|c t IH]; intros fuel Hfuel.
  - simpl. destruct fuel as [|fuel]; [exact Hk|].
    destruct rest as [|c rest]; [exact Hk|]. now rewrite Hrest.
  - simpl in Ht. apply andb_true_iff in Ht as [Hc Ht].
    destruct fuel as [|fuel]; [simpl in Hfuel; lia|].
    cbn [append]. rewrite Hc.
    assert (Hlt : (len (t ++ rest) <? len (String c (t ++ rest)))%nat = true)
      by (apply Nat.ltb_lt; simpl; lia).
    rewrite Hlt. rewrite IH; [reflexivity | exact Ht |].
    simpl in Hfuel. unfold len in *. lia.
Qed.

Lemma not_space_gap (rest : string) :
  at_gap rest ->
  match rest with
  | EmptyString => True
  | String c _ => not_space c = false
  end.
Proof.
  destruct rest as [|c rest]; simpl; [easy|].
  intros H. unfold not_space. now rewrite H.
Qed.

(** On a bare word the pattern takes the word as its third group. *)
Lemma match_bare (R : Type) (t rest : string)
  (k : string -> caps -> option R) (x : R) :
  bare t = true -> at_gap rest ->
  k rest [(3, t)] = Some x ->
  rmatch combined_pattern (t ++ rest) [] k = Some x.
Proof.
  intros Ht Hrest Hk. destruct t as [|c t]; [discriminate|].
  simpl in Ht. apply andb_true_iff in Ht as [Hq Ht].
  apply andb_true_iff in Ht as [Hc Ht].
  unfold is_quote in Hq. apply negb_true_iff, orb_false_iff in Hq as [Hs Hd].
  unfold combined_pattern, single_quote_pattern, double_quote_pattern.
  cbn [rmatch append].
  fold (quote_pattern 1 Py.SQ). fold (quote_pattern 2 Py.DQ).
  rewrite !quote_pattern_no_quote by assumption.
  unfold unquoted_pattern. cbn [rmatch]. rewrite Hc.
  apply star_run; [exact Ht | now apply not_space_gap |].
  replace (len (String c (t ++ rest)) - len rest) with (len (String c t)).
  - change (String c (t ++ rest)) with (String c t ++ rest).
    now rewrite (take_append (String c t) rest).
  - unfold len. cbn [String.length]. rewrite length_append. lia.
Qed.

Lemma no_match_at_space (R : Type) (c : ascii) (s : string)
  (k : string -> caps -> option R) :
  Py.isspace c = true -> rmatch combined_pattern (String c s) [] k = None.
Proof.
  intros Hc. pose proof (space_not_quote c Hc) as Hq.
  unfold is_quote in Hq. apply orb_false_iff in Hq as [Hs Hd].
  unfold combined_pattern, single_quote_pattern, double_quote_pattern.
  cbn [rmatch].
  fold (quote_pattern 1 Py.SQ). fold (quote_pattern 2 Py.DQ).
  rewrite !quote_pattern_no_quote by assumption.
  unfold unquoted_pattern. cbn [rmatch]. unfold not_space. now rewrite Hc.
Qed.

Lemma findall_skip (r : regex) (a b : string) :
  findall_aux r (a ++ b) (len a) = findall_aux r b 0.
Proof.
  induction a as [|c a IH]; simpl; [reflexivity | exact IH].
Qed.

Lemma findall_bare (t rest : string) :
  bare t = true -> at_gap rest ->
  findall_aux combined_pattern (t ++ rest) 0
  = [(3, t)] :: findall_aux combined_pattern rest 0.
Proof.
  intros Ht Hrest.
  pose proof (@match_bare _ t rest (fun rest g => Some (rest, g))
                (rest, [(3, t)]) Ht Hrest eq_refl) as Hm.
  destruct t as [|c t]; [discriminate|].
  cbn [append findall_aux] in *. rewrite Hm. f_equal.
  replace (len (String c (t ++ rest)) - len rest - 1) with (len t).
  - apply findall_skip.
  - unfold len. cbn [String.length]. rewrite length_append. lia.
Qed.

Lemma findall_space (c : ascii) (s : string) :
  Py.isspace c = true ->
  findall_aux combined_pattern (String c s) 0
  = findall_aux combined_pattern s 0.
Proof.
  intros Hc. cbn [findall_aux]. now rewrite no_match_at_space.
Qed.

Lemma findall_spaces (m : nat) (s : string) :
  findall_aux combined_pattern (Py.spaces m ++ s) 0
  = findall_aux combined_pattern s 0.
Proof.
  induction m as [|m IH]; [reflexivity|].
  cbn [Py.spaces append]. now rewrite findall_space.
Qed.

Lemma at_gap_spaces (m : nat) (toks : list (string * nat)) :
  (m = 0 -> toks = []) -> at_gap (Py.spaces m ++ spaced toks).
Proof.
  intros H. destruct m as [|m]; [|reflexivity].
  now rewrite H.
Qed.

Lemma bare_unquoted (t : string) :
  bare t = true ->
  first_nonempty [(3, t)] = Ok t /\ unquote_field t = t.
Proof.
  intros Ht. destruct t as [|c t]; [discriminate|]. split.
  - reflexivity.
  - simpl in Ht. apply andb_true_iff in Ht as [Hq _].
    unfold is_quote in Hq.
    apply negb_true_iff, orb_false_iff in Hq as [Hs Hd].
    unfold unquote_field, first_last_are.
    destruct (Ascii.eqb_spec c (Py.last_char c t)) as [<- | _]; simpl.
    + now rewrite Hs, Hd.
    + reflexivity.
Qed.

Lemma bare_chars (t : string) :
  bare t = true -> t <> "" /\ all_chars not_space t = true.
Proof.
  destruct t as [|c t]; [discriminate|]. simpl. intros H.
  apply andb_true_iff in H as [_ H]. split; [discriminate | exact H].
Qed.

Lemma split_word (t rest : string) :
  t <> "" -> all_chars not_space t = true -> at_gap rest ->
  Py.split (t ++ rest) = t :: Py.split rest.
Proof.
  intros Hne Ht Hrest. induction t as [|c t IH]; [congruence|].
  simpl in Ht. apply andb_true_iff in Ht as [Hc Ht].
  unfold not_space in Hc. apply negb_true_iff in Hc.
  cbn [append Py.split]. rewrite Hc.
  destruct t as [|d t].
  - cbn [append]. destruct rest as [|e rest]; [reflexivity|].
    simpl in Hrest. now rewrite Hrest.
  - cbn [append] in *. pose proof Ht as Ht'. simpl in Ht'.
    apply andb_true_iff in Ht' as [Hd _].
    unfold not_space in Hd. apply negb_true_iff in Hd. rewrite Hd.
    rewrite IH by (auto; discriminate). reflexivity.
Qed.

Lemma split_spaces (m : nat) (s : string) :
  Py.split (Py.spaces m ++ s) = Py.split s.
Proof. induction m as [|m IH]; [reflexivity | exact IH]. Qed.

Lemma strip_quotes_bare (t : string) :
  bare t = true -> CIFCategory.strip_quotes t = Ok t.
Proof.
  intros Ht. destruct t as [|c t]; [discriminate|].
  simpl in Ht. apply andb_true_iff in Ht as [Hq _].
  unfold is_quote in Hq. apply negb_true_iff, orb_false_iff in Hq as [Hs Hd].
  unfold CIFCategory.strip_quotes. cbn [Py.first Py.last bind].
  now rewrite Hs, Hd.
Qed.

(** *** Fields in quotes *)

Lemma first_last_wrapped (q : ascii) (v : string) :
  first_last_are q (String q (v ++ Py.str1 q)) = true.
Proof.
  unfold first_last_are. rewrite last_char_append.
  now rewrite Ascii.eqb_refl.
Qed.

Lemma first_last_other (q r : ascii) (v : string) :
  Ascii.eqb q r = false ->
  first_last_are r (String q (v ++ Py.str1 q)) = false.
Proof.
  intros H. unfold first_last_are. rewrite last_char_append.
  now rewrite H, andb_false_r.
Qed.

Lemma take_all (s : string) : Py.take (len s) s = s.
Proof.
  rewrite <- (append_nil_r s) at 2. apply take_append.
Qed.

Lemma findall_after (r : regex) (s : string) :
  findall_aux r s (len s) = findall_aux r "" 0.
Proof.
  rewrite <- (append_nil_r s) at 1. apply findall_skip.
Qed.

Lemma slice_wrapped (q : ascii) (body : string) :
  Py.slice (String q (body ++ Py.str1 q)) 1 (-1) = body.
Proof.
  unfold Py.slice, Py.clamp.
  set (L := Z.of_nat (String.length (String q (body ++ Py.str1 q)))).
  assert (HL : (L = 2 + Z.of_nat (len body))%Z).
  { unfold L, len. cbn [String.length]. rewrite length_append.
    unfold Py.str1. cbn [String.length]. lia. }
  change (1 <? 0)%Z with false. change (-1 <? 0)%Z with true. cbv iota.
  replace (Z.to_nat (Z.max 0 (Z.min L 1))) with 1 by lia.
  replace (Z.to_nat (Z.max 0 (Z.min L (-1 + L))) - 1) with (len body) by lia.
  cbn [Py.drop]. apply take_append.
Qed.

Lemma at_sp_gap (s : string) : at_sp s -> at_gap s.
Proof. destruct s as [|c s]; [easy|]. now intros ->. Qed.

Lemma at_sp_spaces (m : nat) (toks : list (string * nat)) :
  (m = 0 -> toks = []) -> at_sp (Py.spaces m ++ spaced toks).
Proof.
  intros H. destruct m as [|m]; [|reflexivity].
  now rewrite H.
Qed.

(** The body of a field in quotes: the greedy repetition takes the whole
    body and stops before the closing quote. *)
Lemma star_enclosed (R : Type) (q : ascii) (body rest : string) (g : caps)
  (k : string -> caps -> option R) (x : R) :
  Ascii.eqb q Py.SP = false ->
  closes_early q body = false ->
  at_sp rest ->
  k (String q rest) g = Some x ->
  k "" g = None ->
  rmatch (Star (Alt (Seq (Chr (is_char q)) (NotAhead (Chr (is_char Py.SP))))
                    (Chr (not_char q))))
         (body ++ String q rest) g k = Some x.
Proof.
  intros Hq Hb Hrest Hk Hend. cbn [rmatch].
  assert (Hqq : is_char q q = true)
    by (unfold is_char; apply Ascii.eqb_refl).
  assert (Hnq : not_char q q = false)
    by (unfold not_char; now rewrite Ascii.eqb_refl).
  generalize (Nat.le_refl (len (body ++ String q rest))).
  generalize (len (body ++ String q rest)) at 2 3 as fuel.
  intros fuel. revert fuel. induction body as [|c body IH]; intros fuel Hfuel.
  - destruct fuel as [|fuel]; [exact Hk|].
    cbn [append]. rewrite Hqq, Hnq.
    destruct rest as [|d rest].
    + change (len "" <? len (String q ""))%nat with true. cbv iota.
      destruct fuel as [|fuel]; rewrite Hend; exact Hk.
    + simpl in Hrest. subst d.
      assert (Hsp : is_char Py.SP Py.SP = true) by reflexivity.
      rewrite Hsp. exact Hk.
  - destruct fuel as [|fuel]; [simpl in Hfuel; lia|].
    assert (Hlt : (len (body ++ String q rest)
                   <? len (String c (body ++ String q rest)))%nat = true)
      by (apply Nat.ltb_lt; simpl; lia).
    assert (Hb' : closes_early q body = false).
    { destruct body as [|b body]; [reflexivity|].
      cbn [closes_early] in Hb. now apply orb_false_iff in Hb as [_ Hb]. }
    assert (Hrec : forall g',
               g' = g ->
               (fix loop (fuel : nat) (s : string) (g : caps) {struct fuel}
                  : option R :=
                  match fuel with
                  | 0 => k s g
                  | S fuel' =>
                      match
                        rmatch
                          (Alt (Seq (Chr (is_char q))
                                  (NotAhead (Chr (is_char Py.SP))))
                             (Chr (not_char q))) s g
                          (fun s1 g1 =>
                             if (len s1 <? len s)%nat
                             then loop fuel' s1 g1 else None)
                      with
                      | Some x => Some x
                      | None => k s g
                      end
                  end) fuel (body ++ String q rest) g' = Some x).
    { intros g' ->. apply IH; [exact Hb'|].
      simpl in Hfuel. unfold len in *. lia. }
    cbn [append]. destruct (Ascii.eqb c q) eqn:Ec.
    + apply Ascii.eqb_eq in Ec. subst c. rewrite Hqq.
      assert (Hnext : match body ++ String q rest with
                      | String d _ => is_char Py.SP d = false
                      | EmptyString => True
                      end).
      { destruct body as [|b body].
        - cbn [append]. unfold is_char. exact Hq.
        - cbn [append closes_early] in *.
          apply orb_false_iff in Hb as [Hb _].
          rewrite Ascii.eqb_refl in Hb. cbn [andb] in Hb.
          unfold is_char. exact Hb. }
      destruct (body ++ String q rest) as [|d tail] eqn:E.
      * destruct body; discriminate.
      * rewrite Hnext. rewrite Hlt. now rewrite Hrec.
    + assert (Hqc : is_char q c = false) by (unfold is_char; exact Ec).
      assert (Hnc : not_char q c = true)
        by (unfold not_char; now rewrite Ec).
      rewrite Hqc, Hnc, Hlt. now rewrite Hrec.
Qed.

(** A field in quotes before a space, or at the end of the line, is
    matched as a whole. *)
Lemma match_enclosed (R : Type) (n : nat) (q : ascii) (body rest : string)
  (k : string -> caps -> option R) (x : R) :
  Ascii.eqb q Py.SP = false ->
  closes_early q body = false ->
  at_sp rest ->
  k (Py.drop 1 rest) [(n, String q (body ++ Py.str1 q))] = Some x ->
  rmatch (quote_pattern n q) (String q (body ++ String q rest)) [] k = Some x.
Proof.
  intros Hq Hb Hrest Hk. unfold quote_pattern. cbn [rmatch].
  unfold is_char at 1. rewrite Ascii.eqb_refl.
  apply star_enclosed; [exact Hq | exact Hb | exact Hrest | | reflexivity].
  cbn [rmatch]. unfold is_char at 1. rewrite Ascii.eqb_refl.
  assert (Ht : Py.take (len (String q (body ++ String q rest)) - len rest)
                 (String q (body ++ String q rest))
               = String q (body ++ Py.str1 q)).
  { replace (len (String q (body ++ String q rest)) - len rest)
      with (len (String q (body ++ Py.str1 q))).
    - change (String q (body ++ String q rest))
        with (String q (body ++ (Py.str1 q ++ rest))).
      rewrite <- append_assoc.
      change (String q ((body ++ Py.str1 q) ++ rest))
        with (String q (body ++ Py.str1 q) ++ rest).
      apply take_append.
    - unfold len, Py.str1. cbn [String.length].
      rewrite !length_append. cbn [String.length]. lia. }
  rewrite Ht. destruct rest as [|d rest].
  - exact Hk.
  - simpl in Hrest. subst d. change (Py.isspace Py.SP) with true. cbv iota.
    assert (Hd : Py.drop 1 (String Py.SP rest) = rest) by (now destruct rest).
    rewrite Hd in Hk. now rewrite Hk.
Qed.

Lemma findall_enclosed (n : nat) (q : ascii) (body rest : string) :
  (q = Py.SQ /\ n = 1) \/ (q = Py.DQ /\ n = 2) ->
  closes_early q body = false ->
  at_sp rest ->
  findall_aux combined_pattern (String q (body ++ Py.str1 q) ++ rest) 0
  = [(n, String q (body ++ Py.str1 q))]
      :: findall_aux combined_pattern rest 0.
Proof.
  intros Hqn Hb Hrest.
  assert (Hq : Ascii.eqb q Py.SP = false)
    by (destruct Hqn as [[-> _] | [-> _]]; reflexivity).
  assert (Hshape : String q (body ++ Py.str1 q) ++ rest
                   = String q (body ++ String q rest)).
  { cbn [append]. rewrite append_assoc. reflexivity. }
  rewrite Hshape.
  assert (Hm : rmatch combined_pattern (String q (body ++ String q rest)) []
                 (fun rest g => Some (rest, g))
               = Some (Py.drop 1 rest, [(n, String q (body ++ Py.str1 q))])).
  { unfold combined_pattern, single_quote_pattern, double_quote_pattern.
    cbn [rmatch]. fold (quote_pattern 1 Py.SQ). fold (quote_pattern 2 Py.DQ).
    destruct Hqn as [[-> ->] | [-> ->]].
    - now rewrite (@match_enclosed _ 1 Py.SQ body rest _ _ Hq Hb Hrest eq_refl).
    - rewrite quote_pattern_no_quote by reflexivity.
      now rewrite (@match_enclosed _ 2 Py.DQ body rest _ _ Hq Hb Hrest eq_refl). }
  cbn [findall_aux]. rewrite Hm. f_equal.
  destruct rest as [|d rest].
  - cbn [Py.drop].
    change (len (String q (body ++ String q "")) - len "" - 1)
      with (len (body ++ String q "") - 0).
    rewrite Nat.sub_0_r. apply findall_after.
  - simpl in Hrest. subst d. cbn [Py.drop].
    rewrite findall_space by reflexivity.
    replace (len (String q (body ++ String q (String Py.SP rest)))
             - len rest - 1)
      with (len (body ++ String q (Py.str1 Py.SP))).
    + change (body ++ String q (String Py.SP rest))
        with (body ++ (String q (Py.str1 Py.SP) ++ rest)).
      rewrite <- append_assoc. apply findall_skip.
    + unfold len, Py.str1. cbn [String.length].
      rewrite !length_append. cbn [String.length]. lia.
Qed.

Lemma first_nonempty_1 (w : string) :
  w <> "" -> first_nonempty [(1, w)] = Ok w.
Proof. destruct w; [congruence | reflexivity]. Qed.

Lemma first_nonempty_2 (w : string) :
  w <> "" -> first_nonempty [(2, w)] = Ok w.
Proof. destruct w; [congruence | reflexivity]. Qed.

(** The regular expression takes a field that white space or the end of
    the line follows. *)
Lemma findall_field (w rest : string) :
  field w -> at_sp rest ->
  exists g,
    findall_aux combined_pattern (w ++ rest) 0
    = g :: findall_aux combined_pattern rest 0
    /\ first_nonempty g = Ok w.
Proof.
  intros [Hb | [[body [-> Hc]] | [body [-> Hc]]]] Hrest.
  - exists [(3, w)]. split.
    + apply findall_bare; [exact Hb | now apply at_sp_gap].
    + now apply bare_unquoted.
  - exists [(1, String Py.SQ (body ++ Py.str1 Py.SQ))]. split.
    + apply findall_enclosed; auto.
    + now apply first_nonempty_1.
  - exists [(2, String Py.DQ (body ++ Py.str1 Py.DQ))]. split.
    + apply findall_enclosed; auto.
    + now apply first_nonempty_2.
Qed.

(** The tokenizer with the regular expression gives the fields of a line,
    each without its quotes. *)
Lemma split_one_line_fields (toks : list (string * nat)) :
  Forall (fun tm => field (fst tm)) toks -> gaps toks ->
  _split_one_line (spaced toks)
  = Ok (map (fun tm => unquote_field (fst tm)) toks).
Proof.
  unfold _split_one_line, findall.
  induction toks as [|[t m] toks IH]; intros Hf Hg; [reflexivity|].
  inversion Hf as [|? ? Ht Hf']; subst. destruct Hg as [Hm Hg].
  cbn [spaced map fst] in *.
  destruct (@findall_field t (Py.spaces m ++ spaced toks) Ht
              (at_sp_spaces Hm)) as [g [Hfa Hfn]].
  rewrite Hfa, findall_spaces. cbn [mapM]. rewrite Hfn. cbn [bind].
  now rewrite IH.
Qed.

Lemma strip_quotes_unquote (w : string) :
  w <> "" -> CIFCategory.strip_quotes w = Ok (unquote_field w).
Proof.
  destruct w as [|a w]; [congruence|]. intros _.
  unfold CIFCategory.strip_quotes, unquote_field, first_last_are.
  cbn [Py.first Py.last bind].
  set (z := Py.last_char a w).
  assert (E : (Ascii.eqb a Py.DQ && Ascii.eqb z Py.DQ)
              || (Ascii.eqb a Py.SQ && Ascii.eqb z Py.SQ)
              = (Ascii.eqb a z && Ascii.eqb z Py.SQ)
                || (Ascii.eqb a z && Ascii.eqb z Py.DQ)).
  { clearbody z.
    destruct (Ascii.eqb_spec a z) as [E1 | Hne].
    - subst z. destruct (Ascii.eqb a Py.DQ), (Ascii.eqb a Py.SQ); reflexivity.
    - destruct (Ascii.eqb_spec a Py.DQ) as [Ea | _];
        destruct (Ascii.eqb_spec z Py.DQ) as [Ez | _];
        destruct (Ascii.eqb_spec a Py.SQ) as [Ea' | _];
        destruct (Ascii.eqb_spec z Py.SQ) as [Ez' | _];
        try reflexivity; subst; try congruence; try discriminate. }
  rewrite E.
  now destruct ((Ascii.eqb a z && Ascii.eqb z Py.SQ)
                || (Ascii.eqb a z && Ascii.eqb z Py.DQ)).
Qed.

Lemma split_spaced_words (toks : list (string * nat)) :
  Forall (fun tm => fst tm <> "" /\ all_chars not_space (fst tm) = true)
    toks ->
  gaps toks ->
  Py.split (spaced toks) = map fst toks.
Proof.
  induction toks as [|[t m] toks IH]; intros Hb Hg; [reflexivity|].
  inversion Hb as [|? ? [Hne Hc] Hb']; subst. destruct Hg as [Hm Hg].
  cbn [spaced map fst] in *.
  rewrite split_word by (auto using at_gap_spaces).
  now rewrite split_spaces, IH.
Qed.

(** Each tokenizer gives the tokens of a line made for it, each without
    its quotes. *)
Lemma line_values_tokens (ew : bool) (toks : list (string * nat)) :
  Forall (fun tm => token ew (fst tm)) toks -> gaps toks ->
  CIFCategory.line_values ew (spaced toks)
  = Ok (map (fun tm => unquote_field (fst tm)) toks).
Proof.
  intros Ht Hg. unfold CIFCategory.line_values. destruct ew.
  - apply split_one_line_fields; [|exact Hg].
    revert Ht. apply Forall_impl. now intros tm [H _].
  - rewrite split_spaced_words; [|revert Ht; apply Forall_impl;
                                   intros tm [H1 [H2 _]]; now split
                                 | exact Hg].
    clear Hg. induction Ht as [|[t m] toks [_ [Hne _]] _ IH]; [reflexivity|].
    cbn [map mapM fst] in *.
    rewrite strip_quotes_unquote by exact Hne. cbn [bind].
    now rewrite IH.
Qed.

(** ** Stripping and line splitting *)

Lemma rstrip_spaces (m : nat) : Py.rstrip (Py.spaces m) = "".
Proof. induction m as [|m IH]; [reflexivity|]. simpl. now rewrite IH. Qed.

Lemma rstrip_keep (a : string) (z : ascii) (m : nat) :
  Py.isspace z = false ->
  Py.rstrip (a ++ String z (Py.spaces m)) = a ++ Py.str1 z.
Proof.
  intros Hz. induction a as [|c a IH].
  - cbn [append Py.rstrip]. now rewrite rstrip_spaces, Hz.
  - cbn [append Py.rstrip]. rewrite IH. now destruct a.
Qed.

Lemma all_chars_append (p : ascii -> bool) (a b : string) :
  all_chars p (a ++ b) = all_chars p a && all_chars p b.
Proof.
  induction a as [|c a IH]; simpl; [reflexivity|].
  now rewrite IH, andb_assoc.
Qed.

Lemma all_chars_last (p : ascii -> bool) (c : ascii) (s : string) :
  all_chars p (String c s) = true -> p (Py.last_char c s) = true.
Proof.
  revert c. induction s as [|d s IH]; intros c H; simpl in *.
  - now apply andb_true_iff in H as [H _].
  - apply andb_true_iff in H as [_ H]. now apply IH.
Qed.

(** A word ends in a character that is not white space. *)
Lemma bare_last (t : string) :
  bare t = true ->
  exists body z, t = body ++ Py.str1 z /\ Py.isspace z = false.
Proof.
  intros Ht. destruct (bare_chars _ Ht) as [Hne Hc].
  destruct t as [|c t]; [congruence|].
  destruct (@last_char_split c (String c t) Hne) as [body Hb].
  exists body, (Py.last_char c (String c t)). split; [exact Hb|].
  pose proof (all_chars_last _ _ _ Hc) as Hl. unfold not_space in Hl.
  simpl. destruct t; simpl in *; now apply negb_true_iff in Hl.
Qed.

Lemma spaced_app (a b : list (string * nat)) :
  spaced (a ++ b) = spaced a ++ spaced b.
Proof.
  induction a as [|[t m] a IH]; [reflexivity|].
  cbn [app spaced]. now rewrite IH, !append_assoc.
Qed.

Lemma solid_last (w : string) :
  w <> "" -> no_trailing w = true ->
  exists body z, w = body ++ Py.str1 z /\ Py.isspace z = false.
Proof.
  intros Hne Ht. destruct w as [|c w]; [congruence|].
  destruct (@last_char_split c (String c w) Hne) as [body Hb].
  exists body, (Py.last_char c (String c w)). split; [exact Hb|].
  simpl in Ht. apply negb_true_iff in Ht. exact Ht.
Qed.

Lemma words_solid (w : string) :
  w <> "" -> all_chars not_space w = true -> solid w.
Proof.
  intros Hne Hc. split; [exact Hne|]. destruct w as [|c w]; [congruence|].
  split.
  - simpl in Hc. now apply andb_true_iff in Hc as [Hc _].
  - exact (all_chars_last _ _ _ Hc).
Qed.

Lemma bare_solid (w : string) : bare w = true -> solid w.
Proof. intros H. destruct (bare_chars _ H). now apply words_solid. Qed.

Lemma enclosed_solid (q : ascii) (w : string) :
  Py.isspace q = false -> enclosed q w -> solid w.
Proof.
  intros Hq [body [-> _]]. split; [discriminate|]. split.
  - simpl. now rewrite Hq.
  - simpl. now rewrite last_char_append, Hq.
Qed.

Lemma field_solid (w : string) : field w -> solid w.
Proof.
  intros [H | [H | H]]; [now apply bare_solid | |].
  - now apply (@enclosed_solid Py.SQ w).
  - now apply (@enclosed_solid Py.DQ w).
Qed.

Lemma token_solid (regex : bool) (w : string) : token regex w -> solid w.
Proof.
  intros [H [Hne _]]. destruct regex;
    [now apply field_solid | now apply words_solid].
Qed.

(** Stripping a line of words removes the white space after the last
    word. *)
Lemma strip_spaced (toks : list (string * nat)) (t : string) (m : nat) :
  Forall (fun tm => solid (fst tm)) (toks ++ [(t, m)]) ->
  Py.strip (spaced (toks ++ [(t, m)])) = spaced (toks ++ [(t, 0)]).
Proof.
  intros Hb. unfold Py.strip.
  assert (Hl : Py.lstrip (spaced (toks ++ [(t, m)]))
               = spaced (toks ++ [(t, m)])).
  { assert (Hhd : exists t0 m0 rest,
               (toks ++ [(t, m)])%list = (t0, m0) :: rest)
      by (destruct toks as [|[t0 m0] toks]; cbn [app]; eauto).
    destruct Hhd as [t0 [m0 [rest E]]]. rewrite E in *.
    inversion Hb as [|? ? [Hne [Hlead _]] _]; subst. cbn [fst] in *.
    destruct t0 as [|c t0]; [congruence|].
    simpl in Hlead. apply negb_true_iff in Hlead.
    cbn [spaced append Py.lstrip]. now rewrite Hlead. }
  rewrite Hl, !spaced_app. cbn [spaced].
  assert (Ht : solid t).
  { apply Forall_app in Hb as [_ Hb]. now inversion Hb. }
  destruct Ht as [Hne [_ Htr]].
  destruct (solid_last Hne Htr) as [body [z [-> Hz]]].
  rewrite ?append_nil_r. cbn [Py.spaces].
  rewrite ?append_nil_r, <- ?append_assoc.
  rewrite (append_assoc (spaced toks ++ body) (Py.str1 z) (Py.spaces m)).
  apply rstrip_keep, Hz.
Qed.

Lemma splitlines_line (line rest : string) :
  all_chars no_break line = true ->
  Py.splitlines_aux (line ++ String Py.LF rest) false
  = line :: Py.splitlines_aux rest false.
Proof.
  intros Hl. induction line as [|c line IH].
  - reflexivity.
  - simpl in Hl. apply andb_true_iff in Hl as [Hc Hl].
    unfold no_break in Hc. apply negb_true_iff in Hc.
    cbn [append Py.splitlines_aux andb]. rewrite Hc.
    now rewrite IH.
Qed.

Lemma join_lines (line : string) (lines : list string) :
  Py.join CIFCategory.NL ((line :: lines) ++ [""])
  = line ++ String Py.LF (Py.join CIFCategory.NL (lines ++ [""])).
Proof.
  cbn [app Py.join]. destruct (lines ++ [""])%list eqn:E.
  - now destruct lines.
  - reflexivity.
Qed.

(** A text made of lines, each closed by a line feed, splits into these
    lines. *)
Lemma splitlines_text_of (lines : list string) :
  Forall (fun line => all_chars no_break line = true) lines ->
  Py.splitlines (text_of lines) = lines.
Proof.
  unfold Py.splitlines, text_of. induction 1 as [|line lines Hl _ IH].
  - reflexivity.
  - rewrite join_lines, splitlines_line by exact Hl. now rewrite IH.
Qed.

(** ** Values and labels *)

Lemma all_chars_impl (p q : ascii -> bool) (s : string) :
  (forall c, p c = true -> q c = true) ->
  all_chars p s = true -> all_chars q s = true.
Proof.
  intros Hpq. induction s as [|c s IH]; simpl; [easy|].
  intros H. apply andb_true_iff in H as [Hc Hs].
  now rewrite (Hpq c Hc), IH.
Qed.

Lemma all_chars_contains (p : ascii -> bool) (q : ascii) (s : string) :
  p q = false -> all_chars p s = true -> Py.contains q s = false.
Proof.
  intros Hq. induction s as [|c s IH]; simpl; [easy|].
  intros H. apply andb_true_iff in H as [Hc Hs]. rewrite IH by exact Hs.
  destruct (Ascii.eqb_spec c q) as [-> | _]; [congruence | reflexivity].
Qed.

Lemma linebreak_is_space (c : ascii) :
  Py.isspace c = false -> Py.islinebreak c = false.
Proof.
  destruct c as [b0 b1 b2 b3 b4 b5 b6 b7].
  destruct b0, b1, b2, b3, b4, b5, b6, b7; intros H;
    try reflexivity; discriminate H.
Qed.

Lemma not_space_no_break (s : string) :
  all_chars not_space s = true -> all_chars no_break s = true.
Proof.
  apply all_chars_impl. intros c Hc. unfold not_space, no_break in *.
  apply negb_true_iff in Hc. now rewrite linebreak_is_space.
Qed.

Lemma quote_shapes (v : string) :
  _quote v = v \/ _quote v = squoted v \/ _quote v = dquoted v.
Proof.
  unfold _quote. destruct (len v =? 0)%nat eqn:E0.
  { right. left. destruct v; [reflexivity | discriminate]. }
  repeat match goal with
    | |- context [if ?b then _ else _] => destruct b
    end; auto.
Qed.

Lemma quote_mark_spec (v : string) :
  match quote_mark v with
  | Some q => (q = Py.SQ \/ q = Py.DQ) /\ _quote v = String q (v ++ Py.str1 q)
  | None => _quote v = v
  end.
Proof.
  unfold quote_mark.
  destruct (String.eqb_spec (_quote v) (squoted v)) as [E1 | N1];
    [split; [now left | exact E1]|].
  destruct (String.eqb_spec (_quote v) (dquoted v)) as [E2 | N2];
    [split; [now right | exact E2]|].
  destruct (quote_shapes v) as [H | [H | H]]; congruence.
Qed.

Lemma quote_nonempty (v : string) : _quote v <> "".
Proof.
  destruct (quote_shapes v) as [H | [H | H]]; rewrite H;
    [|discriminate | discriminate].
  intros E. rewrite E in H. discriminate H.
Qed.

(** What [_quote] gives never begins with the name marker. *)
Lemma quote_not_key (v : string) : Py.first_is "_" (_quote v) = false.
Proof.
  destruct (Py.first_is "_" v) eqn:E.
  - destruct v as [|c v]; [discriminate|]. simpl in E.
    apply Ascii.eqb_eq in E. subst c. unfold _quote, first_last_are.
    cbn [len String.length Nat.eqb Py.first_is].
    change (Ascii.eqb "_" "_") with true. cbv iota.
    destruct (Ascii.eqb_spec "_" (Py.last_char "_" v)) as [<- | _];
      cbn [andb]; rewrite ?andb_false_r; reflexivity.
  - destruct (quote_shapes v) as [H | [H | H]]; rewrite H;
      [exact E | reflexivity | reflexivity].
Qed.

Lemma all_chars_wrapped (p : ascii -> bool) (q : ascii) (v : string) :
  p q = true -> all_chars p v = true ->
  all_chars p (String q (v ++ Py.str1 q)) = true.
Proof.
  intros Hq Hv. cbn [all_chars]. rewrite all_chars_append, Hq, Hv.
  simpl. now rewrite Hq.
Qed.

Lemma quote_chars (p : ascii -> bool) (v : string) :
  p Py.SQ = true -> p Py.DQ = true -> all_chars p v = true ->
  all_chars p (_quote v) = true.
Proof.
  intros Hs Hd Hv. destruct (quote_shapes v) as [H | [H | H]]; rewrite H;
    [exact Hv | |]; now apply all_chars_wrapped.
Qed.

Lemma multiline_id (q : string) :
  all_chars no_break q = true -> _multiline q = q.
Proof.
  intros H. unfold _multiline.
  now rewrite (all_chars_contains no_break Py.LF q eq_refl H).
Qed.

Lemma unquote_wrapped (q : ascii) (body : string) :
  q = Py.SQ \/ q = Py.DQ ->
  unquote_field (String q (body ++ Py.str1 q)) = body.
Proof.
  intros Hq. unfold unquote_field.
  assert (H : first_last_are Py.SQ (String q (body ++ Py.str1 q))
              || first_last_are Py.DQ (String q (body ++ Py.str1 q)) = true).
  { destruct Hq as [-> | ->].
    - now rewrite first_last_wrapped.
    - rewrite (first_last_wrapped Py.DQ). apply orb_true_r. }
  rewrite H. apply slice_wrapped.
Qed.

(** A value that is one field is read back from what [_quote] makes of
    it. *)
Lemma one_field_spec (v : string) :
  one_field v = true ->
  all_chars no_break v = true
  /\ field (_quote v)
  /\ unquote_field (_quote v) = v.
Proof.
  unfold one_field. intros H. apply andb_true_iff in H as [Hnb H].
  split; [exact Hnb|]. pose proof (quote_mark_spec v) as Hq.
  destruct (quote_mark v) as [q|].
  - destruct Hq as [Hq E]. apply negb_true_iff in H. rewrite E. split.
    + destruct Hq as [-> | ->]; [right; left | right; right];
        now exists v.
    + now apply unquote_wrapped.
  - rewrite Hq. split; [now left | now apply bare_unquoted].
Qed.

(** What is written for a value that the tokenizer reads back is a token
    of the line, and the value comes back from it. *)
Lemma written_token (regex : bool) (v : string) :
  readable regex (np.rstrip_nul v) = true ->
  written v = _quote (np.rstrip_nul v)
  /\ token regex (written v)
  /\ unquote_field (written v) = np.rstrip_nul v.
Proof.
  intros H.
  assert (Hf : one_field (np.rstrip_nul v) = true).
  { destruct regex; [exact H|]. unfold readable, one_word in H.
    now apply andb_true_iff in H. }
  destruct (one_field_spec _ Hf) as [Hnb [Hfield Hun]].
  assert (Hw : written v = _quote (np.rstrip_nul v)).
  { unfold written. apply multiline_id. now apply quote_chars. }
  rewrite Hw. split; [reflexivity|]. split; [|exact Hun].
  split; [|split; [apply quote_nonempty | now apply quote_chars]].
  destruct regex; [exact Hfield|].
  unfold readable, one_word in H. apply andb_true_iff in H as [_ Hs].
  now apply quote_chars.
Qed.

Lemma last_is_wrapped (q c : ascii) (a : ascii) (body : string) :
  Py.last_is c (String a (body ++ Py.str1 q)) = Ascii.eqb q c.
Proof. unfold Py.last_is. now rewrite last_char_append. Qed.

Lemma quote_end (s : string) :
  nul_free_end s = true -> nul_free_end (_quote s) = true.
Proof.
  intros H. destruct (quote_shapes s) as [E | [E | E]]; rewrite E;
    [exact H | |]; unfold nul_free_end, squoted, dquoted;
    now rewrite last_is_wrapped.
Qed.

(** What is written for a value does not end with NUL, so an array made
    of it gives it back as it is. *)
Lemma written_end (v : string) : nul_free_end (written v) = true.
Proof.
  unfold written, _multiline.
  destruct (Py.contains Py.LF (_quote (np.rstrip_nul v))).
  - set (q := _quote (np.rstrip_nul v)).
    change (String Py.LF (String ";" (q ++ String Py.LF
                                        (String ";" (Py.str1 Py.LF)))))
      with (String Py.LF (String ";" (q ++ (String Py.LF (Py.str1 ";")
                                             ++ Py.str1 Py.LF)))).
    rewrite <- append_assoc.
    change (String Py.LF (String ";" ((q ++ String Py.LF (Py.str1 ";"))
                                      ++ Py.str1 Py.LF)))
      with (String Py.LF ((String ";" (q ++ String Py.LF (Py.str1 ";")))
                          ++ Py.str1 Py.LF)).
    unfold nul_free_end. now rewrite last_is_wrapped.
  - apply quote_end, rstrip_nul_end.
Qed.

Lemma elements_written (l : list string) :
  np.elements (map written l) = map written l.
Proof.
  rewrite elements_kept. apply kept_id, Forall_forall.
  intros w Hw. apply in_map_iff in Hw as [v [<- _]]. apply written_end.
Qed.

Lemma as_item_token (v : string) :
  CIFColumn.as_item (column_of_tokens [v]) = Ok (PStr (np.rstrip_nul v)).
Proof.
  assert (Hitem : np.item (StrArray (np.width [v]) [v])
                  = Ok (PStr (np.rstrip_nul v))).
  { unfold np.item. cbn [np.items]. now rewrite strs_width. }
  unfold column_of_tokens, column_of, presence_code.
  rewrite strs_width. unfold CIFColumn.as_item. cbn [kept map forallb].
  destruct (String.eqb_spec (np.rstrip_nul v) ".") as [E | _].
  - cbn. now rewrite E.
  - destruct (String.eqb_spec (np.rstrip_nul v) "?") as [E | _].
    + cbn. now rewrite E.
    + cbn [Z.eqb MaskValue.PRESENT andb CIFColumn.mask CIFColumn.data
           CIFData.array].
      exact Hitem.
Qed.

Lemma label_not_space (s : string) :
  label s = true -> all_chars not_space s = true.
Proof.
  apply all_chars_impl. intros c Hc.
  now apply andb_true_iff in Hc as [Hc _].
Qed.

Lemma full_key_chars (nm name : string) :
  label nm = true -> label name = true ->
  all_chars not_space (CIFCategory.full_key nm name) = true.
Proof.
  intros Hn Hc. unfold CIFCategory.full_key.
  cbn [append all_chars]. rewrite !all_chars_append. cbn [all_chars].
  rewrite (label_not_space _ Hn), (label_not_space _ Hc). reflexivity.
Qed.

Lemma full_key_bare (nm name : string) :
  label nm = true -> label name = true ->
  bare (CIFCategory.full_key nm name) = true.
Proof.
  intros Hn Hc. pose proof (full_key_chars _ _ Hn Hc) as H.
  unfold CIFCategory.full_key in *. cbn [append] in *.
  unfold bare. now rewrite H.
Qed.

Lemma split_on_label (s : string) :
  label s = true -> Py.split_on "." s = [s].
Proof.
  induction s as [|c s IH]; [reflexivity|]. unfold label. simpl.
  intros H. apply andb_true_iff in H as [Hc Hs].
  unfold label_char in Hc. apply andb_true_iff in Hc as [_ Hc].
  apply negb_true_iff in Hc. rewrite Hc. now rewrite IH.
Qed.

Lemma split_on_dot (a b : string) :
  label a = true ->
  Py.split_on "." (a ++ String "." b) = a :: Py.split_on "." b.
Proof.
  induction a as [|c a IH]; [reflexivity|]. unfold label. simpl.
  intros H. apply andb_true_iff in H as [Hc Hs].
  unfold label_char in Hc. apply andb_true_iff in Hc as [_ Hc].
  apply negb_true_iff in Hc. rewrite Hc. now rewrite IH.
Qed.

(** The column name is read back from a key. *)
Lemma full_key_column (nm name : string) :
  label nm = true -> label name = true ->
  index (Py.split_on "." (CIFCategory.full_key nm name)) 1 = Ok name.
Proof.
  intros Hn Hc. unfold CIFCategory.full_key.
  change ("_" ++ nm ++ "." ++ name) with (String "_" nm ++ String "." name).
  rewrite split_on_dot.
  - now rewrite split_on_label.
  - unfold label in *. simpl. now rewrite Hn.
Qed.

(** ** Reading a serialized category back *)

Lemma fold_max_le (l : list string) (m0 : nat) :
  m0 <= fold_left (fun m x => Nat.max m (len x)) l m0
  /\ forall x, In x l ->
       len x <= fold_left (fun m x => Nat.max m (len x)) l m0.
Proof.
  revert m0. induction l as [|y l IH]; intros m0; simpl.
  - split; [lia | intros x []].
  - destruct (IH (Nat.max m0 (len y))) as [H1 H2]. split; [lia|].
    intros x [<- | Hx]; [lia | now apply H2].
Qed.

Lemma max_len_bound (keys : list string) (M : nat) :
  CIFCategory.max_len keys = Ok M -> forall k, In k keys -> len k <= M.
Proof.
  destruct keys as [|k0 keys]; [discriminate|]. simpl. intros [= <-].
  destruct (fold_max_le keys (len k0)) as [H1 H2].
  intros k [<- | Hk]; [exact H1 | now apply H2].
Qed.

Lemma ljust_spaced (t v : string) (w : nat) :
  len t <= w ->
  Py.ljust t w ++ v = t ++ Py.spaces (w - len t) ++ v.
Proof. intros _. unfold Py.ljust. apply append_assoc. Qed.

Lemma no_break_spaces (m : nat) : all_chars no_break (Py.spaces m) = true.
Proof. induction m as [|m IH]; [reflexivity | exact IH]. Qed.

Lemma no_break_spaced (toks : list (string * nat)) :
  Forall (fun tm => all_chars no_break (fst tm) = true) toks ->
  all_chars no_break (spaced toks) = true.
Proof.
  induction 1 as [|[t m] toks Ht _ IH]; [reflexivity|].
  cbn [spaced]. rewrite !all_chars_append, no_break_spaces, IH.
  simpl in Ht. now rewrite Ht.
Qed.

Lemma tokens_no_break (regex : bool) (toks : list (string * nat)) :
  Forall (fun tm => token regex (fst tm)) toks ->
  all_chars no_break (spaced toks) = true.
Proof.
  intros H. apply no_break_spaced. revert H. apply Forall_impl.
  now intros tm [_ [_ H]].
Qed.

Lemma tokens_solid (regex : bool) (toks : list (string * nat)) :
  Forall (fun tm => token regex (fst tm)) toks ->
  Forall (fun tm => solid (fst tm)) toks.
Proof. apply Forall_impl. intros tm. apply token_solid. Qed.

Lemma first_is_spaced (c : ascii) (t : string) (m : nat)
  (toks : list (string * nat)) :
  t <> "" -> Py.first_is c (spaced ((t, m) :: toks)) = Py.first_is c t.
Proof. destruct t as [|d t]; [congruence | reflexivity]. Qed.

Lemma spaced_nonempty (t : string) (m : nat) (toks : list (string * nat)) :
  t <> "" -> spaced ((t, m) :: toks) <> "".
Proof. destruct t as [|d t]; [congruence | discriminate]. Qed.

Lemma content_lines_kept (lines : list string) :
  Forall (fun l => Py.strip l <> "" /\ Py.first_is "#" l = false) lines ->
  content_lines lines = map Py.strip lines.
Proof.
  unfold content_lines. induction 1 as [|l lines [Hs Hc] _ IH];
    [reflexivity|].
  cbn [filter]. unfold _is_empty at 1. rewrite Hc, orb_false_r.
  destruct (Py.strip l) eqn:E; [congruence|].
  cbn [len String.length Nat.eqb negb map]. now rewrite IH, E.
Qed.

Lemma to_single_keys (lines out : list string) :
  Forall (fun l => Py.first_is "_" l = true) lines ->
  _to_single_loop false lines None out = Ok (out ++ lines)%list.
Proof.
  intros H. revert out. induction H as [|l lines Hl _ IH]; intros out.
  - simpl. now rewrite app_nil_r.
  - cbn [_to_single_loop]. rewrite (first_is_first _ _ Hl). cbn [bind].
    change (Ascii.eqb "_" ";") with false.
    change (Ascii.eqb "_" "_") with true. cbn [negb andb].
    rewrite IH. now rewrite <- app_assoc.
Qed.

Lemma coerce_columns_id (d acc : sdict CIFColumn.t) :
  NoDup (dict_keys d) ->
  (forall k, In k (dict_keys d) -> ~ In k (dict_keys acc)) ->
  CIFCategory.coerce_columns (map (fun kv => (fst kv, Col (snd kv))) d) acc
  = Ok (acc ++ d)%list.
Proof.
  revert acc. induction d as [|[k c] d IH]; intros acc Hnd Hfresh; simpl.
  - now rewrite app_nil_r.
  - inversion Hnd as [|? ? Hk Hnd']; subst.
    rewrite sset_fresh by (apply Hfresh; now left).
    rewrite IH; [now rewrite <- app_assoc | exact Hnd' |].
    intros k' Hk' Hin. rewrite dict_keys_app in Hin.
    apply in_app_or in Hin as [Hin | [<- | []]].
    + apply (Hfresh k'); [now right | exact Hin].
    + contradiction.
Qed.

Lemma single_line_spaced (nm : string) (w : nat)
  (kv : string * list string) :
  single_line nm w kv = spaced (single_toks nm w kv).
Proof.
  unfold single_line, single_toks, Py.ljust. cbn [spaced Py.spaces].
  now rewrite !append_nil_r, append_assoc.
Qed.

(** A key is a token for either tokenizer. *)
Lemma key_token (regex : bool) (nm name : string) :
  label nm = true -> label name = true ->
  token regex (CIFCategory.full_key nm name).
Proof.
  intros Hn Hc. pose proof (full_key_bare _ _ Hn Hc) as Hb.
  pose proof (full_key_chars _ _ Hn Hc) as Hs.
  split; [destruct regex; [now left | exact Hs]|].
  split; [unfold CIFCategory.full_key; discriminate|].
  now apply not_space_no_break.
Qed.



Lemma table_shape (lv : level) (ew : bool)
  (items : list (string * list string)) (n : nat) :
  table lv ew items n -> shape items n.
Proof.
  intros [Hne [_ [Hall _]]]. split; [exact Hne|].
  intros kv Hkv. now destruct (Hall kv Hkv) as [_ [H _]].
Qed.

Section SingleRow.

Variable lv : level.
Variable ew : bool.
Variable nm : string.
Variable items : list (string * list string).
Variable w : nat.
Hypothesis Hnm : label nm = true.
Hypothesis Htable : table lv ew items 1.
Hypothesis Hw :
  forall kv, In kv items -> len (CIFCategory.full_key nm (fst kv)) + 3 <= w.

Lemma single_value (kv : string * list string) :
  In kv items ->
  snd kv = [hd "" (snd kv)]
  /\ readable true (np.rstrip_nul (hd "" (snd kv))) = true.
Proof.
  intros Hin. destruct Htable as [_ [_ [H _]]].
  destruct (H kv Hin) as [_ [Hl Hp]].
  destruct (snd kv) as [|v [|v' l]]; try discriminate.
  split; [reflexivity | now inversion Hp].
Qed.

Lemma single_toks_ok (kv : string * list string) :
  In kv items ->
  Forall (fun tm => token true (fst tm)) (single_toks nm w kv)
  /\ gaps (single_toks nm w kv).
Proof.
  intros Hin. destruct (single_value kv Hin) as [_ Hp].
  destruct Htable as [_ [_ [H _]]]. destruct (H kv Hin) as [Hl _].
  split.
  - unfold single_toks. constructor; [|constructor; [|constructor]]; cbn [fst].
    + now apply key_token.
    + now apply written_token.
  - unfold single_toks. cbn [gaps]. repeat split; try easy.
    intros E. pose proof (Hw kv Hin). exfalso. lia.
Qed.

Lemma single_line_facts (kv : string * list string) :
  In kv items ->
  all_chars no_break (single_line nm w kv) = true
  /\ Py.strip (single_line nm w kv) = single_line nm w kv
  /\ single_line nm w kv <> ""
  /\ Py.first_is "#" (single_line nm w kv) = false
  /\ Py.first_is "_" (single_line nm w kv) = true.
Proof.
  intros Hin. destruct (single_toks_ok kv Hin) as [Hb Hg].
  rewrite single_line_spaced. split; [now apply (tokens_no_break Hb)|].
  split.
  - unfold single_toks in *.
    apply (@strip_spaced
             [(CIFCategory.full_key nm (fst kv),
               w - len (CIFCategory.full_key nm (fst kv)))]
             (written (hd "" (snd kv))) 0 (tokens_solid Hb)).
  - unfold single_toks, CIFCategory.full_key. cbn [spaced append].
    repeat split; discriminate.
Qed.



Lemma single_lines_facts (l : string) :
  In l (map (single_line nm w) items) ->
  all_chars no_break l = true /\ Py.strip l = l /\ l <> ""
  /\ Py.first_is "#" l = false /\ Py.first_is "_" l = true.
Proof.
  intros Hl. apply in_map_iff in Hl as [kv [<- Hkv]].
  now apply single_line_facts.
Qed.



End SingleRow.

Lemma shape_col_len (items : list (string * list string)) (n : nat) :
  shape items n ->
  forall kc,
    In kc (map (fun kv => (fst kv, column_of_tokens (snd kv))) items) ->
    col_len kc = n.
Proof.
  intros [_ H] kc Hin. apply in_map_iff in Hin as [kv [<- Hkv]].
  pose proof (H kv Hkv) as Hl. unfold col_len. simpl.
  unfold CIFColumn.__len__, CIFData.__len__. simpl. exact Hl.
Qed.

Lemma serialize_by_rows (nm : string) (rc : option nat)
  (items : list (string * list string)) (n : nat) :
  shape items n -> rc = None \/ rc = Some n ->
  CIFCategory.serialize (category_of nm rc items)
  = (category_of nm (Some n) items,
     lines <-
       match n with
       | 0 => Raise (ValueError "At least one row is required")
       | 1 => CIFCategory._serialize_single (category_of nm (Some n) items)
       | _ => CIFCategory._serialize_looped (category_of nm (Some n) items)
       end ;;
     Ok (text_of lines)).
Proof.
  intros Ht Hrc. unfold CIFCategory.serialize, category_of.
  cbn [CIFCategory._name CIFCategory._columns CIFCategory._row_count].
  assert (Hne : map (fun kv => (fst kv, column_of_tokens (snd kv))) items
                <> []).
  { destruct Ht as [Hne _]. destruct items; [congruence | discriminate]. }
  destruct (map (fun kv => (fst kv, column_of_tokens (snd kv))) items)
    as [|c cs] eqn:E; [congruence|].
  cbn [List.length Nat.eqb]. rewrite <- E in *.
  rewrite (@check_lengths_uniform _ rc n Hne (shape_col_len Ht) Hrc).
  cbn [bind]. reflexivity.
Qed.

(** What [_serialize_single] writes: for each column its key, filled up
    with spaces, and what is written for its value. *)
Lemma serialize_single_lines (nm : string)
  (items : list (string * list string)) (M : nat) :
  shape items 1 ->
  CIFCategory.max_len (map (fun kv => CIFCategory.full_key nm (fst kv)) items)
  = Ok M ->
  CIFCategory._serialize_single (category_of nm (Some 1) items)
  = Ok (map (single_line nm (M + 3)) items).
Proof.
  intros Ht HM. unfold CIFCategory._serialize_single, category_of.
  unfold CIFCategory.keys.
  cbn [CIFCategory._name CIFCategory._columns].
  unfold dict_keys, dict_values.
  replace (map (CIFCategory.full_key nm)
             (map fst
                (map (fun kv => (fst kv, column_of_tokens (snd kv))) items)))
    with (map (fun kv => CIFCategory.full_key nm (fst kv)) items)
    by (now rewrite !map_map).
  replace (map snd
             (map (fun kv => (fst kv, column_of_tokens (snd kv))) items))
    with (map (fun kv => column_of_tokens (snd kv)) items)
    by (now rewrite !map_map).
  rewrite HM. cbn [bind].
  destruct Ht as [_ Hall]. clear HM.
  induction items as [|kv items IH]; [reflexivity|].
  cbn [map combine mapM fst snd].
  pose proof (Hall kv (or_introl eq_refl)) as Hl.
  destruct (snd kv) as [|v [|v' l]] eqn:Ev; try discriminate.
  rewrite as_item_token. cbn [bind _quote_item].
  rewrite IH by (intros x Hx; apply Hall; now right).
  cbn [bind]. unfold single_line, written. now rewrite Ev.
Qed.

(** ** Looped categories *)

Lemma n_chars_width (l : list string) :
  np.itemsize l / UNICODE_CHAR_SIZE + 1 = np.width l + 1.
Proof.
  unfold np.itemsize, UNICODE_CHAR_SIZE.
  now rewrite Nat.mul_comm, Nat.div_mul.
Qed.

Lemma value_line_spaced (arrays : list (list string)) (i : nat) :
  (forall l, In l arrays -> i < List.length l /\ np.elements l = l) ->
  CIFCategory.value_line arrays
    (map (fun array => np.itemsize array / UNICODE_CHAR_SIZE + 1) arrays) i
  = Ok (spaced (row_toks arrays i)).
Proof.
  induction arrays as [|l arrays IH]; intros Hi; [reflexivity|].
  cbn [map CIFCategory.value_line row_toks].
  destruct (Hi l (or_introl eq_refl)) as [Hlt He].
  assert (Hl : index (np.elements l) i = Ok (nth i l "")).
  { rewrite He. unfold index. now rewrite (nth_error_nth' l ""). }
  rewrite Hl. cbn [bind].
  rewrite IH by (intros l' Hl'; apply Hi; now right). cbn [bind].
  rewrite n_chars_width. unfold Py.ljust. cbn [spaced].
  now rewrite append_assoc.
Qed.

Lemma trimmed_last (toks : list (string * nat)) (t : string) (m : nat) :
  trimmed (toks ++ [(t, m)]) = (toks ++ [(t, 0)])%list.
Proof.
  induction toks as [|[t0 m0] toks IH]; [reflexivity|].
  cbn [app trimmed]. rewrite IH.
  destruct (toks ++ [(t, m)])%list eqn:E; [now destruct toks|].
  reflexivity.
Qed.

Lemma strip_row (toks : list (string * nat)) :
  toks <> [] -> Forall (fun tm => solid (fst tm)) toks ->
  Py.strip (spaced toks) = spaced (trimmed toks).
Proof.
  intros Hne Hb. destruct (exists_last Hne) as [init [[t m] E]]. subst.
  rewrite trimmed_last. now apply strip_spaced.
Qed.

Lemma trimmed_words (toks : list (string * nat)) :
  map fst (trimmed toks) = map fst toks.
Proof.
  induction toks as [|[t m] toks IH]; [reflexivity|].
  destruct toks as [|tm toks]; [reflexivity|].
  change (trimmed ((t, m) :: tm :: toks)) with ((t, m) :: trimmed (tm :: toks)).
  cbn [map]. now rewrite IH.
Qed.

Lemma trimmed_gaps (toks : list (string * nat)) :
  Forall (fun tm => 1 <= snd tm) toks -> gaps (trimmed toks).
Proof.
  induction 1 as [|[t m] toks Hm _ IH]; [exact I|].
  destruct toks as [|tm toks]; [simpl; tauto|].
  change (trimmed ((t, m) :: tm :: toks)) with ((t, m) :: trimmed (tm :: toks)).
  cbn [gaps]. split; [|exact IH]. simpl in Hm. lia.
Qed.

Lemma trimmed_all (P : string -> Prop) (toks : list (string * nat)) :
  Forall (fun tm => P (fst tm)) toks ->
  Forall (fun tm => P (fst tm)) (trimmed toks).
Proof.
  intros H. apply Forall_forall. intros tm Hin.
  assert (Hf : In (fst tm) (map fst (trimmed toks))) by (now apply in_map).
  rewrite trimmed_words in Hf. apply in_map_iff in Hf as [tm' [E Hin']].
  rewrite <- E. rewrite Forall_forall in H. now apply H.
Qed.

Lemma trimmed_head (toks : list (string * nat)) (c : ascii) :
  Forall (fun tm => fst tm <> "") toks ->
  Py.first_is c (spaced (trimmed toks))
  = Py.first_is c (fst (hd ("", 0) toks)).
Proof.
  intros Hb. destruct toks as [|[t m] toks]; [reflexivity|].
  inversion Hb as [|? ? Hne _]; subst. cbn [fst] in Hne.
  destruct toks as [|tm toks].
  - cbn [trimmed hd fst]. now apply first_is_spaced.
  - change (trimmed ((t, m) :: tm :: toks))
      with ((t, m) :: trimmed (tm :: toks)).
    cbn [hd fst]. now apply first_is_spaced.
Qed.


Lemma mapM_map {A B : Type} (f : A -> result B) (g : A -> B) (l : list A) :
  (forall x, In x l -> f x = Ok (g x)) -> mapM f l = Ok (map g l).
Proof.
  induction l as [|x l IH]; intros H; [reflexivity|].
  cbn [mapM map]. rewrite (H x (or_introl eq_refl)). cbn [bind].
  rewrite IH by (intros y Hy; apply H; now right). reflexivity.
Qed.

(** The arrays of text that [_serialize_looped] makes of the columns
    hold what is written for the values. *)
Lemma quoted_arrays (cols : list (list string)) :
  mapM (fun column =>
          array <- CIFColumn.as_array column None ;;
          Ok (map (fun element => _multiline (_quote element)) array))
       (map column_of_tokens cols)
  = Ok (map (map written) cols).
Proof.
  induction cols as [|l cols IH]; [reflexivity|].
  cbn [map mapM]. rewrite as_array_tokens. cbn [bind].
  rewrite IH. cbn [bind]. do 2 f_equal.
  unfold kept, written. now rewrite map_map.
Qed.

Lemma written_arrays_cols (items : list (string * list string)) :
  written_arrays items = map (map written) (map snd items).
Proof. unfold written_arrays. now rewrite map_map. Qed.

(** What [_serialize_looped] writes: the loop marker, the keys, and for
    each row what is written for its values, each filled up with spaces
    to one more than the longest of its column. *)
Lemma serialize_looped_lines (nm : string)
  (items : list (string * list string)) (n : nat) :
  shape items n ->
  CIFCategory._serialize_looped (category_of nm (Some n) items)
  = Ok (looped_lines nm items n).
Proof.
  intros [_ Hall]. unfold CIFCategory._serialize_looped, category_of.
  unfold CIFCategory.keys.
  cbn [CIFCategory._name CIFCategory._columns CIFCategory._row_count].
  unfold dict_keys, dict_values.
  replace (map snd
             (map (fun kv => (fst kv, column_of_tokens (snd kv))) items))
    with (map column_of_tokens (map snd items))
    by (now rewrite !map_map).
  replace (map (fun key => CIFCategory.full_key nm key ++ " ")
             (map fst
                (map (fun kv => (fst kv, column_of_tokens (snd kv))) items)))
    with (map (fun kv => CIFCategory.full_key nm (fst kv) ++ " ") items)
    by (now rewrite !map_map).
  rewrite quoted_arrays. cbn [bind]. rewrite <- written_arrays_cols.
  rewrite (@mapM_map _ _ _
             (fun i => spaced (row_toks (written_arrays items) i))).
  - reflexivity.
  - intros i Hi. apply in_seq in Hi. apply value_line_spaced.
    intros l Hl. apply in_map_iff in Hl as [kv [<- Hkv]].
    rewrite length_map, (Hall kv Hkv). split; [lia|].
    apply elements_written.
Qed.


Lemma nth_written (l : list string) (i : nat) :
  i < List.length l -> nth i (map written l) "" = written (nth i l "").
Proof.
  intros Hi. rewrite (nth_indep _ "" (written "")) by (now rewrite length_map).
  apply map_nth.
Qed.

Lemma nth_kept (l : list string) (i : nat) :
  nth i (kept l) "" = np.rstrip_nul (nth i l "").
Proof. unfold kept. apply (map_nth np.rstrip_nul l "" i). Qed.

Lemma opens_row_spec (lv : level) (w : string) :
  opens_row lv w = true ->
  Py.first_is "#" w = false /\ Py.first_is ";" w = false
  /\ (lv <> in_category -> Py.startswith "loop_" w = false)
  /\ (lv = in_file -> Py.startswith "data_" w = false).
Proof.
  unfold opens_row. intros H. apply andb_true_iff in H as [H H3].
  apply andb_true_iff in H as [H1 H2]. apply negb_true_iff in H1, H2.
  split; [exact H1|]. split; [exact H2|].
  destruct lv; split; intros E; try congruence.
  - now apply negb_true_iff in H3.
  - apply andb_true_iff in H3 as [H3 _]. now apply negb_true_iff in H3.
  - apply andb_true_iff in H3 as [_ H3]. now apply negb_true_iff in H3.
Qed.

Section Looped.

Variable lv : level.
Variable ew : bool.
Variable nm : string.
Variable items : list (string * list string).
Variable n : nat.
Hypothesis Hnm : label nm = true.
Hypothesis Htable : table lv ew items n.
Hypothesis Hn : 2 <= n.

Let arrays : list (list string) := written_arrays items.
Let values : list (list string) := map snd (stored items).

Lemma column_values (kv : string * list string) (i : nat) :
  In kv items -> i < n ->
  readable ew (np.rstrip_nul (nth i (snd kv) "")) = true.
Proof.
  intros Hkv Hi. destruct Htable as [_ [_ [Hall _]]].
  destruct (Hall kv Hkv) as [_ [Hlen Hp]].
  rewrite Forall_forall in Hp.
  assert (E : ((n =? 1)%nat || ew) = ew).
  { destruct n as [|[|n']]; try lia. reflexivity. }
  rewrite E in Hp. apply Hp, nth_In. lia.
Qed.

Lemma column_length (kv : string * list string) :
  In kv items -> List.length (snd kv) = n.
Proof.
  intros Hkv. destruct Htable as [_ [_ [Hall _]]].
  now destruct (Hall kv Hkv) as [_ [Hlen _]].
Qed.

Lemma row_toks_ok (i : nat) :
  i < n -> Forall (fun tm => token ew (fst tm)) (row_toks arrays i).
Proof.
  intros Hi. apply Forall_forall. intros tm Htm.
  apply in_map_iff in Htm as [l [<- Hl]]. cbn [fst].
  apply in_map_iff in Hl as [kv [<- Hkv]].
  rewrite nth_written by (rewrite (column_length kv Hkv); exact Hi).
  now apply written_token, column_values.
Qed.

Lemma row_toks_wide (i : nat) :
  i < n -> Forall (fun tm => 1 <= snd tm) (row_toks arrays i).
Proof.
  intros Hi. apply Forall_forall. intros tm Htm.
  apply in_map_iff in Htm as [l [<- Hl]]. cbn [snd].
  assert (Hlen : List.length l = n).
  { apply in_map_iff in Hl as [kv [<- Hkv]].
    rewrite length_map. now apply column_length. }
  assert (Hw : len (nth i l "") <= np.width l)
    by (apply width_ge, nth_In; lia).
  lia.
Qed.

Lemma row_toks_nonempty (i : nat) : row_toks arrays i <> [].
Proof.
  destruct Htable as [Hne _]. unfold row_toks, arrays, written_arrays.
  destruct items; [congruence | discriminate].
Qed.

Lemma row_values (i : nat) :
  i < n ->
  map (fun tm => unquote_field (fst tm)) (row_toks arrays i)
  = map (fun l => nth i l "") values.
Proof.
  intros Hi. unfold row_toks, arrays, values, written_arrays, stored.
  rewrite !map_map. apply map_ext_in. intros kv Hkv. cbn [fst snd].
  rewrite nth_written by (rewrite (column_length kv Hkv); exact Hi).
  rewrite nth_kept.
  now apply (written_token ew), column_values.
Qed.

(** A row begins with what is written for a value of the first column. *)
Lemma row_head (i : nat) :
  i < n ->
  exists v,
    fst (hd ("", 0) (row_toks arrays i)) = written v
    /\ opens_row lv (written v) = true.
Proof.
  intros Hi. destruct Htable as [Hne [_ [Hall Hfirst]]].
  destruct items as [|kv0 its] eqn:E; [congruence|].
  assert (Hkv : In kv0 items) by (rewrite E; now left).
  assert (Hlen : List.length (snd kv0) = n).
  { rewrite E in Hkv. now destruct (Hall kv0 Hkv) as [_ [Hlen _]]. }
  exists (nth i (snd kv0) ""). split.
  - unfold arrays, written_arrays. cbn [map row_toks hd fst].
    apply nth_written. lia.
  - specialize (Hfirst Hn). cbn [hd snd] in Hfirst.
    rewrite Forall_forall in Hfirst. apply Hfirst, nth_In. lia.
Qed.

Lemma key_line_facts (kv : string * list string) :
  In kv items ->
  let fk := CIFCategory.full_key nm (fst kv) in
  all_chars no_break (fk ++ " ") = true
  /\ Py.strip (fk ++ " ") = fk
  /\ fk <> ""
  /\ Py.first_is "#" (fk ++ " ") = false
  /\ key_line fk (fst kv).
Proof.
  intros Hin fk. destruct Htable as [_ [_ [Hall _]]].
  destruct (Hall kv Hin) as [Hl _].
  pose proof (full_key_bare _ _ Hnm Hl) as Hb. fold fk in Hb.
  pose proof (full_key_chars _ _ Hnm Hl) as Hc. fold fk in Hc.
  split.
  { rewrite all_chars_append, (not_space_no_break _ Hc). reflexivity. }
  split.
  { pose proof (@strip_spaced [] fk 1) as Hs. cbn [app spaced] in Hs.
    cbn [Py.spaces append] in Hs. rewrite !append_nil_r in Hs.
    apply Hs. repeat constructor; now apply bare_solid. }
  split; [unfold fk, CIFCategory.full_key; discriminate|].
  split; [reflexivity|].
  split; [reflexivity|].
  pose proof (full_key_column _ _ Hnm Hl) as Hi. fold fk in Hi.
  unfold index in Hi.
  destruct (nth_error (Py.split_on "." fk) 1); [now inversion Hi|].
  discriminate.
Qed.

Lemma row_facts (i : nat) :
  i < n ->
  let row := spaced (row_toks arrays i) in
  let line := spaced (trimmed (row_toks arrays i)) in
  all_chars no_break row = true
  /\ Py.strip row = line
  /\ line <> ""
  /\ Py.first_is "#" row = false
  /\ Py.first_is ";" line = false
  /\ Py.first_is "_" line = false
  /\ CIFCategory.line_values ew line = Ok (map (fun l => nth i l "") values).
Proof.
  intros Hi row line.
  pose proof (row_toks_ok Hi) as Hb.
  pose proof (row_toks_wide Hi) as Hw.
  pose proof (row_toks_nonempty i) as Hne.
  destruct (row_head Hi) as [v [Hv Hopen]].
  destruct (opens_row_spec _ _ Hopen) as [H1 [H2 _]].
  assert (Hnonempty : Forall (fun tm => fst tm <> "") (row_toks arrays i)).
  { revert Hb. apply Forall_impl. now intros tm [_ [H _]]. }
  assert (Hfirst : forall d,
             Py.first_is d line = Py.first_is d (written v)
             /\ Py.first_is d row = Py.first_is d (written v)).
  { intros d. unfold line, row. rewrite trimmed_head by exact Hnonempty.
    destruct (row_toks arrays i) as [|[t m] toks]; [congruence|].
    cbn [hd fst] in *. subst t. split; [reflexivity|].
    apply first_is_spaced. now inversion Hnonempty. }
  assert (Hkey : Py.first_is "_" (written v) = false).
  { destruct (row_toks arrays i) as [|[t m] toks] eqn:E; [congruence|].
    cbn [hd fst] in Hv. subst t.
    assert (Hin : In (written v, m) (row_toks arrays i))
      by (rewrite E; now left).
    unfold row_toks in Hin. apply in_map_iff in Hin as [l [Hl Hin]].
    apply in_map_iff in Hin as [kv [<- Hkv]].
    injection Hl as Hl _.
    rewrite nth_written in Hl by (rewrite (column_length kv Hkv); exact Hi).
    rewrite <- Hl.
    destruct (written_token ew _ (column_values kv Hkv Hi)) as [-> _].
    apply quote_not_key. }
  split; [now apply (tokens_no_break Hb)|].
  split; [apply strip_row; [exact Hne | now apply (tokens_solid Hb)]|].
  split.
  { intros E. unfold line in E.
    destruct (row_toks arrays i) as [|[t m] toks]; [congruence|].
    inversion Hnonempty as [|? ? Ht _]; subst. cbn [fst] in Ht.
    destruct toks as [|tm toks];
      [cbn [trimmed] in E
      |change (trimmed ((t, m) :: tm :: toks))
         with ((t, m) :: trimmed (tm :: toks)) in E];
      now apply spaced_nonempty in E. }
  split; [now rewrite (proj2 (Hfirst "#"%char))|].
  split; [now rewrite (proj1 (Hfirst ";"%char))|].
  split; [now rewrite (proj1 (Hfirst "_"%char))|].
  unfold line.
  rewrite line_values_tokens;
    [|now apply (trimmed_all (token ew)) | now apply trimmed_gaps].
  rewrite <- (row_values Hi). f_equal.
  rewrite <- !(map_map fst unquote_field). now rewrite trimmed_words.
Qed.





Lemma looped_lines_no_break :
  Forall (fun l => all_chars no_break l = true) (looped_lines nm items n).
Proof.
  unfold looped_lines. constructor; [reflexivity|]. apply Forall_app. split.
  - apply Forall_forall. intros l Hl.
    apply in_map_iff in Hl as [kv [<- Hkv]].
    now apply key_line_facts.
  - apply Forall_forall. intros l Hl.
    apply in_map_iff in Hl as [i [<- Hi]]. apply in_seq in Hi.
    apply row_facts. lia.
Qed.



End Looped.

(** ** The round trip of a category *)

Lemma max_key_len_spec (nm : string) (items : list (string * list string)) :
  items <> [] ->
  CIFCategory.max_len (map (fun kv => CIFCategory.full_key nm (fst kv)) items)
  = Ok (max_key_len nm items)
  /\ forall kv, In kv items ->
       len (CIFCategory.full_key nm (fst kv)) + 3 <= max_key_len nm items + 3.
Proof.
  intros Hne. unfold max_key_len.
  destruct (CIFCategory.max_len _) as [M| |] eqn:HM;
    try (destruct items; [congruence | discriminate]).
  split; [reflexivity|]. intros kv Hin.
  assert (len (CIFCategory.full_key nm (fst kv)) <= M); [|lia].
  apply (max_len_bound _ HM). apply in_map_iff. now exists kv.
Qed.

(** A category of [n >= 1] values in each column is serialized to its
    lines, whatever the values are. *)
Lemma serialize_table (nm : string) (rc : option nat)
  (items : list (string * list string)) (n : nat) :
  shape items n -> 1 <= n -> rc = None \/ rc = Some n ->
  CIFCategory.serialize (category_of nm rc items)
  = (category_of nm (Some n) items,
     Ok (text_of (category_lines nm items n))).
Proof.
  intros Ht Hn Hrc. rewrite (serialize_by_rows nm Ht Hrc).
  destruct n as [|[|n']]; [lia | |].
  - destruct (@max_key_len_spec nm items (proj1 Ht)) as [HM _].
    now rewrite (serialize_single_lines nm Ht HM).
  - now rewrite (serialize_looped_lines nm Ht).
Qed.

Lemma category_lines_no_break (lv : level) (ew : bool) (nm : string)
  (items : list (string * list string)) (n : nat) :
  label nm = true -> table lv ew items n -> 1 <= n ->
  Forall (fun l => all_chars no_break l = true) (category_lines nm items n).
Proof.
  intros Hnm Ht Hn. destruct n as [|[|n']]; [lia | |].
  - apply Forall_forall. intros l Hl.
    apply (@single_lines_facts lv ew nm items (max_key_len nm items + 3)
             Hnm Ht);
      [|exact Hl].
    apply max_key_len_spec, Ht.
  - apply (@looped_lines_no_break lv ew); auto. lia.
Qed.


Lemma text_column_of_tokens (l : list string) :
  text_column (column_of_tokens l).
Proof.
  unfold column_of_tokens, column_of, text_column. simpl. split; [eauto|].
  destruct (forallb _ _); eauto.
Qed.

Lemma category_eq_same_columns (a b : CIFCategory.t) :
  CIFCategory._columns a = CIFCategory._columns b ->
  text_columns (CIFCategory._columns a) ->
  CIFCategory.__eq__ a b = Ok true.
Proof.
  intros Hab Ht. unfold CIFCategory.__eq__, CIFCategory.keys.
  rewrite <- Hab.
  rewrite (same_key_set_refl String.eqb String.eqb_eq). cbn [negb].
  assert (H : forall ks, incl ks (dict_keys (CIFCategory._columns a)) ->
            CIFCategory.columns_equal ks a b = Ok true).
  { induction ks as [|k ks IH]; intros Hincl; [reflexivity|].
    cbn [CIFCategory.columns_equal].
    destruct (in_dict_get String.eqb String.eqb_eq
                (CIFCategory._columns a) k) as [c [Hg Hin]].
    { apply Hincl. now left. }
    unfold CIFCategory.__getitem__, sget. rewrite <- Hab, Hg. cbn [bind].
    rewrite (text_column_eq_refl (Ht (k, c) Hin : text_column c)).
    cbn [negb]. apply IH. intros x Hx. apply Hincl. now right. }
  apply H, incl_refl.
Qed.




Lemma splitlines_content_text_of (lines : list string) :
  Forall (fun l => all_chars no_break l = true) lines ->
  content_lines (Py.splitlines (text_of lines)) = content_lines lines.
Proof. intros H. now rewrite splitlines_text_of. Qed.

Lemma init_table (nm : option string) (items : list (string * list string))
  (n : nat) :
  NoDup (map fst items) -> shape items n -> 1 <= n ->
  CIFCategory.__init__
    (Some (map (fun kv => (fst kv, NoCol (Raw (Strs (snd kv))))) items)) nm
  = Ok (CIFCategory.mk nm None (columns_of items)).
Proof.
  intros Hnd [_ Hall] Hn. unfold CIFCategory.__init__.
  rewrite coerce_fresh_columns.
  - reflexivity.
  - exact Hnd.
  - intros k _ [].
  - intros kv Hkv E. pose proof (Hall kv Hkv) as Hl.
    rewrite E in Hl. simpl in Hl. lia.
Qed.

(** ** Lines as a block or a file meets them *)

Lemma text_of_cons (line : string) (lines : list string) :
  text_of (line :: lines) = line ++ String Py.LF (text_of lines).
Proof. apply join_lines. Qed.

Lemma text_of_app (a b : list string) :
  text_of (a ++ b) = text_of a ++ text_of b.
Proof.
  induction a as [|x a IH]; [reflexivity|].
  cbn [app]. rewrite !text_of_cons, IH.
  rewrite append_assoc. reflexivity.
Qed.



Lemma content_lines_app (a b : list string) :
  content_lines (a ++ b) = (content_lines a ++ content_lines b)%list.
Proof. unfold content_lines. now rewrite filter_app, map_app. Qed.















(** What is written for a value is not empty and does not begin with
    the name marker. *)
Lemma written_not_key (v : string) :
  written v <> "" /\ Py.first_is "_" (written v) = false.
Proof.
  unfold written, _multiline.
  destruct (Py.contains Py.LF (_quote (np.rstrip_nul v))).
  - split; [discriminate | reflexivity].
  - split; [apply quote_nonempty | apply quote_not_key].
Qed.




(** ** The round trip of a block *)

Lemma join_empty_cons (x : string) (l : list string) :
  Py.join "" (x :: l) = x ++ Py.join "" l.
Proof. destruct l; simpl; [now rewrite append_nil_r | reflexivity]. Qed.

Lemma block_lines_cons (e : entry) (cats : list entry) :
  block_lines (e :: cats)
  = (entry_lines e ++ "#" :: block_lines cats)%list.
Proof. unfold block_lines. cbn [map concat]. now rewrite <- app_assoc. Qed.

Lemma serialize_block_items (lv : level) (cats : list entry)
  (slots : list (CIFBlock.key * slot CIFCategory.t)) :
  Forall (entry_ok lv) cats -> Forall2 holds cats slots ->
  exists slots' texts,
    CIFBlock.serialize_items slots = (slots', Ok texts)
    /\ Py.join "" texts = text_of (block_lines cats)
    /\ Forall2 holds cats slots'.
Proof.
  intros Hok H. induction H as [|e [k s] cats slots He _ IH].
  - exists [], []. repeat split. constructor.
  - inversion Hok as [|? ? Hentry Hok']; subst.
    destruct (IH Hok') as [slots' [texts [Hs [Hj Hh]]]].
    destruct e as [[nm items] n]. destruct Hentry as [Hnm [Ht Hn]].
    destruct He as [Hk [c [Hc [Hcols Hrc]]]]. cbn [fst snd] in *.
    subst k s. cbn [CIFBlock.serialize_items].
    assert (Hset : CIFCategory.set_name c (entry_key (nm, items, n))
                   = category_of nm (CIFCategory._row_count c) items).
    { unfold CIFCategory.set_name, category_of, entry_key, entry_name.
      cbn [fst]. now rewrite Hcols. }
    rewrite Hset, (serialize_table nm (table_shape Ht) Hn Hrc).
    cbn [try_except]. rewrite Hs.
    exists ((entry_key (nm, items, n), Obj (category_of nm (Some n) items))
            :: slots').
    eexists. split; [reflexivity|]. split.
    + rewrite !join_empty_cons, Hj, block_lines_cons, text_of_app.
      rewrite text_of_cons. unfold entry_lines. cbn [fst snd].
      reflexivity.
    + constructor; [|exact Hh]. split; [reflexivity|].
      eexists. split; [reflexivity|]. cbn [fst snd]. split; [reflexivity|].
      now right.
Qed.

Lemma hash_quiet (cur : CIFBlock.key) : quiet cur "#".
Proof. now left. Qed.


(** ** Slicing the lines into elements *)

Section DictOrder.

Variable K : Type.
Variable eqb : K -> K -> bool.
Hypothesis eqb_spec : forall a b, eqb a b = true <-> a = b.
Variable A : Type.




End DictOrder.

Section Segments.

Variable K : Type.
Variable eqb : K -> K -> bool.
Hypothesis eqb_spec : forall a b, eqb a b = true <-> a = b.
Variable A : Type.


End Segments.












(** ** The round trip of a file *)

Lemma join_empty_app (a b : list string) :
  Py.join "" (a ++ b) = Py.join "" a ++ Py.join "" b.
Proof.
  induction a as [|x a IH]; [reflexivity|].
  cbn [app]. rewrite !join_empty_cons, IH. now rewrite append_assoc.
Qed.

Lemma file_lines_cons (b : volume) (blocks : list volume) :
  file_lines (b :: blocks) = (volume_lines b ++ file_lines blocks)%list.
Proof. reflexivity. Qed.

Lemma serialize_file_items (blocks : list volume)
  (slots : list (string * slot CIFBlock.t)) :
  Forall volume_ok blocks -> Forall2 keeps blocks slots ->
  exists slots' texts,
    CIFFile.serialize_items slots = (slots', Ok texts)
    /\ Py.join "" texts = text_of (file_lines blocks)
    /\ Forall2 keeps blocks slots'.
Proof.
  intros Hok H. induction H as [|b [k s] blocks slots Hb _ IH].
  - exists [], []. repeat split. constructor.
  - inversion Hok as [|? ? [Hname Hcat] Hok']; subst.
    destruct (IH Hok') as [slots' [texts [Hs [Hj Hk]]]].
    destruct Hb as [Hkey [bslots [Hobj Hholds]]]. cbn [fst snd] in *.
    subst k s.
    destruct (serialize_block_items (proj2 Hcat) Hholds)
      as [bslots' [btexts [Hbs [Hbj Hbh]]]].
    cbn [CIFFile.serialize_items]. unfold CIFBlock.serialize.
    cbn [CIFBlock._categories]. rewrite Hbs. cbn [bind try_except].
    rewrite Hs.
    exists ((fst b, Obj (CIFBlock.mk bslots')) :: slots').
    eexists. split; [reflexivity|]. split.
    + rewrite !join_empty_cons, Hj, Hbj, file_lines_cons, text_of_app.
      unfold volume_lines. rewrite !text_of_cons.
      rewrite !append_assoc. reflexivity.
    + constructor; [|exact Hk]. split; [reflexivity|].
      exists bslots'. split; [reflexivity | exact Hbh].
Qed.



Lemma block_lines_no_break (lv : level) (cats : list entry) :
  Forall (entry_ok lv) cats ->
  Forall (fun l => all_chars no_break l = true) (block_lines cats).
Proof.
  intros Hok. unfold block_lines. apply Forall_concat, Forall_forall.
  intros L HL. apply in_map_iff in HL as [e [<- He]].
  rewrite Forall_forall in Hok. destruct (Hok e He) as [Hnm [Ht Hn]].
  apply Forall_app. split; [|now repeat constructor].
  eapply category_lines_no_break; eassumption.
Qed.


Lemma volume_lines_no_break (b : volume) :
  volume_ok b ->
  Forall (fun l => all_chars no_break l = true) (volume_lines b).
Proof.
  intros [Hname Hcat]. unfold volume_lines.
  constructor; [|constructor; [reflexivity|]].
  - cbn [append all_chars]. now rewrite Hname.
  - apply (@block_lines_no_break in_file), Hcat.
Qed.










(** ** Objects built from values *)

Lemma build_block_holds (lv : level) (cats : list entry) :
  Forall (entry_ok lv) cats ->
  exists slots,
    build_block cats = Ok (CIFBlock.mk slots) /\ Forall2 holds cats slots.
Proof.
  intros Hok.
  assert (H : exists slots,
             mapM build_slot cats = Ok slots /\ Forall2 holds cats slots).
  { induction Hok as [|e cats [Hnm [Ht Hn]] _ [slots [Hm Hh]]].
    - exists []. split; [reflexivity | constructor].
    - exists ((entry_key e,
               Obj (CIFCategory.mk None None (columns_of (snd (fst e)))))
              :: slots).
      split.
      + cbn [mapM]. unfold build_slot at 1, raw_columns, sdict, dict.
        destruct Ht as [Hne [Hnd Hall]].
        rewrite (@init_table None (snd (fst e)) (snd e) Hnd); auto.
        * now rewrite Hm.
        * split; [exact Hne|]. intros kv Hkv. now apply Hall.
      + constructor; [|exact Hh]. split; [reflexivity|].
        eexists. split; [reflexivity|]. split; [reflexivity | now left]. }
  destruct H as [slots [Hm Hh]]. exists slots.
  unfold build_block. rewrite Hm. now split.
Qed.

Lemma build_file_keeps (blocks : list volume) :
  Forall volume_ok blocks ->
  exists slots,
    build_file blocks = Ok (CIFFile.mk slots) /\ Forall2 keeps blocks slots.
Proof.
  intros Hok.
  assert (H : exists slots,
             mapM build_volume blocks = Ok slots
             /\ Forall2 keeps blocks slots).
  { induction Hok as [|b blocks [Hname [Hnd Hcats]] _ [slots [Hm Hk]]].
    - exists []. split; [reflexivity | constructor].
    - destruct (build_block_holds Hcats) as [bslots [Hb Hh]].
      exists ((fst b, Obj (CIFBlock.mk bslots)) :: slots). split.
      + cbn [mapM]. unfold build_volume at 1. now rewrite Hb, Hm.
      + constructor; [|exact Hk]. split; [reflexivity|].
        exists bslots. now split. }
  destruct H as [slots [Hm Hk]]. exists slots.
  unfold build_file. rewrite Hm. now split.
Qed.

(** ** A value that does not come back *)


(** ** The round trip *)



(** * Further properties *)

(** ** Quoting twice *)

Lemma len_wrapped (q : ascii) (v : string) :
  (2 <=? len (String q (v ++ Py.str1 q)))%nat = true.
Proof.
  apply Nat.leb_le. unfold len. cbn [String.length].
  rewrite length_append. simpl. lia.
Qed.

Lemma quote_squoted (v : string) : _quote (squoted v) = squoted v.
Proof.
  unfold _quote, squoted.
  now rewrite len_wrapped, first_last_wrapped.
Qed.

Lemma quote_dquoted (v : string) : _quote (dquoted v) = dquoted v.
Proof.
  unfold _quote, dquoted.
  rewrite len_wrapped, first_last_wrapped.
  rewrite (@first_last_other Py.DQ Py.SQ v) by reflexivity.
  reflexivity.
Qed.

(** X1: [_quote] leaves its own results as they are. *)
Theorem quote_idempotent (value : string) :
  _quote (_quote value) = _quote value.
Proof.
  unfold _quote at 2 3.
  destruct (len value =? 0)%nat eqn:E0; [reflexivity|].
  destruct ((2 <=? len value)%nat && first_last_are Py.SQ value) eqn:E1.
  { unfold _quote. now rewrite E0, E1. }
  destruct ((2 <=? len value)%nat && first_last_are Py.DQ value) eqn:E2.
  { unfold _quote. now rewrite E0, E1, E2. }
  destruct (Py.first_is "_" value) eqn:E3; [apply quote_squoted|].
  destruct (Py.contains Py.SQ value) eqn:E4; [apply quote_dquoted|].
  destruct (Py.contains Py.DQ value) eqn:E5; [apply quote_squoted|].
  destruct (Py.contains Py.SP value) eqn:E6; [apply quote_squoted|].
  destruct (Py.contains Py.TAB value) eqn:E7; [apply quote_squoted|].
  destruct (Py.contains Py.LF value) eqn:E8; [apply quote_squoted|].
  unfold _quote. now rewrite E0, E1, E2, E3, E4, E5, E6, E7, E8.
Qed.

(** ** The two tokenizers on lines without quotes *)

(** A text that begins with a character that is not white space begins
    with a word. *)
Lemma leading_word (c : ascii) (s : string) :
  Py.isspace c = false ->
  exists t rest,
    String c s = t ++ rest /\ t <> ""
    /\ Py.first t = Ok c
    /\ all_chars not_space t = true /\ at_gap rest.
Proof.
  revert c. induction s as [|d s IH]; intros c Hc.
  - exists (Py.str1 c), "". repeat split; [discriminate|].
    simpl. unfold not_space. now rewrite Hc.
  - destruct (Py.isspace d) eqn:Hd.
    + exists (Py.str1 c), (String d s). repeat split; [discriminate | |exact Hd].
      simpl. unfold not_space. now rewrite Hc.
    + destruct (IH d Hd) as [t [rest [E [Hne [_ [Ht Hgap]]]]]].
      exists (String c t), rest. rewrite E.
      repeat split; [discriminate | | exact Hgap].
      simpl. unfold not_space at 1. now rewrite Hc, Ht.
Qed.

Lemma quote_free_app (a b : string) :
  quote_free (a ++ b) = quote_free a && quote_free b.
Proof. apply all_chars_append. Qed.

Lemma findall_words (n : nat) (s : string) :
  len s <= n -> quote_free s = true ->
  findall_aux combined_pattern s 0 = map (fun t => [(3, t)]) (Py.split s)
  /\ Forall (fun t => bare t = true) (Py.split s).
Proof.
  revert s. induction n as [|n IH]; intros s Hn Hq.
  - destruct s; [|simpl in Hn; lia]. split; [reflexivity | constructor].
  - destruct s as [|c s]; [split; [reflexivity | constructor]|].
    destruct (Py.isspace c) eqn:Hc.
    + rewrite findall_space by exact Hc.
      assert (Hs : Py.split (String c s) = Py.split s)
        by (cbn [Py.split]; now rewrite Hc).
      rewrite Hs. apply IH; [simpl in Hn; unfold len in *; lia|].
      unfold quote_free in *. simpl in Hq.
      now apply andb_true_iff in Hq as [_ Hq].
    + destruct (@leading_word c s Hc) as [t [rest [E [Hne [Hfirst [Ht Hgap]]]]]].
      rewrite E in *. rewrite quote_free_app in Hq.
      apply andb_true_iff in Hq as [Hqt Hqr].
      assert (Hbare : bare t = true).
      { destruct t as [|a t]; [congruence|]. simpl.
        unfold quote_free in Hqt. simpl in Hqt.
        apply andb_true_iff in Hqt as [Ha _]. rewrite Ha.
        simpl in Ht. now rewrite Ht. }
      assert (Hlen : len rest <= n).
      { unfold len in *. rewrite length_append in Hn.
        destruct t; [congruence|]. simpl in Hn. lia. }
      destruct (IH rest Hlen Hqr) as [Hf Hb].
      rewrite findall_bare by assumption.
      rewrite split_word by assumption.
      cbn [map]. rewrite Hf. split; [reflexivity|].
      now constructor.
Qed.

Lemma strip_quotes_words (l : list string) :
  Forall (fun t => bare t = true) l ->
  mapM CIFCategory.strip_quotes l = Ok l.
Proof.
  induction 1 as [|t l Ht _ IH]; [reflexivity|].
  cbn [mapM]. now rewrite strip_quotes_bare, IH.
Qed.

Lemma unquote_words (l : list string) :
  Forall (fun t => bare t = true) l ->
  mapM (fun m => field <- first_nonempty m ;; Ok (unquote_field field))
    (map (fun t => [(3, t)]) l) = Ok l.
Proof.
  induction 1 as [|t l Ht _ IH]; [reflexivity|].
  cbn [mapM map]. destruct (bare_unquoted t Ht) as [H1 H2].
  rewrite H1. cbn [bind]. now rewrite H2, IH.
Qed.

Lemma split_one_line_words (line : string) :
  quote_free line = true -> _split_one_line line = Ok (Py.split line).
Proof.
  intros Hq.
  destruct (@findall_words (len line) line (Nat.le_refl _) Hq) as [Hf Hb].
  unfold _split_one_line, findall. rewrite Hf. now apply unquote_words.
Qed.

(** X2: on a line without quote characters both ways of splitting a data
    line give the words of [str.split]. *)
Theorem tokenizers_agree (line : string) (expect_whitespace : bool) :
  quote_free line = true ->
  CIFCategory.line_values expect_whitespace line = Ok (Py.split line)
  /\ _split_one_line line = Ok (Py.split line).
Proof.
  intros Hq. pose proof (split_one_line_words line Hq) as H.
  split; [|exact H].
  unfold CIFCategory.line_values. destruct expect_whitespace; [exact H|].
  apply strip_quotes_words.
  now destruct (@findall_words (len line) line (Nat.le_refl _) Hq).
Qed.

Lemma tokenizers_agree_example :
  quote_free "ATOM 1  N   CA" = true
  /\ (CIFCategory.line_values false "ATOM 1  N   CA"
      = Ok (Py.split "ATOM 1  N   CA")
      /\ _split_one_line "ATOM 1  N   CA" = Ok (Py.split "ATOM 1  N   CA")).
Proof.
  split; [reflexivity|]. apply tokenizers_agree. reflexivity.
Defined.

(** ** Quoting and splitting *)

(** The body of a quoted field: a character other than the quote, or a
    quote that no space follows. *)
Lemma star_quoted (R : Type) (q : ascii) (body : string) (g : caps)
  (k : string -> caps -> option R) (x : R) :
  all_chars (not_char q) body = true ->
  k (Py.str1 q) g = Some x ->
  k "" g = None ->
  rmatch (Star (Alt (Seq (Chr (is_char q)) (NotAhead (Chr (is_char Py.SP))))
                    (Chr (not_char q))))
         (body ++ Py.str1 q) g k = Some x.
Proof.
  intros Hb Hk Hend. cbn [rmatch].
  generalize (Nat.le_refl (len (body ++ Py.str1 q))).
  generalize (len (body ++ Py.str1 q)) at 2 3 as fuel.
  intros fuel. revert fuel. induction body as [|c body IH]; intros fuel Hfuel.
  - destruct fuel as [|fuel]; [exact Hk|].
    assert (Hqq : is_char q q = true)
      by (unfold is_char; apply Ascii.eqb_refl).
    assert (Hnq : not_char q q = false)
      by (unfold not_char; now rewrite Ascii.eqb_refl).
    cbn [append Py.str1]. rewrite Hqq, Hnq.
    change (len "" <? len (String q ""))%nat with true. cbv iota.
    destruct fuel as [|fuel]; rewrite Hend; exact Hk.
  - simpl in Hb. apply andb_true_iff in Hb as [Hc Hb].
    destruct fuel as [|fuel]; [simpl in Hfuel; lia|].
    assert (Hqc : is_char q c = false)
      by (unfold is_char; unfold not_char in Hc;
          now apply negb_true_iff in Hc).
    cbn [append]. rewrite Hqc, Hc.
    assert (Hlt : (len (body ++ Py.str1 q)
                   <? len (String c (body ++ Py.str1 q)))%nat = true)
      by (apply Nat.ltb_lt; simpl; lia).
    rewrite Hlt. rewrite IH; [reflexivity | exact Hb |].
    simpl in Hfuel. unfold len in *. lia.
Qed.

(** A field in quotes at the end of the text is matched as a whole. *)
Lemma match_quoted (R : Type) (n : nat) (q : ascii) (body : string)
  (k : string -> caps -> option R) (x : R) :
  all_chars (not_char q) body = true ->
  k "" [(n, String q (body ++ Py.str1 q))] = Some x ->
  rmatch (quote_pattern n q) (String q (body ++ Py.str1 q)) [] k = Some x.
Proof.
  intros Hb Hk. unfold quote_pattern. cbn [rmatch].
  unfold is_char at 1. rewrite Ascii.eqb_refl.
  apply star_quoted; [exact Hb | | reflexivity].
  cbn [rmatch Py.str1]. unfold is_char at 1. rewrite Ascii.eqb_refl.
  change (len (String q (body ++ String q "")) - len "")
    with (len (String q (body ++ String q "")) - 0).
  rewrite Nat.sub_0_r, take_all. exact Hk.
Qed.

Lemma split_squoted (body : string) :
  all_chars (not_char Py.SQ) body = true ->
  _split_one_line (squoted body) = Ok [body].
Proof.
  intros Hb. unfold _split_one_line, findall, squoted.
  cbn [findall_aux].
  assert (H : rmatch combined_pattern (String Py.SQ (body ++ Py.str1 Py.SQ))
                [] (fun rest g => Some (rest, g))
              = Some ("", [(1, String Py.SQ (body ++ Py.str1 Py.SQ))])).
  { unfold combined_pattern, single_quote_pattern. cbn [rmatch].
    fold (quote_pattern 1 Py.SQ).
    now rewrite (@match_quoted _ 1 Py.SQ body _ _ Hb eq_refl). }
  rewrite H.
  change (len (String Py.SQ (body ++ Py.str1 Py.SQ)) - len "" - 1)
    with (len (body ++ Py.str1 Py.SQ) - 0).
  rewrite Nat.sub_0_r, findall_after.
  change (findall_aux combined_pattern "" 0) with (@nil caps).
  cbn [mapM]. unfold first_nonempty. cbn [group Nat.eqb filter].
  change (len (String Py.SQ (body ++ Py.str1 Py.SQ)) =? 0)%nat with false.
  cbn [negb bind]. unfold unquote_field.
  rewrite first_last_wrapped. cbn [orb]. now rewrite slice_wrapped.
Qed.

Lemma split_dquoted (body : string) :
  all_chars (not_char Py.DQ) body = true ->
  _split_one_line (dquoted body) = Ok [body].
Proof.
  intros Hb. unfold _split_one_line, findall, dquoted.
  cbn [findall_aux].
  assert (H : rmatch combined_pattern (String Py.DQ (body ++ Py.str1 Py.DQ))
                [] (fun rest g => Some (rest, g))
              = Some ("", [(2, String Py.DQ (body ++ Py.str1 Py.DQ))])).
  { unfold combined_pattern, single_quote_pattern, double_quote_pattern.
    cbn [rmatch]. fold (quote_pattern 1 Py.SQ). fold (quote_pattern 2 Py.DQ).
    rewrite quote_pattern_no_quote by reflexivity.
    now rewrite (@match_quoted _ 2 Py.DQ body _ _ Hb eq_refl). }
  rewrite H.
  change (len (String Py.DQ (body ++ Py.str1 Py.DQ)) - len "" - 1)
    with (len (body ++ Py.str1 Py.DQ) - 0).
  rewrite Nat.sub_0_r, findall_after.
  change (findall_aux combined_pattern "" 0) with (@nil caps).
  cbn [mapM]. unfold first_nonempty. cbn [group Nat.eqb filter].
  change (len "" =? 0)%nat with true.
  change (len (String Py.DQ (body ++ Py.str1 Py.DQ)) =? 0)%nat with false.
  cbn [negb bind]. unfold unquote_field.
  rewrite (@first_last_other Py.DQ Py.SQ body) by reflexivity.
  rewrite first_last_wrapped. cbn [orb]. now rewrite slice_wrapped.
Qed.

Lemma contains_not_char (q : ascii) (v : string) :
  Py.contains q v = false -> all_chars (not_char q) v = true.
Proof.
  induction v as [|c v IH]; [reflexivity|]. cbn [Py.contains all_chars].
  intros H. apply orb_false_iff in H as [Hc Hv].
  unfold not_char at 1. now rewrite Hc, IH.
Qed.

Lemma first_last_contains (q : ascii) (v : string) :
  first_last_are q v = true -> Py.contains q v = true.
Proof.
  destruct v as [|c v]; [discriminate|]. unfold first_last_are.
  intros H. apply andb_true_iff in H as [H1 H2].
  apply Ascii.eqb_eq in H1. rewrite <- H1 in H2.
  cbn [Py.contains]. now rewrite H2.
Qed.

Lemma no_quotes_quote_free (v : string) :
  Py.contains Py.SQ v = false -> Py.contains Py.DQ v = false ->
  quote_free v = true.
Proof.
  unfold quote_free. induction v as [|c v IH]; [reflexivity|].
  cbn [Py.contains all_chars]. intros Hs Hd.
  apply orb_false_iff in Hs as [Hs Hs']. apply orb_false_iff in Hd as [Hd Hd'].
  rewrite (IH Hs' Hd'). unfold is_quote. now rewrite Hs, Hd.
Qed.

Lemma split_quote_back (value : string) :
  quote_safe value = true -> _split_one_line (_quote value) = Ok [value].
Proof.
  unfold quote_safe. intros H. apply andb_true_iff in H as [Hd H].
  apply negb_true_iff in Hd. unfold _quote.
  destruct (len value =? 0)%nat eqn:E0.
  { destruct value; [reflexivity | discriminate]. }
  destruct (first_last_are Py.DQ value) eqn:Ed.
  { apply first_last_contains in Ed. congruence. }
  rewrite andb_false_r.
  destruct (Py.contains Py.SQ value) eqn:Es.
  - apply andb_true_iff in H as [Hu Hw].
    apply negb_true_iff in Hu. apply negb_true_iff in Hw.
    rewrite Hw, Hu. apply split_dquoted. now apply contains_not_char.
  - pose proof (contains_not_char _ _ Es) as Hb.
    destruct (first_last_are Py.SQ value) eqn:Ew.
    { apply first_last_contains in Ew. congruence. }
    rewrite andb_false_r, Hd.
    destruct (Py.first_is "_" value) eqn:E3; [now apply split_squoted|].
    destruct (Py.contains Py.SP value) eqn:E6; [now apply split_squoted|].
    destruct (Py.contains Py.TAB value) eqn:E7; [now apply split_squoted|].
    destruct (Py.contains Py.LF value) eqn:E8; [now apply split_squoted|].
    rewrite !orb_false_r in H.
    rewrite (split_one_line_words value (no_quotes_quote_free _ Es Hd)).
    rewrite <- (append_nil_r value) at 1.
    rewrite split_word; [reflexivity | | exact H | exact I].
    intros ->. discriminate.
Qed.

(** X3: splitting the quoted value gives the value back, for a value
    without double quotes that, when it holds a single quote, neither
    begins with the name marker nor is wrapped in single quotes and, when
    it holds none, holds no white space, or begins with the name marker,
    or holds a space, a tab or a line feed. *)
Theorem split_of_quote (value : string) :
  quote_safe value = true -> _split_one_line (_quote value) = Ok [value].
Proof. apply split_quote_back. Qed.

Lemma split_of_quote_example :
  quote_safe "a dog's life" = true
  /\ _split_one_line (_quote "a dog's life") = Ok ["a dog's life"].
Proof.
  split; [reflexivity|]. apply split_of_quote. reflexivity.
Defined.

(** ** The last character of a serialized category *)

Lemma text_of_ends (lines : list string) :
  lines <> [] -> exists body, text_of lines = body ++ CIFCategory.NL.
Proof.
  induction lines as [|l lines IH]; [congruence|]. intros _.
  rewrite text_of_cons. destruct lines as [|l' lines].
  - exists l. reflexivity.
  - destruct IH as [body Hb]; [discriminate|]. rewrite Hb.
    exists (l ++ String Py.LF body).
    rewrite append_assoc. reflexivity.
Qed.

Lemma mapM_length {A B : Type} (f : A -> result B) (l : list A)
  (r : list B) :
  mapM f l = Ok r -> List.length r = List.length l.
Proof.
  revert r. induction l as [|a l IH]; intros r; cbn [mapM].
  - now intros [= <-].
  - destruct (f a) as [b| |]; cbn [bind]; try discriminate.
    destruct (mapM f l) as [bs| |]; cbn [bind]; try discriminate.
    intros [= <-]. cbn [List.length]. now rewrite (IH bs eq_refl).
Qed.

Lemma serialize_single_nonempty (self : CIFCategory.t) (lines : list string) :
  CIFCategory._columns self <> [] ->
  CIFCategory._serialize_single self = Ok lines -> lines <> [].
Proof.
  intros Hc. unfold CIFCategory._serialize_single.
  destruct (CIFCategory._name self) as [name|]; [|discriminate].
  destruct (CIFCategory.max_len _) as [m| |]; cbn [bind]; try discriminate.
  intros H. apply mapM_length in H.
  unfold CIFCategory.keys, dict_keys, dict_values in H.
  rewrite length_combine, !length_map, Nat.min_id in H.
  destruct (CIFCategory._columns self); [congruence|].
  destruct lines; [discriminate | discriminate].
Qed.

Lemma serialize_looped_nonempty (self : CIFCategory.t) (lines : list string) :
  CIFCategory._serialize_looped self = Ok lines -> lines <> [].
Proof.
  unfold CIFCategory._serialize_looped.
  destruct (CIFCategory._name self) as [name|]; [|discriminate].
  destruct (mapM _ _) as [arrays| |]; cbn [bind]; try discriminate.
  destruct (CIFCategory._row_count self) as [n|]; [|discriminate].
  destruct (mapM _ _) as [values| |]; cbn [bind]; try discriminate.
  intros [= <-]. discriminate.
Qed.

(** X4: the text that [CIFCategory.serialize] returns ends with a line
    feed. *)
Theorem category_text_ends_with_line_feed (self self' : CIFCategory.t)
  (text : string) :
  CIFCategory.serialize self = (self', Ok text) ->
  exists body, text = body ++ CIFCategory.NL.
Proof.
  unfold CIFCategory.serialize.
  destruct (CIFCategory._name self) as [name|] eqn:En; [|discriminate].
  destruct (List.length (CIFCategory._columns self) =? 0)%nat eqn:El;
    [discriminate|].
  destruct (CIFCategory.check_lengths _ _) as [rc checked].
  intros [= _ H].
  destruct checked as [[]| |]; cbn [bind] in H; try discriminate.
  assert (Hc : CIFCategory._columns self <> []).
  { intros E. rewrite E in El. discriminate. }
  set (s := CIFCategory.mk (Some name) rc (CIFCategory._columns self)) in *.
  assert (Hlines : forall r lines,
             r = Ok lines -> lines <> [] ->
             (lines0 <- r ;;
              Ok (Py.join CIFCategory.NL (lines0 ++ [""])%list)) = Ok text ->
             exists body, text = body ++ CIFCategory.NL).
  { intros r lines -> Hne. cbn [bind]. intros [= <-].
    now apply text_of_ends. }
  destruct rc as [[|[|n]]|].
  - discriminate.
  - destruct (CIFCategory._serialize_single s) as [lines| |] eqn:E;
      try discriminate.
    apply (Hlines _ lines eq_refl); [|exact H].
    now apply (@serialize_single_nonempty s).
  - destruct (CIFCategory._serialize_looped s) as [lines| |] eqn:E;
      try discriminate.
    apply (Hlines _ lines eq_refl); [|exact H].
    now apply (@serialize_looped_nonempty s).
  - destruct (CIFCategory._serialize_looped s) as [lines| |] eqn:E;
      try discriminate.
    apply (Hlines _ lines eq_refl); [|exact H].
    now apply (@serialize_looped_nonempty s).
Qed.

Lemma category_text_ends_with_line_feed_example :
  CIFCategory.serialize (category_of "fruits" None fruits)
  = (category_of "fruits" (Some 2) fruits,
     Ok (text_of (category_lines "fruits" fruits 2)))
  /\ exists body,
       text_of (category_lines "fruits" fruits 2) = body ++ CIFCategory.NL.
Proof.
  assert (H : CIFCategory.serialize (category_of "fruits" None fruits)
              = (category_of "fruits" (Some 2) fruits,
                 Ok (text_of (category_lines "fruits" fruits 2))))
    by (vm_compute; reflexivity).
  split; [exact H|].
  exact (category_text_ends_with_line_feed _ H).
Defined.

(** ** The exceptions of serialization *)

Lemma block_items_error (items items' : list (CIFBlock.key * slot CIFCategory.t))
  (e : exn) :
  CIFBlock.serialize_items items = (items', Raise e) ->
  exists k c e0,
    In (k, Obj c) items
    /\ snd (CIFCategory.serialize (CIFCategory.set_name c k)) = Raise e0
    /\ e = CIFBlock.serialize_error k.
Proof.
  revert items'. induction items as [|[k [raw|c]] items IH]; intros items';
    cbn [CIFBlock.serialize_items].
  - discriminate.
  - destruct (CIFBlock.serialize_items items) as [rest' [texts|e1|]] eqn:E;
      cbn [bind]; try discriminate.
    intros [= _ <-]. destruct (IH rest' eq_refl) as [k' [c' [e0 [Hin H]]]].
    exists k', c', e0. split; [now right | exact H].
  - destruct (CIFCategory.serialize (CIFCategory.set_name c k))
      as [c1 [text|e1|]] eqn:Ec; cbn [try_except].
    + destruct (CIFBlock.serialize_items items) as [rest' [texts|e2|]] eqn:E;
        cbn [bind]; try discriminate.
      intros [= _ <-]. destruct (IH rest' eq_refl) as [k' [c' [e0 [Hin H]]]].
      exists k', c', e0. split; [now right | exact H].
    + intros [= _ <-]. exists k, c, e1.
      split; [now left|]. split; [now rewrite Ec | reflexivity].
    + discriminate.
Qed.

(** X5: the only exception that [CIFBlock.serialize] raises is the
    [SerializationError] that names a category of the block, one held as
    an object whose own [serialize] raised. *)
Theorem block_serialize_error (self self' : CIFBlock.t) (e : exn) :
  CIFBlock.serialize self = (self', Raise e) ->
  exists k c e0,
    In (k, Obj c) (CIFBlock._categories self)
    /\ snd (CIFCategory.serialize (CIFCategory.set_name c k)) = Raise e0
    /\ e = SerializationError
             ("Failed to serialize category '" ++ str_of_key k ++ "'").
Proof.
  unfold CIFBlock.serialize.
  destruct (CIFBlock.serialize_items _) as [items [texts|e1|]] eqn:E;
    cbn [bind]; try discriminate.
  intros [= _ <-]. exact (block_items_error _ E).
Qed.

Lemma block_serialize_error_example :
  CIFBlock.serialize block_without_columns
  = (CIFBlock.mk [(Some "a", Obj (CIFCategory.mk (Some "a") None []))],
     Raise (SerializationError "Failed to serialize category 'a'"))
  /\ exists k c e0,
       In (k, Obj c) (CIFBlock._categories block_without_columns)
       /\ snd (CIFCategory.serialize (CIFCategory.set_name c k)) = Raise e0
       /\ SerializationError "Failed to serialize category 'a'"
          = SerializationError
              ("Failed to serialize category '" ++ str_of_key k ++ "'").
Proof.
  assert (H : CIFBlock.serialize block_without_columns
              = (CIFBlock.mk
                   [(Some "a", Obj (CIFCategory.mk (Some "a") None []))],
                 Raise (SerializationError
                          "Failed to serialize category 'a'")))
    by reflexivity.
  split; [exact H|]. exact (block_serialize_error _ H).
Defined.

Lemma file_items_error (items items' : list (string * slot CIFBlock.t))
  (e : exn) :
  CIFFile.serialize_items items = (items', Raise e) ->
  exists k b,
    In (k, Obj b) items
    /\ (exists e0, snd (CIFBlock.serialize b) = Raise e0)
    /\ e = CIFFile.serialize_error k.
Proof.
  revert items'. induction items as [|[k [raw|b]] items IH]; intros items';
    cbn [CIFFile.serialize_items].
  - discriminate.
  - destruct (CIFFile.serialize_items items) as [rest' [texts|e1|]] eqn:E;
      cbn [bind]; try discriminate.
    intros [= _ <-]. destruct (IH rest' eq_refl) as [k' [b' [Hin H]]].
    exists k', b'. split; [now right | exact H].
  - destruct (CIFBlock.serialize b) as [b1 [text|e1|]] eqn:Eb;
      cbn [try_except].
    + destruct (CIFFile.serialize_items items) as [rest' [texts|e2|]] eqn:E;
        cbn [bind]; try discriminate.
      intros [= _ <-]. destruct (IH rest' eq_refl) as [k' [b' [Hin H]]].
      exists k', b'. split; [now right | exact H].
    + intros [= _ <-]. exists k, b.
      split; [now left|]. split; [|reflexivity].
      exists e1. rewrite ?Eb. reflexivity.
    + discriminate.
Qed.

(** X6: the only exception that [CIFFile.serialize] raises is the
    [SerializationError] that names a block of the file, one held as an
    object whose own [serialize] raised. *)
Theorem file_serialize_error (self self' : CIFFile.t) (e : exn) :
  CIFFile.serialize self = (self', Raise e) ->
  exists k b,
    In (k, Obj b) (CIFFile._blocks self)
    /\ (exists e0, snd (CIFBlock.serialize b) = Raise e0)
    /\ e = SerializationError ("Failed to serialize block '" ++ k ++ "'").
Proof.
  unfold CIFFile.serialize.
  destruct (CIFFile.serialize_items _) as [items [texts|e1|]] eqn:E;
    cbn [bind]; try discriminate.
  intros [= _ <-]. exact (file_items_error _ E).
Qed.

Lemma file_serialize_error_example :
  snd (CIFFile.serialize file_without_columns)
  = Raise (SerializationError "Failed to serialize block 'b'")
  /\ exists k b,
       In (k, Obj b) (CIFFile._blocks file_without_columns)
       /\ (exists e0, snd (CIFBlock.serialize b) = Raise e0)
       /\ SerializationError "Failed to serialize block 'b'"
          = SerializationError ("Failed to serialize block '" ++ k ++ "'").
Proof.
  split; [reflexivity|].
  apply (@file_serialize_error file_without_columns
           (fst (CIFFile.serialize file_without_columns))).
  reflexivity.
Defined.

(** ** Reading a file or a block *)

Section DictSet.

Variable K : Type.
Variable eqb : K -> K -> bool.
Hypothesis eqb_spec : forall a b, eqb a b = true <-> a = b.
Variable V : Type.

Lemma dict_set_keys (d : dict K V) (k : K) (v : V) :
  dict_keys (dict_set eqb d k v)
  = if mem eqb k (dict_keys d) then dict_keys d
    else (dict_keys d ++ [k])%list.
Proof.
  unfold dict_keys, mem.
  induction d as [|[k' v'] d IH]; [reflexivity|].
  cbn [dict_set map fst existsb].
  destruct (eqb k' k) eqn:E.
  - assert (E' : eqb k k' = true).
    { apply eqb_spec. symmetry. now apply eqb_spec. }
    now rewrite E'.
  - assert (E' : eqb k k' = false).
    { destruct (eqb k k') eqn:E2; [|reflexivity].
      apply eqb_spec in E2. subst.
      rewrite (eqb_refl_ eqb eqb_spec) in E. discriminate. }
    rewrite E'. cbn [orb map fst]. rewrite IH.
    now destruct (existsb (eqb k) (map fst d)).
Qed.

Lemma mem_spec (k : K) (l : list K) : mem eqb k l = true <-> In k l.
Proof.
  unfold mem. rewrite existsb_exists. split.
  - intros [x [Hin Hx]]. apply eqb_spec in Hx. now subst.
  - intros Hin. exists k. split; [exact Hin | now apply eqb_spec].
Qed.

Lemma dict_set_keys_in (d : dict K V) (k : K) (v : V) (k' : K) :
  In k' (dict_keys (dict_set eqb d k v)) <-> In k' (dict_keys d) \/ k' = k.
Proof.
  rewrite dict_set_keys. destruct (mem eqb k (dict_keys d)) eqn:E.
  - apply mem_spec in E. split; [now left|].
    intros [H | ->]; assumption.
  - rewrite in_app_iff. cbn [In]. intuition.
Qed.

Lemma dict_set_nodup (d : dict K V) (k : K) (v : V) :
  NoDup (dict_keys d) -> NoDup (dict_keys (dict_set eqb d k v)).
Proof.
  intros Hnd. rewrite dict_set_keys.
  destruct (mem eqb k (dict_keys d)) eqn:E; [exact Hnd|].
  apply NoDup_app; [exact Hnd | repeat constructor; intros [] |].
  intros x Hx [<- | []].
  apply mem_spec in Hx. congruence.
Qed.

Lemma dict_set_forall (P : K * V -> Prop) (d : dict K V) (k : K) (v : V) :
  Forall P d -> P (k, v) -> Forall P (dict_set eqb d k v).
Proof.
  intros Hd Hkv. induction Hd as [|[k' v'] d Hx Hd IH]; cbn [dict_set].
  - now constructor.
  - destruct (eqb k' k) eqn:E.
    + apply eqb_spec in E. subst. now constructor.
    + now constructor.
Qed.

Lemma dict_get_set_other (d : dict K V) (k k' : K) (v : V) :
  k' <> k -> dict_get eqb (dict_set eqb d k v) k' = dict_get eqb d k'.
Proof.
  intros Hne. induction d as [|[k0 v0] d IH]; cbn [dict_set dict_get].
  - destruct (eqb k k') eqn:E; [|reflexivity].
    apply eqb_spec in E. congruence.
  - destruct (eqb k0 k) eqn:E; cbn [dict_get].
    + apply eqb_spec in E. subst.
      destruct (eqb k k') eqn:E2; [|reflexivity].
      apply eqb_spec in E2. congruence.
    + now rewrite IH.
Qed.

End DictSet.

Section ElementDictFacts.

Variable K : Type.
Variable eqb : K -> K -> bool.
Hypothesis eqb_spec : forall a b, eqb a b = true <-> a = b.
Variable A : Type.

Lemma element_dict_total (lines : list string) (names : list K)
  (starts : list nat) (acc : dict K (slot A)) :
  List.length starts = S (List.length names) ->
  exists d,
    element_dict eqb lines names starts acc = Ok d
    /\ (forall k, In k (dict_keys d) <-> In k (dict_keys acc) \/ In k names)
    /\ (Forall (fun kv => unparsed (snd kv)) acc ->
        Forall (fun kv => unparsed (snd kv)) d)
    /\ (NoDup (dict_keys acc) -> NoDup (dict_keys d)).
Proof.
  revert starts acc. induction names as [|name names IH];
    intros starts acc Hlen.
  - exists acc. cbn [element_dict In]. repeat split; tauto.
  - destruct starts as [|a [|b starts]]; try discriminate.
    cbn [element_dict index nth_error bind tl].
    destruct (IH (b :: starts)
                (dict_set eqb acc name
                   (Text (Py.join (Py.str1 Py.LF) (lines_between lines a b)))))
      as [d [Hd [Hk [Ht Hn]]]].
    { cbn [List.length] in *. lia. }
    exists d. split; [exact Hd|]. split; [|split].
    + intros k. rewrite Hk. cbn [In].
      rewrite (@dict_set_keys_in K eqb eqb_spec (slot A)). intuition.
    + intros Hacc. apply Ht.
      now apply (@dict_set_forall K eqb eqb_spec (slot A)).
    + intros Hacc. apply Hn.
      now apply (@dict_set_nodup K eqb eqb_spec (slot A)).
Qed.

End ElementDictFacts.

Lemma find_blocks_spec (lines : list string) (i : nat) :
  List.length (fst (CIFFile.find_blocks lines i))
  = List.length (snd (CIFFile.find_blocks lines i))
  /\ forall name,
       In name (snd (CIFFile.find_blocks lines i))
       <-> exists line,
             In line lines /\ _is_empty line = false
             /\ _parse_data_block_name line = Some name.
Proof.
  revert i. induction lines as [|line lines IH]; intros i.
  - split; [reflexivity|]. intros name. split; [intros [] |].
    intros [l [[] _]].
  - cbn [CIFFile.find_blocks]. destruct (IH (S i)) as [Hlen Hin].
    destruct (CIFFile.find_blocks lines (S i)) as [starts names].
    cbn [fst snd] in *.
    assert (Hrest : forall name,
               (exists l, In l lines /\ _is_empty l = false
                          /\ _parse_data_block_name l = Some name)
               -> exists l, In l (line :: lines) /\ _is_empty l = false
                            /\ _parse_data_block_name l = Some name).
    { intros name [l [H1 H2]]. exists l. split; [now right | exact H2]. }
    destruct (_is_empty line) eqn:E; cbn [negb].
    + split; [exact Hlen|]. intros name. rewrite Hin. split; [auto|].
      intros [l [[<- | H1] [H2 H3]]]; [congruence|].
      exists l. auto.
    + destruct (_parse_data_block_name line) as [n|] eqn:P; cbn [fst snd].
      * split; [cbn [List.length]; now rewrite Hlen|].
        intros name. cbn [In]. rewrite Hin.
        split.
        -- intros [<- | H]; [|auto]. exists line. split; [now left | auto].
        -- intros [l [[<- | H1] [H2 H3]]].
           ++ left. congruence.
           ++ right. exists l. auto.
      * split; [exact Hlen|]. intros name. rewrite Hin. split; [auto|].
        intros [l [[<- | H1] [H2 H3]]]; [congruence|].
        exists l. auto.
Qed.

Lemma file_deserialize_slots (text : string) :
  exists d,
    CIFFile.deserialize text = Ok (CIFFile.mk d)
    /\ Forall (fun kv => unparsed (snd kv)) d
    /\ NoDup (dict_keys d)
    /\ forall name,
         In name (dict_keys d)
         <-> exists line,
               In line (Py.splitlines text) /\ _is_empty line = false
               /\ _parse_data_block_name line = Some name.
Proof.
  unfold CIFFile.deserialize.
  destruct (find_blocks_spec (Py.splitlines text) 0) as [Hlen Hin].
  destruct (CIFFile.find_blocks (Py.splitlines text) 0) as [starts names].
  cbn [fst snd] in *. unfold _create_element_dict.
  destruct (@element_dict_total string String.eqb String.eqb_eq CIFBlock.t
              (Py.splitlines text) names
              (starts ++ [List.length (Py.splitlines text)])%list [])
    as [d [Hd [Hk [Ht Hn]]]].
  { rewrite length_app. cbn [List.length]. lia. }
  exists d. rewrite Hd. cbn [bind]. split; [reflexivity|].
  split; [apply Ht; constructor|]. split; [apply Hn; constructor|].
  intros name. rewrite Hk, <- Hin. cbn [dict_keys map In]. tauto.
Qed.

(** X7: [CIFFile.deserialize] returns a file for every text; it parses
    no block, and the names of the file are the names on the lines that
    open a block, each once. *)
Theorem file_deserialize_is_lazy (text : string) :
  exists file,
    CIFFile.deserialize text = Ok file
    /\ Forall (fun kv => unparsed (snd kv)) (CIFFile._blocks file)
    /\ NoDup (CIFFile.keys file)
    /\ forall name,
         In name (CIFFile.keys file)
         <-> exists line,
               In line (Py.splitlines text) /\ _is_empty line = false
               /\ _parse_data_block_name line = Some name.
Proof.
  destruct (file_deserialize_slots text) as [d H].
  exists (CIFFile.mk d). exact H.
Qed.

Lemma serialize_stored_blocks (d : dict string (slot CIFBlock.t)) :
  Forall (fun kv => unparsed (snd kv)) d ->
  CIFFile.serialize_items d = (d, Ok (stored_blocks d)).
Proof.
  induction 1 as [|[k [raw|b]] d Hx _ IH]; [reflexivity | |].
  - cbn [CIFFile.serialize_items]. rewrite IH. reflexivity.
  - destruct Hx.
Qed.

(** X8: a file that comes from [deserialize] is serialized without
    parsing a block: the file stays as it is, and the text is, for each
    block in turn, the header line, a comment line and the lines that
    were stored for the block (which begin with the header line), with no
    line feed after them. *)
Theorem serialize_after_deserialize (text : string) (file : CIFFile.t) :
  CIFFile.deserialize text = Ok file ->
  CIFFile.serialize file
  = (file,
     Ok (Py.join "" (stored_blocks (CIFFile._blocks file) ++ [""])%list)).
Proof.
  intros H. destruct (file_deserialize_slots text) as [d [Hd [Ht _]]].
  rewrite Hd in H. injection H as <-.
  unfold CIFFile.serialize. cbn [CIFFile._blocks].
  now rewrite (serialize_stored_blocks Ht).
Qed.

Lemma serialize_after_deserialize_example :
  exists file,
    CIFFile.deserialize two_blocks_text = Ok file
    /\ CIFFile.serialize file
       = (file,
          Ok ("data_a" ++ CIFCategory.NL ++ "#" ++ CIFCategory.NL
              ++ "data_a" ++ CIFCategory.NL ++ "_c.x 1"
              ++ "data_b" ++ CIFCategory.NL ++ "#" ++ CIFCategory.NL
              ++ "data_b" ++ CIFCategory.NL ++ "_c.y 2")).
Proof.
  eexists. split; [vm_compute; reflexivity|].
  match goal with
  | |- CIFFile.serialize ?f = _ =>
      rewrite (@serialize_after_deserialize two_blocks_text f)
  end; vm_compute; reflexivity.
Defined.

Lemma not_empty_first (line : string) :
  _is_empty line = false -> exists c, Py.first line = Ok c.
Proof.
  destruct line as [|c line]; [discriminate|]. intros _. now exists c.
Qed.

Lemma parse_category_name_outcome (line : string) :
  (exists r, _parse_category_name line = Ok r)
  \/ _parse_category_name line = Raise IndexError.
Proof.
  destruct line as [|c line]; [now right|]. left.
  unfold _parse_category_name. cbn [Py.first bind].
  destruct (negb (Ascii.eqb c "_")); eexists; reflexivity.
Qed.

Lemma find_categories_outcome (lines : list string) (i : nat)
  (cur : CIFBlock.key) :
  (exists starts names,
      CIFBlock.find_categories lines i cur = Ok (starts, names)
      /\ List.length starts = List.length names)
  \/ CIFBlock.find_categories lines i cur = Raise IndexError.
Proof.
  revert i cur. induction lines as [|line lines IH]; intros i cur.
  - left. exists [], []. now split.
  - cbn [CIFBlock.find_categories].
    destruct (_is_empty line) eqn:E; cbn [negb]; [apply IH|].
    destruct (not_empty_first line E) as [c Hc].
    assert (Hp : exists r, _parse_category_name line = Ok r).
    { unfold _parse_category_name. rewrite Hc. cbn [bind].
      destruct (negb (Ascii.eqb c "_")); eexists; reflexivity. }
    destruct Hp as [r Hr]. rewrite Hr. cbn [bind].
    match goal with
    | |- context [if ?b then _ else _] => destruct b
    end; [|apply IH].
    assert (Hnext : forall name,
               (exists starts names,
                   ('(starts, names) <-
                      CIFBlock.find_categories lines (S i) name ;;
                    Ok (i :: starts, name :: names))
                   = Ok (starts, names)
                   /\ List.length starts = List.length names)
               \/ ('(starts, names) <-
                     CIFBlock.find_categories lines (S i) name ;;
                   Ok (i :: starts, name :: names))
                  = Raise IndexError).
    { intros name.
      destruct (IH (S i) name) as [[starts [names [H Hl]]] | H]; rewrite H.
      - left. exists (i :: starts), (name :: names).
        split; [reflexivity | cbn [List.length]; now rewrite Hl].
      - now right. }
    destruct (_is_loop_start line).
    + destruct lines as [|next lines']; [now right|].
      cbn [index nth_error bind].
      destruct (parse_category_name_outcome next) as [[r' ->] | ->];
        [|now right].
      cbn [bind]. apply Hnext.
    + cbn [bind]. apply Hnext.
Qed.

Lemma block_deserialize_slots (text : string) :
  (exists block,
      CIFBlock.deserialize text = Ok block
      /\ Forall (fun kv => unparsed (snd kv)) (CIFBlock._categories block)
      /\ NoDup (CIFBlock.keys block))
  \/ CIFBlock.deserialize text = Raise IndexError.
Proof.
  unfold CIFBlock.deserialize.
  destruct (find_categories_outcome (Py.splitlines text) 0 None)
    as [[starts [names [H Hl]]] | H]; rewrite H; [|now right].
  left. cbn [bind]. unfold _create_element_dict.
  unfold CIFBlock.key in *.
  destruct (@element_dict_total (option string) key_eqb key_eqb_spec
              CIFCategory.t (Py.splitlines text) names
              (starts ++ [List.length (Py.splitlines text)])%list [])
    as [d [Hd [_ [Ht Hn]]]].
  { rewrite length_app. cbn [List.length]. lia. }
  rewrite Hd. cbn [bind].
  exists (CIFBlock.mk d). split; [reflexivity|].
  split; [apply Ht; constructor | apply Hn; constructor].
Qed.

(** X9: [CIFBlock.deserialize] returns a block whose categories are all
    kept as text, under names that differ from each other, or it raises an
    [IndexError]; it raises nothing else. *)
Theorem block_deserialize_outcome (text : string) :
  (exists block,
      CIFBlock.deserialize text = Ok block
      /\ Forall (fun kv => unparsed (snd kv)) (CIFBlock._categories block)
      /\ NoDup (CIFBlock.keys block))
  \/ CIFBlock.deserialize text = Raise IndexError.
Proof. apply block_deserialize_slots. Qed.

Example block_deserialize_dangling_loop :
  CIFBlock.deserialize "loop_" = Raise IndexError.
Proof. reflexivity. Qed.

(** ** Data cells and columns *)

Lemma astype_len (a a' : ndarray) (t : dtype) :
  np.astype a t = Ok a' -> np.len a' = np.len a.
Proof.
  destruct t, a; cbn [np.astype]; try discriminate;
    intros [= <-]; cbn [np.len]; now rewrite ?length_map.
Qed.

Lemma arrayfy_len (data : array_like) (a : ndarray) :
  CIFData._arrayfy data = Ok a -> 1 <= np.len a.
Proof.
  destruct data as [s|z|f|l|l|l]; cbn [CIFData._arrayfy np.asarray].
  - intros [= <-]. cbn. lia.
  - destruct (np.in_int64 z); [|discriminate]. intros [= <-]. cbn. lia.
  - intros [= <-]. cbn. lia.
  - destruct l; [discriminate|]. intros [= <-]. cbn [np.len List.length]. lia.
  - destruct l; [discriminate|].
    destruct (forallb np.in_int64 (z :: l)); [|discriminate].
    intros [= <-]. cbn [np.len List.length]. lia.
  - destruct l; [discriminate|]. intros [= <-]. cbn [np.len List.length]. lia.
Qed.

(** X10: a data cell that the constructor returns holds at least one
    element. *)
Theorem data_has_elements (data : array_like) (dt : option dtype)
  (d : CIFData.t) :
  CIFData.__init__ data dt = Ok d -> 1 <= CIFData.__len__ d.
Proof.
  unfold CIFData.__init__, CIFData.__len__.
  destruct (CIFData._arrayfy data) as [a| |] eqn:Ea; cbn [bind];
    try discriminate.
  apply arrayfy_len in Ea. destruct dt as [t|].
  - destruct (np.astype a t) as [a'| |] eqn:Et; cbn [bind]; try discriminate.
    intros [= <-]. cbn [CIFData.array]. now rewrite (astype_len _ _ Et).
  - now intros [= <-].
Qed.

Lemma data_has_elements_example :
  CIFData.__init__ (Ints [1; 2; 3]%Z) None
  = Ok (CIFData.mk (IntArray int64 [1; 2; 3]%Z))
  /\ 1 <= CIFData.__len__ (CIFData.mk (IntArray int64 [1; 2; 3]%Z)).
Proof.
  split; [reflexivity|].
  apply (@data_has_elements (Ints [1; 2; 3]%Z) None). reflexivity.
Defined.

Lemma put_where_length {A : Type} (a : list A) (m : list bool) (v : A) :
  List.length (put_where a m v) = List.length a.
Proof.
  revert m. induction a as [|x a IH]; intros m; [reflexivity|].
  destruct m as [|b m]; [reflexivity|].
  cbn [put_where List.length]. now rewrite IH.
Qed.

Lemma infer_mask_length (d : CIFData.t) :
  List.length (CIFColumn.infer_mask d) = CIFData.__len__ d.
Proof.
  unfold CIFColumn.infer_mask. now rewrite !put_where_length, repeat_length.
Qed.

Lemma column_mask_fits (data : cell_arg) (mask : option cell_arg)
  (c : CIFColumn.t) :
  CIFColumn.__init__ data mask = Ok c ->
  match CIFColumn.mask c with
  | Some m => CIFData.__len__ m = CIFColumn.__len__ c
  | None => True
  end.
Proof.
  unfold CIFColumn.__init__, CIFColumn.__len__.
  destruct (match data with
            | Cell d => Ok d
            | Raw a => CIFData.__init__ a (Some dtype_str)
            end) as [d| |]; cbn [bind]; try discriminate.
  destruct mask as [ma|].
  - destruct (match ma with
              | Cell m => Ok m
              | Raw a => CIFData.__init__ a (Some dtype_uint8)
              end) as [m| |]; cbn [bind]; try discriminate.
    destruct (CIFData.__len__ m =? CIFData.__len__ d)%nat eqn:E;
      cbn [negb]; [|discriminate].
    intros [= <-]. cbn [CIFColumn.mask CIFColumn.data].
    now apply Nat.eqb_eq.
  - destruct (forallb _ _).
    + now intros [= <-].
    + intros [= <-]. cbn [CIFColumn.mask CIFColumn.data].
      unfold CIFData.__len__ at 1. cbn [CIFData.array np.len].
      apply infer_mask_length.
Qed.

(** X11: in a column that the constructor returns the mask, when there
    is one, is as long as the data. *)
Theorem column_mask_length (data : cell_arg) (mask : option cell_arg)
  (c : CIFColumn.t) :
  CIFColumn.__init__ data mask = Ok c ->
  forall m, CIFColumn.mask c = Some m ->
            CIFData.__len__ m = CIFColumn.__len__ c.
Proof.
  intros H m Hm. apply column_mask_fits in H. now rewrite Hm in H.
Qed.

Lemma column_mask_length_example :
  CIFColumn.__init__ (Raw (Strs ["a"; "."; "?"])) None
  = Ok (column_of_tokens ["a"; "."; "?"])
  /\ forall m,
       CIFColumn.mask (column_of_tokens ["a"; "."; "?"]) = Some m ->
       CIFData.__len__ m = CIFColumn.__len__ (column_of_tokens ["a"; "."; "?"]).
Proof.
  split; [reflexivity|].
  apply (@column_mask_length (Raw (Strs ["a"; "."; "?"])) None).
  reflexivity.
Defined.

Lemma item_needs_one (a : ndarray) :
  np.len a <> 1 -> np.item a = Raise item_error.
Proof.
  unfold np.item, np.items.
  destruct a as [w l|k l|l]; cbn [np.len]; intros H;
    (destruct l as [|x [|y l]]; [reflexivity | cbn in H; lia | reflexivity]).
Qed.

(** X12: [as_item] of a column that the constructor returned with any
    number of rows but one raises the [ValueError] of [ndarray.item]. *)
Theorem as_item_needs_one_row (data : cell_arg) (mask : option cell_arg)
  (c : CIFColumn.t) :
  CIFColumn.__init__ data mask = Ok c ->
  CIFColumn.__len__ c <> 1 ->
  CIFColumn.as_item c = Raise item_error.
Proof.
  intros H Hlen. apply column_mask_fits in H. unfold CIFColumn.as_item.
  destruct (CIFColumn.mask c) as [m|].
  - rewrite item_needs_one; [reflexivity|].
    unfold CIFData.__len__ in H. now rewrite H.
  - now apply item_needs_one.
Qed.

Lemma as_item_needs_one_row_example :
  (CIFColumn.__init__ (Raw (Strs ["a"; "b"])) None
   = Ok (column_of_tokens ["a"; "b"])
   /\ CIFColumn.__len__ (column_of_tokens ["a"; "b"]) <> 1)
  /\ CIFColumn.as_item (column_of_tokens ["a"; "b"]) = Raise item_error.
Proof.
  assert (H : CIFColumn.__len__ (column_of_tokens ["a"; "b"]) <> 1)
    by (vm_compute; lia).
  split; [split; [reflexivity | exact H]|].
  apply (@as_item_needs_one_row (Raw (Strs ["a"; "b"])) None);
    [reflexivity | exact H].
Defined.

(** X13: a column made of one string gives as its item this string
    without the NUL characters at its end, which its array does not give
    back, also when what is left is one of the two markers of absent data;
    so a string that does not end with NUL is given as it is. *)
Theorem as_item_of_string (s : string) :
  exists c,
    CIFColumn.__init__ (Raw (Str s)) None = Ok c
    /\ CIFColumn.__len__ c = 1
    /\ CIFColumn.as_item c = Ok (PStr (np.rstrip_nul s))
    /\ (nul_free_end s = true -> CIFColumn.as_item c = Ok (PStr s)).
Proof.
  exists (column_of_tokens [s]). split; [apply column_of_str|].
  split; [reflexivity|]. split; [apply as_item_token|].
  intros H. rewrite as_item_token. now rewrite rstrip_nul_id.
Qed.

Lemma as_item_of_string_example :
  exists c,
    CIFColumn.__init__ (Raw (Str dot_nul)) None = Ok c
    /\ CIFColumn.__len__ c = 1
    /\ CIFColumn.as_item c = Ok (PStr ".")
    /\ (nul_free_end dot_nul = true -> CIFColumn.as_item c = Ok (PStr dot_nul)).
Proof. exact (as_item_of_string dot_nul). Defined.

(** ** Columns of a category as a dictionary *)

Section DictDel.

Variable K : Type.
Variable eqb : K -> K -> bool.
Hypothesis eqb_spec : forall a b, eqb a b = true <-> a = b.
Variable V : Type.

Lemma eqb_false (a b : K) : a <> b -> eqb a b = false.
Proof.
  intros H. destruct (eqb a b) eqn:E; [|reflexivity].
  apply eqb_spec in E. congruence.
Qed.

Lemma dict_get_none (d : dict K V) (k : K) :
  ~ In k (dict_keys d) -> dict_get eqb d k = None.
Proof.
  induction d as [|[k' v'] d IH]; [reflexivity|].
  cbn [dict_keys map fst In dict_get]. intros H.
  rewrite eqb_false by tauto. apply IH. tauto.
Qed.

Lemma dict_del_get_same (d : dict K V) (k : K) :
  NoDup (dict_keys d) -> dict_get eqb (dict_del eqb d k) k = None.
Proof.
  induction d as [|[k' v'] d IH]; [reflexivity|].
  cbn [dict_keys map fst dict_del]. intros Hnd.
  inversion Hnd as [|? ? Hfresh Hnd']; subst.
  destruct (eqb k' k) eqn:E.
  - apply eqb_spec in E. subst. now apply dict_get_none.
  - cbn [dict_get]. rewrite E. now apply IH.
Qed.

Lemma dict_del_get_other (d : dict K V) (k k' : K) :
  k' <> k -> dict_get eqb (dict_del eqb d k) k' = dict_get eqb d k'.
Proof.
  intros Hne. induction d as [|[k0 v0] d IH]; [reflexivity|].
  cbn [dict_del dict_get]. destruct (eqb k0 k) eqn:E.
  - apply eqb_spec in E. subst. rewrite eqb_false; auto.
  - cbn [dict_get]. now rewrite IH.
Qed.

Lemma dict_del_length (d : dict K V) (k : K) (v : V) :
  dict_get eqb d k = Some v ->
  S (List.length (dict_del eqb d k)) = List.length d.
Proof.
  induction d as [|[k0 v0] d IH]; [discriminate|].
  cbn [dict_del dict_get]. destruct (eqb k0 k); [reflexivity|].
  intros H. cbn [List.length]. now rewrite IH.
Qed.

End DictDel.

(** X14: a column stored under a key is the column read under this key;
    the other keys, the name and the cached row count stay as they were,
    and the key keeps its place or is added after the others. *)
Theorem category_setitem_getitem (self : CIFCategory.t) (key : string)
  (column : CIFColumn.t) :
  exists self',
    CIFCategory.__setitem__ self key (Col column) = (self', Ok tt)
    /\ CIFCategory.__getitem__ self' key = Ok column
    /\ (forall other,
          other <> key ->
          CIFCategory.__getitem__ self' other
          = CIFCategory.__getitem__ self other)
    /\ CIFCategory.keys self'
       = (if mem String.eqb key (CIFCategory.keys self)
          then CIFCategory.keys self
          else CIFCategory.keys self ++ [key])%list
    /\ CIFCategory.name self' = CIFCategory.name self
    /\ CIFCategory._row_count self' = CIFCategory._row_count self.
Proof.
  eexists. split; [reflexivity|].
  unfold CIFCategory.__getitem__, CIFCategory.keys, sget, sset.
  cbn [CIFCategory._columns]. split; [|split; [|split]].
  - now rewrite dict_get_set_same by apply String.eqb_eq.
  - intros other Hne.
    now rewrite (@dict_get_set_other string String.eqb String.eqb_eq).
  - apply (@dict_set_keys string String.eqb String.eqb_eq).
  - now split.
Qed.

(** X15: deleting a column that is there, from a category with more than
    one column and distinct keys, removes this column only; deleting a
    key that is not there, from a category that has not exactly one
    column, raises a [KeyError] and changes nothing. *)
Theorem category_delitem (self : CIFCategory.t) (key : string) :
  NoDup (CIFCategory.keys self) ->
  CIFCategory.__len__ self <> 1 ->
  (In key (CIFCategory.keys self) ->
   exists self',
     CIFCategory.__delitem__ self key = (self', Ok tt)
     /\ CIFCategory.__getitem__ self' key = Raise (KeyError key)
     /\ (forall other,
           other <> key ->
           CIFCategory.__getitem__ self' other
           = CIFCategory.__getitem__ self other)
     /\ S (CIFCategory.__len__ self') = CIFCategory.__len__ self)
  /\ (~ In key (CIFCategory.keys self) ->
      CIFCategory.__delitem__ self key = (self, Raise (KeyError key))).
Proof.
  intros Hnd Hlen. unfold CIFCategory.__delitem__.
  unfold CIFCategory.__len__ in Hlen.
  apply Nat.eqb_neq in Hlen. rewrite Hlen. split.
  - intros Hin.
    destruct (in_dict_get String.eqb String.eqb_eq
                (CIFCategory._columns self) key Hin) as [c [Hg _]].
    unfold sget. rewrite Hg. eexists. split; [reflexivity|].
    unfold CIFCategory.__getitem__, CIFCategory.__len__, sget, sdel.
    cbn [CIFCategory._columns]. split; [|split].
    + now rewrite (@dict_del_get_same string String.eqb String.eqb_eq).
    + intros other Hne.
      now rewrite (@dict_del_get_other string String.eqb String.eqb_eq).
    + now apply (@dict_del_length string String.eqb) with (v := c).
  - intros Hnin. unfold sget.
    now rewrite (@dict_get_none string String.eqb String.eqb_eq).
Qed.

Lemma category_delitem_example :
  (NoDup (CIFCategory.keys (category_of "fruits" None fruits))
   /\ CIFCategory.__len__ (category_of "fruits" None fruits) <> 1)
  /\ exists self',
       CIFCategory.__delitem__ (category_of "fruits" None fruits) "name"
       = (self', Ok tt)
       /\ CIFCategory.__getitem__ self' "name" = Raise (KeyError "name")
       /\ CIFCategory.keys self' = ["color"].
Proof.
  assert (Hnd : NoDup (CIFCategory.keys (category_of "fruits" None fruits)))
    by (repeat constructor; simpl; intuition discriminate).
  assert (Hlen : CIFCategory.__len__ (category_of "fruits" None fruits) <> 1)
    by (vm_compute; lia).
  split; [now split|].
  destruct (proj1 (@category_delitem (category_of "fruits" None fruits)
                     "name" Hnd Hlen))
    as [self' [Hd [Hg _]]].
  { left. reflexivity. }
  exists self'. split; [exact Hd|]. split; [exact Hg|].
  vm_compute in Hd. injection Hd as <-. reflexivity.
Defined.

(** ** Categories of a block as a dictionary *)

Lemma assign_same (h : CIFBlock.heap) (r : CIFBlock.ref)
  (c c' : CIFCategory.t) :
  nth_error h r = Some c -> nth_error (CIFBlock.assign h r c') r = Some c'.
Proof.
  revert r. induction h as [|x h IH]; intros [|r] H; try discriminate.
  - reflexivity.
  - cbn [CIFBlock.assign nth_error] in *. now apply IH.
Qed.

Lemma assign_other (h : CIFBlock.heap) (r r' : CIFBlock.ref)
  (c' : CIFCategory.t) :
  r' <> r -> nth_error (CIFBlock.assign h r c') r' = nth_error h r'.
Proof.
  revert r r'. induction h as [|x h IH]; intros [|r] [|r'] H;
    try reflexivity; try congruence.
  cbn [CIFBlock.assign nth_error]. apply IH. congruence.
Qed.

(** The block that the references stand for once the object at [r] is
    replaced: every slot that holds [r] holds the new object. *)
Lemma view_assign (h : CIFBlock.heap) (self : CIFBlock.references)
  (b : CIFBlock.t) (r : CIFBlock.ref) (c c' : CIFCategory.t) :
  nth_error h r = Some c -> view h self = Some b ->
  exists b',
    view (CIFBlock.assign h r c') self = Some b'
    /\ CIFBlock.keys b' = CIFBlock.keys b
    /\ forall other,
         dict_get key_eqb (CIFBlock._categories b') other
         = seen self b r c' other.
Proof.
  intros Hr. revert b. induction self as [|[k s] self IH]; intros b Hv.
  - injection Hv as <-. exists (CIFBlock.mk []). now repeat split.
  - cbn [view] in Hv.
    destruct (deref h s) as [v|] eqn:Ed; [|discriminate].
    destruct (view h self) as [b0|] eqn:Ev; [|discriminate].
    injection Hv as <-. destruct (IH b0 eq_refl) as [b1 [Hv1 [Hk1 Hg1]]].
    assert (Hd : exists v',
               deref (CIFBlock.assign h r c') s = Some v'
               /\ v' = match s with
                       | Obj r' => if (r' =? r)%nat then Obj c' else v
                       | Text _ => v
                       end).
    { destruct s as [raw | r']; cbn [deref] in *.
      - exists v. now split.
      - destruct (Nat.eqb_spec r' r) as [-> | Hne].
        + rewrite (@assign_same h r c c' Hr). eauto.
        + rewrite (@assign_other h r r' c' Hne).
          destruct (nth_error h r'); [|discriminate]. eauto. }
    destruct Hd as [v' [Hd Hv']].
    exists (CIFBlock.mk ((k, v') :: CIFBlock._categories b1)).
    cbn [view]. rewrite Hd, Hv1. split; [reflexivity|]. split.
    + unfold CIFBlock.keys, dict_keys in *.
      cbn [CIFBlock._categories map fst]. now rewrite Hk1.
    + intros other. unfold seen in *.
      cbn [CIFBlock._categories dict_get].
      destruct (key_eqb k other) eqn:E.
      * subst v'. destruct s as [raw | r']; [reflexivity|].
        now destruct (r' =? r)%nat.
      * apply Hg1.
Qed.

Lemma view_set (h : CIFBlock.heap) (self : CIFBlock.references)
  (b : CIFBlock.t) (k : CIFBlock.key) (s : slot CIFBlock.ref)
  (v : slot CIFCategory.t) :
  view h self = Some b -> deref h s = Some v ->
  view h (dict_set key_eqb self k s)
  = Some (CIFBlock.mk (dict_set key_eqb (CIFBlock._categories b) k v)).
Proof.
  intros Hv Hd. revert b Hv.
  induction self as [|[k0 s0] self IH]; intros b Hv.
  - injection Hv as <-. cbn [dict_set view]. now rewrite Hd.
  - cbn [view] in Hv.
    destruct (deref h s0) as [v0|] eqn:Ed; [|discriminate].
    destruct (view h self) as [b0|] eqn:Ev; [|discriminate].
    injection Hv as <-. cbn [dict_set CIFBlock._categories].
    destruct (key_eqb k0 k); cbn [view].
    + now rewrite Hd, Ev.
    + now rewrite Ed, (IH b0 eq_refl).
Qed.

(** X16: [__setitem__] sets the name of the object that it is given and
    stores the reference to it under the key.  The category is then read
    back under this key without any parsing, with the key as its name and
    its columns and cached row count as they were.  Every other key holds
    the reference or the text that it held; so a key that holds the same
    object shows it under its new name, and what every other key shows
    is as it was. *)
Theorem block_setitem_getitem (h : CIFBlock.heap)
  (self : CIFBlock.references) (b : CIFBlock.t) (k : CIFBlock.key)
  (r : CIFBlock.ref) (category : CIFCategory.t) :
  nth_error h r = Some category ->
  view h self = Some b ->
  let renamed :=
    CIFCategory.mk k (CIFCategory._row_count category)
      (CIFCategory._columns category) in
  exists h' self' b',
    CIFBlock.__setitem__ h self k r = (h', self', Ok tt)
    /\ nth_error h' r = Some renamed
    /\ (forall r', r' <> r -> nth_error h' r' = nth_error h r')
    /\ view h' self' = Some b'
    /\ CIFBlock.__getitem__ b' k = (b', Ok renamed)
    /\ (forall other,
          other <> k ->
          dict_get key_eqb self' other = dict_get key_eqb self other
          /\ dict_get key_eqb (CIFBlock._categories b') other
             = seen self b r renamed other)
    /\ CIFBlock.keys b'
       = (if mem key_eqb k (CIFBlock.keys b)
          then CIFBlock.keys b
          else CIFBlock.keys b ++ [k])%list.
Proof.
  intros Hr Hv renamed.
  destruct (@view_assign h self b r category renamed Hr Hv)
    as [b1 [Hv1 [Hk1 Hg1]]].
  exists (CIFBlock.assign h r renamed).
  exists (dict_set key_eqb self k (Obj r)).
  exists (CIFBlock.mk
            (dict_set key_eqb (CIFBlock._categories b1) k (Obj renamed))).
  split; [unfold CIFBlock.__setitem__; now rewrite Hr|].
  split; [now apply assign_same with category|].
  split; [intros r' Hne; now apply assign_other|].
  split.
  { apply view_set; [exact Hv1|]. cbn [deref].
    now rewrite (@assign_same h r category renamed Hr). }
  split.
  { unfold CIFBlock.__getitem__. cbn [CIFBlock._categories].
    now rewrite dict_get_set_same by apply key_eqb_spec. }
  split.
  - intros other Hne. cbn [CIFBlock._categories].
    rewrite !(@dict_get_set_other CIFBlock.key key_eqb key_eqb_spec)
      by exact Hne.
    split; [reflexivity | apply Hg1].
  - unfold CIFBlock.keys in *. cbn [CIFBlock._categories].
    rewrite (@dict_set_keys CIFBlock.key key_eqb key_eqb_spec).
    now rewrite Hk1.
Qed.

Lemma block_setitem_getitem_example :
  (nth_error shared_heap 0
   = Some (CIFCategory.mk (Some "a") None [("x", column_of_tokens ["1"])])
   /\ view shared_heap shared_slots
      = Some (CIFBlock.mk
                [(Some "a",
                  Obj (CIFCategory.mk (Some "a") None
                         [("x", column_of_tokens ["1"])]));
                 (Some "c",
                  Obj (CIFCategory.mk (Some "c") None
                         [("y", column_of_tokens ["2"])]))]))
  /\ exists h' self' b',
       CIFBlock.__setitem__ shared_heap shared_slots (Some "b") 0
       = (h', self', Ok tt)
       /\ view h' self' = Some b'
       /\ CIFBlock.keys b' = [Some "a"; Some "c"; Some "b"]
       /\ dict_get key_eqb (CIFBlock._categories b') (Some "a")
          = Some (Obj (CIFCategory.mk (Some "b") None
                         [("x", column_of_tokens ["1"])]))
       /\ dict_get key_eqb (CIFBlock._categories b') (Some "c")
          = Some (Obj (CIFCategory.mk (Some "c") None
                         [("y", column_of_tokens ["2"])])).
Proof.
  split; [split; reflexivity|].
  destruct (@block_setitem_getitem shared_heap shared_slots _ (Some "b") 0 _
              eq_refl eq_refl)
    as [h' [self' [b' [Hs [_ [_ [Hv [_ [Ho Hk]]]]]]]]].
  exists h', self', b'. split; [exact Hs|]. split; [exact Hv|].
  split; [exact Hk|]. split.
  - now rewrite (proj2 (Ho (Some "a") ltac:(discriminate))).
  - now rewrite (proj2 (Ho (Some "c") ltac:(discriminate))).
Defined.

(** ** The cached row count *)

(** X17: the row count, once read, is kept when a column is replaced,
    and [serialize] compares the columns with it: a category of one
    column whose row count was read before the column was replaced by one
    of another length is not serialized. *)
Theorem stale_row_count (name key : string) (column column' : CIFColumn.t) :
  CIFColumn.__len__ column' <> CIFColumn.__len__ column ->
  let self := CIFCategory.mk (Some name) None [(key, column)] in
  exists self1 self2,
    CIFCategory.row_count self = (self1, Ok (CIFColumn.__len__ column))
    /\ CIFCategory.__setitem__ self1 key (Col column') = (self2, Ok tt)
    /\ CIFCategory.__getitem__ self2 key = Ok column'
    /\ CIFCategory.keys self2 = [key]
    /\ CIFCategory.row_count self2 = (self2, Ok (CIFColumn.__len__ column))
    /\ CIFCategory.serialize self2
       = (self2,
          Raise (CIFCategory.length_error key (CIFColumn.__len__ column')
                   (CIFColumn.__len__ column))).
Proof.
  intros Hlen self. unfold self.
  do 2 eexists. split; [reflexivity|]. split; [reflexivity|].
  cbn [CIFCategory._name CIFCategory._row_count CIFCategory._columns].
  unfold CIFCategory.__getitem__, CIFCategory.keys, sget, sset.
  cbn [CIFCategory._columns dict_set dict_get dict_keys map fst].
  rewrite String.eqb_refl. cbn [dict_get]. rewrite String.eqb_refl.
  split; [reflexivity|]. split; [reflexivity|]. split; [reflexivity|].
  unfold CIFCategory.serialize.
  cbn [CIFCategory._name CIFCategory._row_count CIFCategory._columns
       CIFCategory.check_lengths].
  change (List.length [(key, column')] =? 0)%nat with false. cbv iota.
  apply Nat.eqb_neq in Hlen. cbn [snd]. rewrite Hlen. reflexivity.
Qed.

Lemma stale_row_count_example :
  CIFColumn.__len__ three_rows <> CIFColumn.__len__ two_rows
  /\ exists self1 self2,
       CIFCategory.row_count (CIFCategory.mk (Some "n") None [("k", two_rows)])
       = (self1, Ok 2)
       /\ CIFCategory.__setitem__ self1 "k" (Col three_rows) = (self2, Ok tt)
       /\ CIFCategory.serialize self2
          = (self2, Raise (CIFCategory.length_error "k" 3 2)).
Proof.
  assert (H : CIFColumn.__len__ three_rows <> CIFColumn.__len__ two_rows)
    by (vm_compute; lia).
  split; [exact H|].
  destruct (@stale_row_count "n" "k" two_rows three_rows H)
    as [self1 [self2 [H1 [H2 [_ [_ [_ H3]]]]]]].
  exists self1, self2. split; [exact H1|]. split; [exact H2 | exact H3].
Defined.

(** ** Multi-line values that are not closed *)

Lemma to_single_open (is_looped : bool) (lines : list string)
  (multi : string) (out : list string) :
  (forall line, In line lines -> line <> ";") ->
  _to_single_loop is_looped lines (Some multi) out = Raise IndexError.
Proof.
  revert multi out. induction lines as [|line lines IH]; intros multi out H;
    [reflexivity|].
  cbn [_to_single_loop].
  assert (E : String.eqb line ";" = false).
  { apply String.eqb_neq. apply H. now left. }
  rewrite E. cbn [negb]. apply IH. intros l Hl. apply H. now right.
Qed.

Lemma to_single_key_lines (is_looped : bool) (keys rest out : list string)
  (multi : option string) :
  Forall (fun l => Py.first_is "_" l = true) keys ->
  _to_single_loop is_looped (keys ++ rest) None out
  = _to_single_loop is_looped rest None (out ++ keys)%list.
Proof.
  intros H. revert out. induction H as [|l keys Hl _ IH]; intros out.
  - now rewrite app_nil_r.
  - cbn [app _to_single_loop]. rewrite (first_is_first _ _ Hl). cbn [bind].
    change (Ascii.eqb "_" ";") with false.
    change (Ascii.eqb "_" "_") with true. cbn [negb andb].
    rewrite andb_false_r. rewrite IH. now rewrite <- app_assoc.
Qed.

(** X18: when the lines after some key lines open a multi-line value and
    no later line is the closing line, [_to_single] raises an
    [IndexError]. *)
Theorem to_single_unclosed (is_looped : bool) (keys rest : list string)
  (opening : string) :
  Forall (fun l => Py.first_is "_" l = true) keys ->
  Py.first_is ";" opening = true ->
  (forall line, In line rest -> line <> ";") ->
  _to_single (keys ++ opening :: rest) is_looped = Raise IndexError.
Proof.
  intros Hk Ho Hr. unfold _to_single.
  rewrite (@to_single_key_lines is_looped keys (opening :: rest) [] None Hk).
  cbn [_to_single_loop]. rewrite (first_is_first _ _ Ho). cbn [bind].
  change (Ascii.eqb ";" ";") with true. cbv iota.
  now apply to_single_open.
Qed.

Lemma to_single_unclosed_example :
  (Forall (fun l => Py.first_is "_" l = true) ["_c.x"]
   /\ Py.first_is ";" ";first" = true
   /\ (forall line, In line ["second"] -> line <> ";"))
  /\ _to_single ["_c.x"; ";first"; "second"] false = Raise IndexError.
Proof.
  assert (Hk : Forall (fun l => Py.first_is "_" l = true) ["_c.x"])
    by (repeat constructor).
  assert (Hr : forall line, In line ["second"] -> line <> ";")
    by (intros line [<- | []]; discriminate).
  split; [split; [exact Hk | split; [reflexivity | exact Hr]]|].
  apply (@to_single_unclosed false ["_c.x"] ["second"] ";first" Hk eq_refl Hr).
Defined.

(** ** Texts that are no category *)

(** X19: [CIFCategory.deserialize] raises an [IndexError] for a text of
    empty and comment lines only, and for a text whose only other line is
    the loop marker; it raises the [DeserializationError] of the missing
    name when the first line that counts, after the loop marker if there
    is one, does not begin with the name marker. *)
Theorem category_deserialize_errors (text : string) (ew : bool) :
  (Forall (fun line => _is_empty line = true) (Py.splitlines text) ->
   CIFCategory.deserialize text ew = Raise IndexError)
  /\ (forall marker,
        content_lines (Py.splitlines text) = [marker] ->
        _is_loop_start marker = true ->
        CIFCategory.deserialize text ew = Raise IndexError)
  /\ (forall first rest,
        content_lines (Py.splitlines text) = first :: rest ->
        _is_loop_start first = false ->
        Py.first_is "_" first = false ->
        CIFCategory.deserialize text ew
        = Raise (DeserializationError "Failed to parse category name"))
  /\ (forall marker first rest,
        content_lines (Py.splitlines text) = marker :: first :: rest ->
        _is_loop_start marker = true ->
        Py.first_is "_" first = false ->
        CIFCategory.deserialize text ew
        = Raise (DeserializationError "Failed to parse category name")).
Proof.
  assert (Hname : forall lines first,
             In first (content_lines lines) ->
             Py.first_is "_" first = false ->
             _parse_category_name first = Ok None).
  { intros lines first Hin Hf.
    destruct (@first_is_not "_" first
                (@content_lines_nonempty lines first Hin) Hf)
      as [d [Hd Hne]].
    unfold _parse_category_name. rewrite Hd. cbn [bind]. now rewrite Hne. }
  unfold CIFCategory.deserialize. split; [|split; [|split]].
  - intros H.
    assert (E : content_lines (Py.splitlines text) = []).
    { unfold content_lines. induction H as [|l ls Hl _ IH]; [reflexivity|].
      cbn [filter]. rewrite Hl. exact IH. }
    now rewrite E.
  - intros marker E Hloop. rewrite E. cbn [index nth_error bind].
    now rewrite Hloop.
  - intros first rest E Hloop Hf. rewrite E. cbn [index nth_error bind].
    rewrite Hloop. cbn [index nth_error bind].
    rewrite (Hname (Py.splitlines text) first); [reflexivity | | exact Hf].
    rewrite E. now left.
  - intros marker first rest E Hloop Hf. rewrite E.
    cbn [index nth_error bind]. rewrite Hloop. cbn [tl index nth_error bind].
    rewrite (Hname (Py.splitlines text) first); [reflexivity | | exact Hf].
    rewrite E. right. now left.
Qed.

Lemma category_deserialize_errors_example :
  (Forall (fun line => _is_empty line = true) (Py.splitlines "# only")
   /\ CIFCategory.deserialize "# only" true = Raise IndexError)
  /\ (content_lines (Py.splitlines "value 1") = ["value 1"]
      /\ CIFCategory.deserialize "value 1" true
         = Raise (DeserializationError "Failed to parse category name")).
Proof.
  assert (H1 : Forall (fun line => _is_empty line = true)
                 (Py.splitlines "# only"))
    by (repeat constructor).
  assert (H2 : content_lines (Py.splitlines "value 1") = ["value 1"])
    by reflexivity.
  split; split; [exact H1 | | exact H2 |].
  - exact (proj1 (category_deserialize_errors "# only" true) H1).
  - exact (proj1 (proj2 (proj2 (category_deserialize_errors "value 1" true)))
             "value 1" [] H2 eq_refl eq_refl).
Defined.

(** ** The only block of a file that was read *)

(** X20: on a file that comes from [deserialize], [block] raises the
    [ValueError] of several blocks when the file does not hold exactly
    one block, also when it holds none; when it holds one, [block] parses
    it and stores it in the file, its categories still kept as text, or
    raises the [DeserializationError] that names the block and leaves the
    file as it is. *)
Theorem block_after_deserialize (text : string) (file : CIFFile.t) :
  CIFFile.deserialize text = Ok file ->
  (CIFFile.__len__ file <> 1 ->
   CIFFile.block file
   = (file, Raise (ValueError "There are multiple blocks in the file")))
  /\ (CIFFile.__len__ file = 1 ->
      exists name,
        CIFFile.keys file = [name]
        /\ ((exists b,
                CIFFile.block file = (CIFFile.mk [(name, Obj b)], Ok b)
                /\ Forall (fun kv => unparsed (snd kv))
                     (CIFBlock._categories b))
            \/ CIFFile.block file
               = (file,
                  Raise (DeserializationError
                           ("Failed to deserialize block '" ++ name ++ "'"))))).
Proof.
  intros H. destruct (file_deserialize_slots text) as [d [Hd [Ht _]]].
  rewrite Hd in H. injection H as <-. unfold CIFFile.block, CIFFile.__len__.
  cbn [CIFFile._blocks]. split.
  - intros Hlen. apply Nat.eqb_neq in Hlen. now rewrite Hlen.
  - intros Hlen. rewrite Hlen. cbn [Nat.eqb negb].
    destruct d as [|[name [raw|b]] [|x d]]; try discriminate.
    2:{ inversion Ht as [|? ? Hx _]. destruct Hx. }
    exists name. split; [reflexivity|].
    unfold CIFFile.keys, CIFFile.__getitem__.
    cbn [CIFFile._blocks dict_keys map fst dict_get dict_set].
    rewrite String.eqb_refl.
    destruct (block_deserialize_slots raw) as [[b [Hb [Hs _]]] | Hb];
      rewrite Hb; cbn [try_except].
    + left. exists b. now split.
    + right. reflexivity.
Qed.

Lemma block_after_deserialize_example :
  exists file b,
    CIFFile.deserialize one_block_text = Ok file
    /\ CIFFile.keys file = ["a"]
    /\ CIFFile.block file = (CIFFile.mk [("a", Obj b)], Ok b)
    /\ CIFBlock.keys b = [Some "c"].
Proof.
  assert (Hd : exists file, CIFFile.deserialize one_block_text = Ok file
                            /\ CIFFile.__len__ file = 1)
    by (eexists; split; vm_compute; reflexivity).
  destruct Hd as [file [Hd Hlen]].
  destruct (proj2 (block_after_deserialize one_block_text Hd) Hlen)
    as [name [Hk _]].
  exists file. vm_compute in Hd. injection Hd as <-.
  eexists. split; [vm_compute; reflexivity|].
  split; [reflexivity|]. split; vm_compute; reflexivity.
Defined.

(** ** The lines of a file *)

Lemma category_lines_nonempty (nm : string)
  (items : list (string * list string)) (n : nat) :
  shape items n -> 1 <= n ->
  Forall (fun line => line <> "") (category_lines nm items n).
Proof.
  intros [Hne Hall] Hn. destruct n as [|[|n']]; [lia | |].
  - cbn [category_lines]. apply Forall_forall. intros l Hl.
    apply in_map_iff in Hl as [kv [<- _]].
    unfold single_line, Py.ljust, CIFCategory.full_key. discriminate.
  - cbn [category_lines]. unfold looped_lines.
    constructor; [discriminate|]. apply Forall_app. split.
    + apply Forall_forall. intros l Hl.
      apply in_map_iff in Hl as [kv [<- _]].
      unfold CIFCategory.full_key. discriminate.
    + apply Forall_forall. intros l Hl.
      apply in_map_iff in Hl as [i [<- Hi]]. apply in_seq in Hi.
      destruct items as [|kv its]; [congruence|].
      unfold written_arrays. cbn [map row_toks].
      apply spaced_nonempty.
      rewrite nth_written
        by (rewrite (Hall kv (or_introl eq_refl)); lia).
      apply written_not_key.
Qed.

(** X21: the lines of a file built from values that the file gives back
    are, for each block in turn, the header line, a comment line and, for
    each category, its lines and a comment line: in a category of one row
    each key, filled up with spaces, and what is written for its value;
    in a category of more rows the loop marker, the keys, and the rows of
    what is written for the values, each filled up with spaces to one
    more than the longest of its column.  What is written for a value is
    what [_quote] makes of it without the NUL characters at its end.  No
    line is empty. *)
Theorem lines_of_built_file (blocks : list volume) (file : CIFFile.t) :
  library blocks ->
  build_file blocks = Ok file ->
  snd (CIFFile.lines file) = Ok (file_lines blocks)
  /\ Forall (fun line => line <> "") (file_lines blocks).
Proof.
  intros Hlib Hb.
  destruct (build_file_keeps (proj2 Hlib)) as [slots [Hb' Hk]].
  rewrite Hb' in Hb. injection Hb as <-.
  destruct (serialize_file_items (proj2 Hlib) Hk)
    as [slots' [texts [Hs [Hj _]]]].
  assert (Hnb : Forall (fun l => all_chars no_break l = true)
                  (file_lines blocks)).
  { unfold file_lines. apply Forall_concat, Forall_forall.
    intros L HL. apply in_map_iff in HL as [b [<- Hin]].
    destruct Hlib as [_ Hok]. rewrite Forall_forall in Hok.
    apply volume_lines_no_break. now apply Hok. }
  split.
  - unfold CIFFile.lines, CIFFile.serialize. cbn [CIFFile._blocks].
    rewrite Hs. cbn [bind snd].
    rewrite join_empty_app, Hj. cbn [Py.join]. rewrite append_nil_r.
    now rewrite splitlines_text_of.
  - unfold file_lines. apply Forall_concat, Forall_forall.
    intros L HL. apply in_map_iff in HL as [b [<- Hin]].
    destruct Hlib as [_ Hok]. rewrite Forall_forall in Hok.
    destruct (Hok b Hin) as [_ [_ Hcats]].
    unfold volume_lines. constructor; [discriminate|].
    constructor; [discriminate|].
    unfold block_lines. apply Forall_concat, Forall_forall.
    intros L HL. apply in_map_iff in HL as [e [<- He]].
    rewrite Forall_forall in Hcats. destruct (Hcats e He) as [Hnm [Htab Hn]].
    apply Forall_app. split; [|repeat constructor; discriminate].
    apply category_lines_nonempty; [|exact Hn].
    exact (table_shape Htab).
Qed.

Lemma lines_of_built_file_example :
  exists file,
    build_file cellar = Ok file
    /\ snd (CIFFile.lines file)
       = Ok ["data_first"; "#"; "loop_"; "_basket.name ";
             "_basket.color "; "'green apple' red     ";
             String Py.DQ ("it's" ++ String Py.DQ "        '_none' ");
             "''            #fff    ";
             "#"; "_measures.cm     5"; "_measures.note   '; about'"; "#";
             "loop_"; "_atom_site.id "; "_atom_site.name ";
             "1 N    "; String "2" (String " " (String Py.DQ
                                     ("C'" ++ String Py.DQ " ")));
             "#"; "data_second"; "#"].
Proof.
  assert (Hbasket : table in_file true basket 3).
  { split; [discriminate|]. split.
    - repeat constructor; simpl; intuition discriminate.
    - split.
      + intros kv [<- | [<- | []]]; repeat split; repeat constructor.
      + intros _. repeat constructor. }
  assert (Hmeasures : table in_file true measures 1).
  { split; [discriminate|]. split.
    - repeat constructor; simpl; intuition discriminate.
    - split.
      + intros kv [<- | [<- | []]]; repeat split; repeat constructor.
      + intros H. exfalso. lia. }
  assert (Hatoms : table in_file false atoms 2).
  { split; [discriminate|]. split.
    - repeat constructor; simpl; intuition discriminate.
    - split.
      + intros kv [<- | [<- | []]]; repeat split; repeat constructor.
      + intros _. repeat constructor. }
  assert (Hlarder : catalog in_file larder).
  { split; [repeat constructor; simpl; intuition discriminate|].
    constructor; [|constructor; [|constructor; [|constructor]]].
    - split; [reflexivity|]. split; [exact Hbasket | simpl; lia].
    - split; [reflexivity|]. split; [exact Hmeasures | simpl; lia].
    - split; [reflexivity|]. split; [exact Hatoms | simpl; lia]. }
  assert (Hlib : library cellar).
  { split; [repeat constructor; simpl; intuition discriminate|].
    constructor; [|constructor; [|constructor]].
    + split; [reflexivity | exact Hlarder].
    + split; [reflexivity|]. split; constructor. }
  eexists. split; [vm_compute; reflexivity|].
  match goal with
  | |- snd (CIFFile.lines ?f) = _ =>
      rewrite (proj1 (@lines_of_built_file cellar f Hlib eq_refl))
  end.
  vm_compute. reflexivity.
Defined.

(** ** The padding of the last column *)

Lemma last_is_append (c : ascii) (a r : string) :
  r <> "" -> Py.last_is c (a ++ r) = Py.last_is c r.
Proof.
  intros Hr. destruct r as [|d r]; [congruence|].
  induction a as [|x a IH]; [reflexivity|].
  cbn [append Py.last_is] in *.
  destruct (a ++ String d r) as [|y s] eqn:E.
  - destruct a; discriminate.
  - cbn [Py.last_char]. exact IH.
Qed.

Lemma last_is_spaces (k : nat) : Py.last_is Py.SP (Py.spaces (S k)) = true.
Proof.
  induction k as [|k IH]; [reflexivity|].
  change (Py.spaces (S (S k))) with (Py.str1 Py.SP ++ Py.spaces (S k)).
  rewrite last_is_append; [exact IH | discriminate].
Qed.

Lemma last_is_nonempty (c : ascii) (s : string) :
  Py.last_is c s = true -> s <> "".
Proof. destruct s; discriminate. Qed.

Lemma index_in {A : Type} (l : list A) (i : nat) (x : A) :
  index l i = Ok x -> In x l.
Proof.
  unfold index. destruct (nth_error l i) eqn:E; [|discriminate].
  intros [= <-]. now apply nth_error_In with i.
Qed.

Lemma elements_fit (l : list string) (x : string) :
  In x (np.elements l) -> len x <= np.width l.
Proof.
  rewrite elements_kept. intros H. apply in_map_iff in H as [s [<- Hs]].
  pose proof (rstrip_nul_len s). pose proof (width_ge l s Hs). lia.
Qed.

Lemma value_line_padded (arrays : list (list string)) (i : nat)
  (line : string) :
  arrays <> [] ->
  CIFCategory.value_line arrays
    (map (fun array => np.itemsize array / UNICODE_CHAR_SIZE + 1) arrays) i
  = Ok line ->
  Py.last_is Py.SP line = true.
Proof.
  revert line. induction arrays as [|a arrays IH]; intros line Hne;
    [congruence|].
  cbn [map CIFCategory.value_line].
  destruct (index (np.elements a) i) as [x| |] eqn:Ex; cbn [bind];
    try discriminate.
  destruct (CIFCategory.value_line arrays _ i) as [r| |] eqn:Er; cbn [bind];
    try discriminate.
  intros [= <-].
  change (fst (Nat.divmod (np.itemsize a) 3 0 3) + 1)
    with (np.itemsize a / UNICODE_CHAR_SIZE + 1).
  rewrite n_chars_width.
  pose proof (elements_fit a x (index_in _ _ Ex)) as Hw.
  unfold Py.ljust. fold (len x).
  replace (np.width a + 1 - len x) with (S (np.width a - len x)) by lia.
  destruct arrays as [|b arrays].
  - cbn in Er. injection Er as <-. rewrite append_nil_r.
    rewrite last_is_append; [apply last_is_spaces | discriminate].
  - assert (Hr : Py.last_is Py.SP r = true)
      by (apply IH; [discriminate | reflexivity]).
    rewrite last_is_append; [exact Hr | now apply last_is_nonempty with Py.SP].
Qed.

Lemma mapM_forall {A B : Type} (f : A -> result B) (P : B -> Prop)
  (l : list A) (r : list B) :
  (forall a b, In a l -> f a = Ok b -> P b) ->
  mapM f l = Ok r -> Forall P r.
Proof.
  revert r. induction l as [|a l IH]; intros r HP; cbn [mapM].
  - intros [= <-]. constructor.
  - destruct (f a) as [b| |] eqn:E; cbn [bind]; try discriminate.
    destruct (mapM f l) as [bs| |]; cbn [bind]; try discriminate.
    intros [= <-]. constructor.
    + apply (HP a); [now left | exact E].
    + apply IH; [|reflexivity]. intros a' b' Hin. apply HP. now right.
Qed.

(** X22: in the lines of a looped category the lines of values follow
    the loop marker and one key line for each column, there is one for
    each row, and each of them ends with a space: the padding of the last
    column stays. *)
Theorem looped_rows_keep_padding (self : CIFCategory.t)
  (lines : list string) :
  CIFCategory._columns self <> [] ->
  CIFCategory._serialize_looped self = Ok lines ->
  exists name row_count value_lines,
    CIFCategory._name self = Some name
    /\ CIFCategory._row_count self = Some row_count
    /\ lines
       = ("loop_"
          :: map (fun key => (CIFCategory.full_key name key ++ " ")%string)
               (CIFCategory.keys self)
          ++ value_lines)%list
    /\ List.length value_lines = row_count
    /\ Forall (fun line => Py.last_is Py.SP line = true) value_lines.
Proof.
  intros Hc. unfold CIFCategory._serialize_looped.
  destruct (CIFCategory._name self) as [name|]; [|discriminate].
  destruct (mapM _ (dict_values _)) as [arrays| |] eqn:Ea; cbn [bind];
    try discriminate.
  destruct (CIFCategory._row_count self) as [n|]; [|discriminate].
  destruct (mapM _ (seq 0 n)) as [values| |] eqn:Ev; cbn [bind];
    try discriminate.
  intros [= <-]. exists name, n, values.
  split; [reflexivity|]. split; [reflexivity|]. split; [reflexivity|].
  split.
  - rewrite (mapM_length _ _ Ev). apply length_seq.
  - assert (Hne : arrays <> []).
    { apply mapM_length in Ea. unfold dict_values in Ea.
      rewrite length_map in Ea.
      destruct arrays; [|discriminate].
      destruct (CIFCategory._columns self); [congruence | discriminate]. }
    revert Ev. apply mapM_forall.
    intros i line _ Hl. now apply (@value_line_padded arrays i).
Qed.

Lemma looped_rows_keep_padding_example :
  (CIFCategory._columns (category_of "fruits" (Some 2) fruits) <> []
   /\ CIFCategory._serialize_looped (category_of "fruits" (Some 2) fruits)
      = Ok ["loop_"; "_fruits.name "; "_fruits.color ";
            "apple  red    "; "banana yellow "])
  /\ exists name row_count value_lines,
       CIFCategory._name (category_of "fruits" (Some 2) fruits) = Some name
       /\ CIFCategory._row_count (category_of "fruits" (Some 2) fruits)
          = Some row_count
       /\ ["loop_"; "_fruits.name "; "_fruits.color ";
           "apple  red    "; "banana yellow "]
          = ("loop_"
             :: map (fun key => (CIFCategory.full_key name key ++ " ")%string)
                  (CIFCategory.keys (category_of "fruits" (Some 2) fruits))
             ++ value_lines)%list
       /\ List.length value_lines = row_count
       /\ Forall (fun line => Py.last_is Py.SP line = true) value_lines.
Proof.
  assert (H1 : CIFCategory._columns (category_of "fruits" (Some 2) fruits)
               <> []) by discriminate.
  assert (H2 : CIFCategory._serialize_looped
                 (category_of "fruits" (Some 2) fruits)
               = Ok ["loop_"; "_fruits.name "; "_fruits.color ";
                     "apple  red    "; "banana yellow "])
    by (vm_compute; reflexivity).
  split; [now split|].
  exact (looped_rows_keep_padding _ H1 H2).
Defined.

(** ** One row of quoted values *)

Lemma quote_shape (v : string) :
  quote_safe v = true ->
  _quote v = squoted v \/ _quote v = dquoted v
  \/ (_quote v = v /\ bare v = true).
Proof.
  unfold quote_safe. intros H. apply andb_true_iff in H as [Hd H].
  apply negb_true_iff in Hd. unfold _quote.
  destruct (len v =? 0)%nat eqn:E0.
  { destruct v; [now left | discriminate]. }
  destruct (first_last_are Py.DQ v) eqn:Ed.
  { apply first_last_contains in Ed. congruence. }
  rewrite andb_false_r.
  destruct (Py.contains Py.SQ v) eqn:Es.
  - apply andb_true_iff in H as [Hu Hw].
    apply negb_true_iff in Hu. apply negb_true_iff in Hw.
    rewrite Hw, Hu. right. now left.
  - destruct (first_last_are Py.SQ v) eqn:Ew.
    { apply first_last_contains in Ew. congruence. }
    rewrite andb_false_r, Hd.
    destruct (Py.first_is "_" v) eqn:E3; [now left|].
    destruct (Py.contains Py.SP v) eqn:E6; [now left|].
    destruct (Py.contains Py.TAB v) eqn:E7; [now left|].
    destruct (Py.contains Py.LF v) eqn:E8; [now left|].
    right. right. split; [reflexivity|].
    rewrite !orb_false_r in H.
    destruct v as [|c v]; [discriminate|]. cbn [bare]. rewrite H.
    cbn [Py.contains] in Es, Hd.
    apply orb_false_iff in Es as [Es _]. apply orb_false_iff in Hd as [Hd _].
    unfold is_quote. now rewrite Es, Hd.
Qed.

Lemma no_break_no_line_feed (s : string) :
  all_chars no_break s = true -> Py.contains Py.LF s = false.
Proof.
  induction s as [|c s IH]; [reflexivity|]. cbn [all_chars Py.contains].
  intros H. apply andb_true_iff in H as [Hc Hs]. rewrite (IH Hs).
  destruct (Ascii.eqb_spec c Py.LF) as [-> | _]; [discriminate | reflexivity].
Qed.

Lemma quotable_parts (v : string) :
  quotable v = true -> quote_safe v = true /\ all_chars no_break v = true.
Proof.
  unfold quotable. intros H. apply andb_true_iff in H as [H _].
  now apply andb_true_iff in H.
Qed.

Lemma quotable_end (v : string) :
  quotable v = true -> np.rstrip_nul v = v.
Proof.
  unfold quotable. intros H. apply andb_true_iff in H as [_ H].
  now apply rstrip_nul_id.
Qed.

Lemma quote_no_break (v : string) :
  quotable v = true -> all_chars no_break (_quote v) = true.
Proof.
  intros H. destruct (quotable_parts v H) as [Hs Hb].
  destruct (quote_shape v Hs) as [-> | [-> | [-> _]]]; [| |exact Hb].
  - unfold squoted. cbn [all_chars]. rewrite all_chars_append, Hb.
    reflexivity.
  - unfold dquoted. cbn [all_chars]. rewrite all_chars_append, Hb.
    reflexivity.
Qed.

Lemma quote_last (v : string) :
  quote_safe v = true ->
  exists body z, _quote v = body ++ Py.str1 z /\ Py.isspace z = false.
Proof.
  intros Hs. destruct (quote_shape v Hs) as [-> | [-> | [-> Hb]]].
  - exists (String Py.SQ v), Py.SQ. now split.
  - exists (String Py.DQ v), Py.DQ. now split.
  - now apply bare_last.
Qed.

Lemma split_key_value (key : string) (m : nat) (v : string) :
  bare key = true -> quote_safe v = true ->
  _split_one_line (key ++ Py.spaces (S m) ++ _quote v) = Ok [key; v].
Proof.
  intros Hk Hv. pose proof (split_quote_back v Hv) as Hq.
  unfold _split_one_line, findall in *.
  rewrite findall_bare; [|exact Hk | reflexivity].
  rewrite findall_spaces. cbn [mapM].
  destruct (bare_unquoted key Hk) as [H1 H2]. rewrite H1. cbn [bind].
  now rewrite H2, Hq.
Qed.

Section OneRow.

Variable nm : string.
Variable items : list (string * string).
Variable w : nat.
Hypothesis Hnm : label nm = true.
Hypothesis Hrow : one_row items.
Hypothesis Hw :
  forall kv, In kv items -> len (CIFCategory.full_key nm (fst kv)) + 3 <= w.

Lemma quoted_line_shape (kv : string * string) :
  In kv items ->
  exists m,
    quoted_line nm w kv
    = CIFCategory.full_key nm (fst kv) ++ Py.spaces (S m) ++ _quote (snd kv).
Proof.
  intros Hin. pose proof (Hw kv Hin) as Hlen.
  exists (w - len (CIFCategory.full_key nm (fst kv)) - 1).
  unfold quoted_line. rewrite ljust_spaced by lia.
  replace (S (w - len (CIFCategory.full_key nm (fst kv)) - 1))
    with (w - len (CIFCategory.full_key nm (fst kv))) by lia.
  reflexivity.
Qed.

Lemma quoted_line_facts (kv : string * string) :
  In kv items ->
  all_chars no_break (quoted_line nm w kv) = true
  /\ Py.strip (quoted_line nm w kv) = quoted_line nm w kv
  /\ quoted_line nm w kv <> ""
  /\ Py.first_is "#" (quoted_line nm w kv) = false
  /\ Py.first_is "_" (quoted_line nm w kv) = true.
Proof.
  intros Hin. destruct Hrow as [_ [_ Hall]].
  destruct (Hall kv Hin) as [Hl Hq].
  destruct (quotable_parts _ Hq) as [Hs Hb].
  destruct (quoted_line_shape kv Hin) as [m E].
  assert (Hfirst : exists rest, quoted_line nm w kv = String "_" rest).
  { rewrite E. unfold CIFCategory.full_key. cbn [append]. eauto. }
  split; [|split; [|split; [|split]]].
  - rewrite E, !all_chars_append, no_break_spaces, (quote_no_break _ Hq).
    rewrite (not_space_no_break _ (full_key_chars _ _ Hnm Hl)).
    reflexivity.
  - destruct (quote_last _ Hs) as [body [z [Ez Hz]]].
    destruct Hfirst as [rest Hrest]. unfold Py.strip.
    rewrite Hrest at 1. cbn [Py.lstrip].
    change (Py.isspace "_") with false. cbv iota. rewrite <- Hrest.
    rewrite E at 1. rewrite Ez.
    rewrite <- !append_assoc.
    change (Py.str1 z) with (String z (Py.spaces 0)).
    rewrite rstrip_keep by exact Hz.
    rewrite E, Ez. now rewrite !append_assoc.
  - destruct Hfirst as [rest ->]. discriminate.
  - destruct Hfirst as [rest ->]. reflexivity.
  - destruct Hfirst as [rest ->]. reflexivity.
Qed.

Lemma quoted_line_parts (kv : string * string) :
  In kv items ->
  _split_one_line (quoted_line nm w kv)
  = Ok [CIFCategory.full_key nm (fst kv); snd kv].
Proof.
  intros Hin. destruct Hrow as [_ [_ Hall]].
  destruct (Hall kv Hin) as [Hl Hq].
  destruct (quoted_line_shape kv Hin) as [m ->].
  apply split_key_value; [now apply full_key_bare|].
  now apply quotable_parts.
Qed.

Lemma deserialize_quoted_lines (its : list (string * string))
  (acc : sdict CIFColumn.t) :
  incl its items ->
  NoDup (map fst its) ->
  (forall k, In k (map fst its) -> ~ In k (dict_keys acc)) ->
  CIFCategory._deserialize_single_loop (map (quoted_line nm w) its) acc
  = Ok (acc ++ one_row_columns its)%list.
Proof.
  revert acc. induction its as [|kv its IH]; intros acc Hincl Hnd Hfresh.
  - simpl. now rewrite app_nil_r.
  - assert (Hin : In kv items) by (apply Hincl; now left).
    destruct Hrow as [_ [_ Hall]]. destruct (Hall kv Hin) as [Hl _].
    cbn [map CIFCategory._deserialize_single_loop].
    rewrite quoted_line_parts by exact Hin. cbn [bind index nth_error].
    rewrite full_key_column by assumption. cbn [bind].
    rewrite column_of_str. cbn [bind].
    inversion Hnd as [|? ? Hk Hnd']; subst.
    rewrite sset_fresh by (apply Hfresh; now left).
    rewrite IH.
    + rewrite <- app_assoc. reflexivity.
    + intros x Hx. apply Hincl. now right.
    + exact Hnd'.
    + intros k' Hk' Hin'. rewrite dict_keys_app in Hin'.
      apply in_app_or in Hin' as [Hin' | [<- | []]].
      * apply (Hfresh k'); [now right | exact Hin'].
      * contradiction.
Qed.

Lemma quoted_lines_facts (l : string) :
  In l (map (quoted_line nm w) items) ->
  all_chars no_break l = true /\ Py.strip l = l /\ l <> ""
  /\ Py.first_is "#" l = false /\ Py.first_is "_" l = true.
Proof.
  intros Hl. apply in_map_iff in Hl as [kv [<- Hkv]].
  now apply quoted_line_facts.
Qed.

Lemma quoted_lines_content :
  content_lines (map (quoted_line nm w) items)
  = map (quoted_line nm w) items.
Proof.
  rewrite content_lines_kept.
  - rewrite <- (map_id (map (quoted_line nm w) items)) at 2.
    apply map_ext_in. intros l Hl. now apply quoted_lines_facts.
  - apply Forall_forall. intros l Hl.
    destruct (quoted_lines_facts l Hl) as [_ [Hs [Hn [Hc _]]]].
    rewrite Hs. now split.
Qed.

Lemma deserialize_quoted_content (text : string) (ew : bool) :
  content_lines (Py.splitlines text) = map (quoted_line nm w) items ->
  exists name,
    CIFCategory.deserialize text ew
    = Ok (CIFCategory.mk name None (one_row_columns items)).
Proof.
  intros Hcontent. destruct Hrow as [Hne [Hnd Hall]].
  set (lines := map (quoted_line nm w) items) in *.
  assert (Hhd : exists kv0 its, items = kv0 :: its)
    by (destruct items; [congruence | eauto]).
  destruct Hhd as [kv0 [its Eit]].
  assert (Hlines : lines
                   = quoted_line nm w kv0 :: map (quoted_line nm w) its)
    by (unfold lines; now rewrite Eit).
  assert (Hl0 : In (quoted_line nm w kv0) lines)
    by (rewrite Hlines; now left).
  destruct (quoted_lines_facts _ Hl0) as [_ [_ [_ [_ Hu]]]].
  exists (Some (Py.slice (quoted_line nm w kv0) 1
                  (Py.find "." (quoted_line nm w kv0)))).
  unfold CIFCategory.deserialize. rewrite Hcontent.
  assert (Hloop : _is_loop_start (quoted_line nm w kv0) = false).
  { destruct (quoted_line nm w kv0) as [|c l]; [discriminate|].
    simpl in Hu. apply Ascii.eqb_eq in Hu. now subst. }
  assert (Hidx : index lines 0 = Ok (quoted_line nm w kv0))
    by (now rewrite Hlines).
  rewrite Hidx. cbn [bind]. rewrite Hloop, Hidx. cbn [bind].
  unfold _parse_category_name. rewrite (first_is_first _ _ Hu).
  cbn [bind]. change (Ascii.eqb "_" "_") with true. cbn [negb].
  unfold _to_single. rewrite to_single_keys.
  2:{ apply Forall_forall. intros l Hl. now apply quoted_lines_facts. }
  cbn [app bind]. unfold CIFCategory._deserialize_single.
  unfold lines.
  rewrite deserialize_quoted_lines;
    [|apply incl_refl | exact Hnd | intros k _ []].
  cbn [app bind]. unfold CIFCategory.__init__.
  rewrite coerce_columns_id.
  - reflexivity.
  - unfold one_row_columns, dict_keys. rewrite map_map. exact Hnd.
  - intros k _ [].
Qed.

End OneRow.

Lemma coerce_fresh_values (items : list (string * string))
  (acc : sdict CIFColumn.t) :
  NoDup (map fst items) ->
  (forall k, In k (map fst items) -> ~ In k (dict_keys acc)) ->
  CIFCategory.coerce_columns (raw_values items) acc
  = Ok (acc ++ one_row_columns items)%list.
Proof.
  revert acc. induction items as [|[k v] items IH]; intros acc Hnd Hfresh.
  - cbn. now rewrite app_nil_r.
  - cbn [raw_values map CIFCategory.coerce_columns fst snd].
    rewrite column_of_str. cbn [bind].
    cbn [map fst] in Hnd. inversion Hnd as [|? ? Hk Hnd']; subst.
    rewrite sset_fresh by (apply Hfresh; now left).
    fold (raw_values items). rewrite IH.
    + now rewrite <- app_assoc.
    + exact Hnd'.
    + intros k' Hk' Hin. rewrite dict_keys_app in Hin.
      apply in_app_or in Hin as [Hin | [<- | []]].
      * apply (Hfresh k'); [now right | exact Hin].
      * contradiction.
Qed.

Lemma init_one_row (name : option string) (items : list (string * string)) :
  one_row items ->
  CIFCategory.__init__ (Some (raw_values items)) name
  = Ok (CIFCategory.mk name None (one_row_columns items)).
Proof.
  intros [_ [Hnd _]]. unfold CIFCategory.__init__.
  rewrite coerce_fresh_values; [reflexivity | exact Hnd | intros k _ []].
Qed.

Lemma serialize_one_row_lines (nm : string) (items : list (string * string))
  (M : nat) :
  one_row items ->
  CIFCategory.max_len (map (fun kv => CIFCategory.full_key nm (fst kv)) items)
  = Ok M ->
  CIFCategory._serialize_single
    (CIFCategory.mk (Some nm) (Some 1) (one_row_columns items))
  = Ok (map (quoted_line nm (M + 3)) items).
Proof.
  intros Hrow HM. unfold CIFCategory._serialize_single, one_row_columns.
  unfold CIFCategory.keys.
  cbn [CIFCategory._name CIFCategory._columns].
  unfold dict_keys, dict_values.
  replace (map (CIFCategory.full_key nm)
             (map fst
                (map (fun kv => (fst kv, column_of_tokens [snd kv])) items)))
    with (map (fun kv => CIFCategory.full_key nm (fst kv)) items)
    by (now rewrite !map_map).
  replace (map snd
             (map (fun kv => (fst kv, column_of_tokens [snd kv])) items))
    with (map (fun kv => column_of_tokens [snd kv]) items)
    by (now rewrite !map_map).
  rewrite HM. cbn [bind].
  destruct Hrow as [_ [_ Hall]]. clear HM.
  induction items as [|kv items IH]; [reflexivity|].
  cbn [map combine mapM fst snd].
  destruct (Hall kv (or_introl eq_refl)) as [_ Hq].
  rewrite as_item_token, (quotable_end _ Hq). cbn [bind _quote_item].
  rewrite IH by (intros x Hx; apply Hall; now right).
  cbn [bind]. unfold quoted_line, _multiline.
  now rewrite (no_break_no_line_feed _ (quote_no_break _ Hq)).
Qed.

Lemma serialize_one_row (nm : string) (items : list (string * string)) :
  one_row items ->
  exists M,
    (forall kv, In kv items ->
       len (CIFCategory.full_key nm (fst kv)) + 3 <= M + 3)
    /\ CIFCategory.serialize
         (CIFCategory.mk (Some nm) None (one_row_columns items))
       = (CIFCategory.mk (Some nm) (Some 1) (one_row_columns items),
          Ok (text_of (map (quoted_line nm (M + 3)) items))).
Proof.
  intros Hrow. pose proof Hrow as [Hne _].
  destruct (CIFCategory.max_len
              (map (fun kv => CIFCategory.full_key nm (fst kv)) items))
    as [M| |] eqn:HM; try (destruct items; [congruence | discriminate]).
  exists M. split.
  - intros kv Hin.
    assert (len (CIFCategory.full_key nm (fst kv)) <= M); [|lia].
    apply (max_len_bound _ HM). apply in_map_iff. now exists kv.
  - unfold CIFCategory.serialize.
    cbn [CIFCategory._name CIFCategory._columns CIFCategory._row_count].
    assert (Hc : one_row_columns items <> [])
      by (destruct items; [congruence | discriminate]).
    destruct (one_row_columns items) as [|c cs] eqn:E; [congruence|].
    cbn [List.length Nat.eqb]. rewrite <- E in *.
    rewrite (@check_lengths_uniform _ None 1 Hc).
    + cbn [bind]. rewrite (serialize_one_row_lines nm Hrow HM).
      reflexivity.
    + intros kc Hin. unfold one_row_columns in Hin.
      apply in_map_iff in Hin as [kv [<- _]]. reflexivity.
    + now left.
Qed.

(** X23: a category built, under a name free of white space and dots,
    from one string for each of its columns, the columns named by
    distinct labels free of white space and dots and each string a value
    that [_quote] protects, that holds no line break and that does not
    end with NUL, is serialized to a text that is deserialized to a
    category equal to it, each column giving its string back; the values
    may hold spaces, tabs and single quotes. *)
Theorem one_row_round_trip (nm : string) (items : list (string * string))
  (ew : bool) :
  label nm = true -> one_row items ->
  exists x x' text y,
    CIFCategory.__init__ (Some (raw_values items)) (Some nm) = Ok x
    /\ CIFCategory.serialize x = (x', Ok text)
    /\ CIFCategory.deserialize text ew = Ok y
    /\ CIFCategory.__eq__ y x' = Ok true
    /\ forall kv, In kv items ->
         exists c, CIFCategory.__getitem__ y (fst kv) = Ok c
                   /\ CIFColumn.as_item c = Ok (PStr (snd kv)).
Proof.
  intros Hnm Hrow. destruct (serialize_one_row nm Hrow) as [M [HM Hs]].
  destruct (@deserialize_quoted_content nm items (M + 3) Hnm Hrow HM
              (text_of (map (quoted_line nm (M + 3)) items)) ew)
    as [name Hd].
  { rewrite splitlines_content_text_of.
    - now apply quoted_lines_content.
    - apply Forall_forall. intros l Hl.
      now apply (@quoted_lines_facts nm items (M + 3) Hnm Hrow HM l Hl). }
  do 4 eexists. split; [now apply init_one_row|].
  split; [exact Hs|]. split; [exact Hd|]. split.
  - apply category_eq_same_columns; [reflexivity|].
    intros kc Hin. apply in_map_iff in Hin as [kv [<- _]].
    apply text_column_of_tokens.
  - intros kv Hin. exists (column_of_tokens [snd kv]).
    split;
      [|rewrite as_item_token;
        now rewrite (quotable_end _ (proj2 (proj2 (proj2 Hrow) kv Hin)))].
    unfold CIFCategory.__getitem__. cbn [CIFCategory._columns].
    destruct Hrow as [_ [Hnd _]].
    destruct (in_dict_get String.eqb String.eqb_eq (one_row_columns items)
                (fst kv)) as [c [Hg Hc]].
    { unfold one_row_columns, dict_keys. rewrite map_map.
      apply in_map_iff. now exists kv. }
    unfold sget. rewrite Hg. f_equal.
    unfold one_row_columns in Hc. apply in_map_iff in Hc as [kv' [E Hin']].
    injection E as E1 E2. subst c.
    assert (kv' = kv); [|now subst].
    clear - Hnd Hin Hin' E1. induction items as [|x its IH]; [destruct Hin|].
    cbn [map] in Hnd. inversion Hnd as [|? ? Hfresh Hnd']; subst.
    destruct Hin as [-> | Hin], Hin' as [-> | Hin']; auto.
    + elim Hfresh. rewrite <- E1. now apply in_map.
    + elim Hfresh. rewrite E1. now apply in_map.
Qed.

Lemma one_row_round_trip_example :
  exists x x' y,
    CIFCategory.__init__ (Some (raw_values games)) (Some "games") = Ok x
    /\ CIFCategory.serialize x
       = (x', Ok (text_of ["_games.title   " ++ Py.str1 Py.DQ
                             ++ "a dog's life" ++ Py.str1 Py.DQ;
                           "_games.genre   '_puzzle'";
                           "_games.year    2003"]))
    /\ CIFCategory.deserialize
         (text_of ["_games.title   " ++ Py.str1 Py.DQ
                     ++ "a dog's life" ++ Py.str1 Py.DQ;
                   "_games.genre   '_puzzle'";
                   "_games.year    2003"]) true = Ok y
    /\ CIFCategory.__eq__ y x' = Ok true.
Proof.
  assert (Hrow : one_row games).
  { split; [discriminate|]. split.
    - repeat constructor; simpl; intuition discriminate.
    - intros kv [<- | [<- | [<- | []]]]; split; reflexivity. }
  destruct (@one_row_round_trip "games" games true eq_refl Hrow)
    as [x [x' [text [y [Hi [Hs [Hd [He _]]]]]]]].
  exists x, x', y. split; [exact Hi|].
  vm_compute in Hi. injection Hi as <-.
  assert (Ht : text
               = text_of ["_games.title   " ++ Py.str1 Py.DQ
                            ++ "a dog's life" ++ Py.str1 Py.DQ;
                          "_games.genre   '_puzzle'";
                          "_games.year    2003"]).
  { vm_compute in Hs. injection Hs as _ <-. reflexivity. }
  rewrite <- Ht. split; [exact Hs|]. split; [exact Hd | exact He].
Defined.

(** ** Serializing a block that was read *)

Lemma serialize_stored_categories
  (d : dict CIFBlock.key (slot CIFCategory.t)) :
  Forall (fun kv => unparsed (snd kv)) d ->
  CIFBlock.serialize_items d = (d, Ok (stored_categories d)).
Proof.
  induction 1 as [|[k [raw|c]] d Hx _ IH]; [reflexivity | |].
  - cbn [CIFBlock.serialize_items]. rewrite IH. reflexivity.
  - destruct Hx.
Qed.

(** X24: a block that comes from [deserialize] is serialized without
    parsing a category: the block stays as it is, and the text is the
    stored lines of the categories one after the other, with nothing
    between the last line of a category and the first line of the
    next. *)
Theorem block_serialize_after_deserialize (text : string)
  (block : CIFBlock.t) :
  CIFBlock.deserialize text = Ok block ->
  CIFBlock.serialize block
  = (block, Ok (Py.join "" (stored_categories (CIFBlock._categories block)))).
Proof.
  intros H. destruct (block_deserialize_slots text) as [[b [Hb [Ht _]]] | Hb];
    rewrite Hb in H; [|discriminate].
  injection H as <-. destruct b as [d]. unfold CIFBlock.serialize.
  cbn [CIFBlock._categories] in *.
  now rewrite (serialize_stored_categories Ht).
Qed.

Lemma block_serialize_after_deserialize_example :
  exists block,
    CIFBlock.deserialize two_categories_text = Ok block
    /\ CIFBlock.keys block = [Some "a"; Some "b"]
    /\ CIFBlock.serialize block = (block, Ok "_a.x 1_b.y 2").
Proof.
  eexists. split; [vm_compute; reflexivity|]. split; [reflexivity|].
  match goal with
  | |- CIFBlock.serialize ?b = _ =>
      rewrite (@block_serialize_after_deserialize two_categories_text b)
  end; vm_compute; reflexivity.
Defined.

(** ** Values of several lines *)

Lemma para_nil (a b : string) :
  value_of (Many a [] b) = a ++ String Py.LF b.
Proof. reflexivity. Qed.

Lemma para_cons (a m : string) (ms : list string) (b : string) :
  value_of (Many a (m :: ms) b) = a ++ String Py.LF (value_of (Many m ms b)).
Proof. reflexivity. Qed.

Lemma para_facts (a : string) (ms : list string) (b : string) :
  quote_free a = true ->
  Forall (fun l => quote_free l = true) ms ->
  quote_free b = true ->
  quote_free (value_of (Many a ms b)) = true
  /\ Py.contains Py.LF (value_of (Many a ms b)) = true.
Proof.
  intros Ha Hms Hb. revert a Ha.
  induction Hms as [|m ms Hm _ IH]; intros a Ha.
  - rewrite para_nil. split.
    + rewrite quote_free_app, Ha. cbn. exact Hb.
    + clear. induction a as [|c a IH]; [reflexivity|].
      cbn [append Py.contains]. now rewrite IH, orb_true_r.
  - rewrite para_cons. destruct (IH m Hm) as [H1 H2]. split.
    + rewrite quote_free_app, Ha.
      change (quote_free (String Py.LF (value_of (Many m ms b))))
        with (quote_free (value_of (Many m ms b))).
      exact H1.
    + clear - H2. induction a as [|c a IH].
      * cbn [append Py.contains]. now rewrite H2, orb_true_r.
      * cbn [append Py.contains]. now rewrite IH, orb_true_r.
Qed.

Lemma quote_free_contains (v : string) :
  quote_free v = true ->
  Py.contains Py.SQ v = false /\ Py.contains Py.DQ v = false.
Proof.
  unfold quote_free. induction v as [|c v IH]; [easy|].
  cbn [all_chars Py.contains]. intros H. apply andb_true_iff in H as [Hc Hv].
  destruct (IH Hv) as [H1 H2]. rewrite H1, H2.
  unfold is_quote in Hc. apply negb_true_iff, orb_false_iff in Hc as [Hs Hd].
  now rewrite Hs, Hd.
Qed.

Lemma quote_of_text (v : string) :
  quote_free v = true -> Py.contains Py.LF v = true ->
  _quote v = squoted v /\ quote_safe v = true.
Proof.
  intros Hq Hl. destruct (quote_free_contains v Hq) as [Hs Hd]. split.
  - unfold _quote.
    destruct (len v =? 0)%nat eqn:E0; [destruct v; discriminate|].
    destruct (first_last_are Py.SQ v) eqn:E1;
      [apply first_last_contains in E1; congruence|].
    destruct (first_last_are Py.DQ v) eqn:E2;
      [apply first_last_contains in E2; congruence|].
    rewrite !andb_false_r, Hs, Hd, Hl.
    destruct (Py.first_is "_" v); [reflexivity|].
    destruct (Py.contains Py.SP v); [reflexivity|].
    now destruct (Py.contains Py.TAB v).
  - unfold quote_safe. rewrite Hd, Hs, Hl. cbn [negb andb].
    now rewrite !orb_true_r.
Qed.

Lemma contains_app (c : ascii) (a b : string) :
  Py.contains c (a ++ b) = Py.contains c a || Py.contains c b.
Proof.
  induction a as [|d a IH]; [reflexivity|].
  cbn [append Py.contains]. now rewrite IH, orb_assoc.
Qed.

(** The text of a multi-line value as lines. *)
Lemma para_text (a : string) (ms : list string) (b tail : string) :
  value_of (Many a ms b)
  ++ String Py.SQ (String Py.LF (String ";" (String Py.LF (String Py.LF tail))))
  = text_of (a :: ms ++ [b ++ "'"; ";"; ""]) ++ tail.
Proof.
  revert a. induction ms as [|m ms IH]; intros a.
  - rewrite para_nil. cbn [app]. rewrite !text_of_cons.
    change (text_of []) with "".
    rewrite !append_assoc. cbn [append]. rewrite !append_assoc.
    reflexivity.
  - rewrite para_cons. cbn [app]. rewrite text_of_cons.
    rewrite !append_assoc. cbn [append]. now rewrite IH.
Qed.

Lemma text_of_prefix (p a : string) (rest : list string) :
  text_of ((p ++ a) :: rest) = p ++ text_of (a :: rest).
Proof. rewrite !text_of_cons. apply append_assoc. Qed.

Lemma cell_line_text (nm : string) (w : nat) (kv : string * cell)
  (L : list string) :
  cell_ok (snd kv) ->
  text_of (cell_line nm w kv :: L)
  = text_of (cell_text_lines nm w kv ++ L).
Proof.
  intros Hok. unfold cell_text_lines.
  destruct kv as [k [v | a ms b]]; cbn [snd fst] in *; [reflexivity|].
  destruct Hok as [Ha [_ [Hms [Hb _]]]].
  unfold text_line in *. apply andb_true_iff in Ha as [Ha _].
  apply andb_true_iff in Hb as [Hb _].
  assert (Hq : Forall (fun l => quote_free l = true) ms).
  { revert Hms. apply Forall_impl. intros l H.
    unfold inner_line, text_line in H.
    repeat (apply andb_true_iff in H as [H _]). exact H. }
  destruct (@para_facts a ms b Ha Hq Hb) as [Hf Hl].
  destruct (quote_of_text _ Hf Hl) as [Eq _].
  unfold cell_line. cbn [fst snd]. rewrite Eq. unfold _multiline.
  set (V := value_of (Many a ms b)) in *.
  assert (Hc : Py.contains Py.LF (squoted V) = true).
  { unfold squoted. cbn [Py.contains]. rewrite contains_app, Hl.
    now rewrite orb_true_r. }
  rewrite Hc, text_of_cons. cbn [app]. rewrite text_of_cons, text_of_prefix.
  change (a :: (ms ++ [(b ++ "'")%string; ";"; ""]) ++ L)%list
    with ((a :: ms ++ [(b ++ "'")%string; ";"; ""]) ++ L)%list.
  rewrite text_of_app. unfold V.
  rewrite <- (para_text a ms b (text_of L)).
  unfold squoted, Py.str1. rewrite !append_assoc. cbn [append].
  rewrite !append_assoc. reflexivity.
Qed.


Lemma lstrip_fixed (l : string) : no_leading l = true -> Py.lstrip l = l.
Proof.
  destruct l as [|c l]; [reflexivity|]. cbn [no_leading Py.lstrip].
  intros H. apply negb_true_iff in H. now rewrite H.
Qed.

Lemma rstrip_fixed (l : string) : no_trailing l = true -> Py.rstrip l = l.
Proof.
  destruct l as [|c l]; [reflexivity|]. cbn [no_trailing]. intros H.
  apply negb_true_iff in H.
  assert (E : exists body, String c l = body ++ Py.str1 (Py.last_char c l)).
  { clear. revert c. induction l as [|d l IH]; intros c.
    - exists "". reflexivity.
    - destruct (IH d) as [body Hb]. exists (String c body).
      cbn [Py.last_char append]. now rewrite <- Hb. }
  destruct E as [body E]. rewrite E.
  change (Py.str1 (Py.last_char c l))
    with (String (Py.last_char c l) (Py.spaces 0)).
  now apply rstrip_keep.
Qed.

Lemma strip_fixed (l : string) :
  no_leading l = true -> no_trailing l = true -> Py.strip l = l.
Proof.
  intros H1 H2. unfold Py.strip. rewrite lstrip_fixed by exact H1.
  now apply rstrip_fixed.
Qed.

Lemma no_trailing_append (p a : string) :
  p <> "" -> no_trailing p = true -> no_trailing a = true ->
  no_trailing (p ++ a) = true.
Proof.
  intros Hp Hnp Ha. destruct a as [|d a]; [now rewrite append_nil_r|].
  destruct p as [|c p]; [congruence|]. clear Hp Hnp.
  cbn [append no_trailing] in *. revert c.
  induction p as [|e p IH]; intros c; cbn [append Py.last_char]; [exact Ha|].
  apply IH.
Qed.

Lemma no_trailing_quote (b : string) : no_trailing (b ++ "'") = true.
Proof.
  destruct b as [|c b]; [reflexivity|]. cbn [append no_trailing].
  change (b ++ "'") with (b ++ Py.str1 Py.SQ).
  now rewrite last_char_append.
Qed.

Lemma no_leading_append (b s : string) :
  no_leading b = true -> no_leading s = true -> no_leading (b ++ s) = true.
Proof. destruct b as [|c b]; [auto | auto]. Qed.

Lemma first_is_append (c : ascii) (b s : string) :
  Py.first_is c b = false -> Py.first_is c s = false ->
  Py.first_is c (b ++ s) = false.
Proof. destruct b as [|d b]; [auto | auto]. Qed.

Lemma closing_differs (b : string) : String.eqb (b ++ "'") ";" = false.
Proof.
  apply String.eqb_neq. intros E.
  assert (H : String.length (b ++ "'") = 1) by (now rewrite E).
  rewrite length_append in H. cbn in H.
  destruct b; [discriminate | cbn in H; lia].
Qed.

Lemma inner_line_parts (l : string) :
  inner_line l = true ->
  quote_free l = true /\ all_chars no_break l = true /\ l <> ""
  /\ no_leading l = true /\ no_trailing l = true
  /\ Py.first_is "#" l = false /\ String.eqb l ";" = false.
Proof.
  unfold inner_line, text_line. intros H.
  repeat (apply andb_true_iff in H as [H ?]).
  repeat split; try assumption.
  - intros ->. discriminate.
  - now apply negb_true_iff.
  - now apply negb_true_iff.
Qed.

Lemma cell_line_one (nm : string) (w : nat) (k v : string) :
  quotable v = true ->
  cell_line nm w (k, One v) = quoted_line nm w (k, v).
Proof.
  intros Hq. unfold cell_line, quoted_line, _multiline. cbn [fst snd value_of].
  now rewrite (no_break_no_line_feed _ (quote_no_break _ Hq)).
Qed.

Lemma one_row_single (k v : string) :
  label k = true -> quotable v = true -> one_row [(k, v)].
Proof.
  intros Hk Hv. split; [discriminate|]. split.
  - repeat constructor. intros [].
  - intros kv [<- | []]. now split.
Qed.

Lemma para_end (a : string) (ms : list string) (b : string) :
  exists pre, value_of (Many a ms b) = pre ++ String Py.LF b.
Proof.
  revert a. induction ms as [|m ms IH]; intros a.
  - exists a. apply para_nil.
  - destruct (IH m) as [pre E]. exists (a ++ String Py.LF pre).
    rewrite para_cons, E. now rewrite append_assoc.
Qed.

(** An array gives the value of a cell back as it is. *)
Lemma cell_value_kept (c : cell) :
  cell_ok c -> np.rstrip_nul (value_of c) = value_of c.
Proof.
  destruct c as [v | a ms b]; cbn [cell_ok].
  - apply quotable_end.
  - intros [_ [_ [_ [_ [_ [_ Hb]]]]]]. apply rstrip_nul_id.
    destruct (para_end a ms b) as [pre ->]. unfold nul_free_end in *.
    rewrite last_is_append by discriminate.
    destruct b as [|c b]; [reflexivity | exact Hb].
Qed.

Lemma cell_cases (kv : string * cell) :
  (exists v, snd kv = One v) \/ (exists a ms b, snd kv = Many a ms b).
Proof. destruct (snd kv); eauto. Qed.

Section OneCell.

Variable nm : string.
Variable w : nat.
Variable kv : string * cell.
Hypothesis Hnm : label nm = true.
Hypothesis Hk : label (fst kv) = true.
Hypothesis Hok : cell_ok (snd kv).
Hypothesis Hw : len (CIFCategory.full_key nm (fst kv)) + 3 <= w.

Lemma one_cell_facts (v : string) :
  snd kv = One v ->
  one_row [(fst kv, v)]
  /\ (forall x, In x [(fst kv, v)] ->
        len (CIFCategory.full_key nm (fst x)) + 3 <= w)
  /\ cell_line nm w kv = quoted_line nm w (fst kv, v).
Proof.
  intros E. pose proof Hok as Hq. rewrite E in Hq. cbn in Hq.
  split; [now apply one_row_single|]. split.
  - intros x [<- | []]. exact Hw.
  - destruct kv as [k c]. cbn [fst snd] in *. subst c.
    now apply cell_line_one.
Qed.

Lemma key_padded_facts :
  all_chars no_break
    (Py.ljust (CIFCategory.full_key nm (fst kv)) w) = true
  /\ Py.strip (Py.ljust (CIFCategory.full_key nm (fst kv)) w)
     = CIFCategory.full_key nm (fst kv)
  /\ Py.first_is "#" (Py.ljust (CIFCategory.full_key nm (fst kv)) w) = false
  /\ Py.first_is "_" (CIFCategory.full_key nm (fst kv)) = true
  /\ bare (CIFCategory.full_key nm (fst kv)) = true.
Proof.
  pose proof (full_key_bare _ _ Hnm Hk) as Hb.
  pose proof (full_key_chars _ _ Hnm Hk) as Hc.
  split; [|split; [|split; [|split]]].
  - unfold Py.ljust. rewrite all_chars_append, no_break_spaces.
    now rewrite (not_space_no_break _ Hc).
  - destruct (bare_last _ Hb) as [body [z [E Hz]]].
    unfold Py.strip, Py.ljust. rewrite lstrip_fixed by reflexivity.
    rewrite E at 1. rewrite append_assoc.
    change (Py.str1 z ++ Py.spaces (w - String.length
              (CIFCategory.full_key nm (fst kv))))
      with (String z (Py.spaces (w - String.length
              (CIFCategory.full_key nm (fst kv))))).
    rewrite rstrip_keep by exact Hz. now rewrite <- E.
  - reflexivity.
  - reflexivity.
  - exact Hb.
Qed.

Lemma cell_text_no_break :
  Forall (fun l => all_chars no_break l = true) (cell_text_lines nm w kv).
Proof.
  unfold cell_text_lines. destruct (cell_cases kv) as [[v E] | [a [ms [b E]]]]; rewrite E.
  - destruct (one_cell_facts E) as [Hrow [Hw1 ->]].
    constructor; [|constructor].
    apply (@quoted_line_facts nm [(fst kv, v)] w Hnm Hrow Hw1). now left.
  - pose proof Hok as H. rewrite E in H.
    destruct H as [Ha [_ [Hms [Hb _]]]].
    unfold text_line in *. apply andb_true_iff in Ha as [_ Ha].
    apply andb_true_iff in Hb as [_ Hb].
    constructor; [apply key_padded_facts|].
    constructor; [cbn [append all_chars]; now rewrite Ha|].
    apply Forall_app. split.
    + revert Hms. apply Forall_impl. intros l Hl.
      now apply inner_line_parts in Hl.
    + constructor; [now rewrite all_chars_append, Hb|].
      now repeat constructor.
Qed.

Lemma cell_content :
  content_lines (cell_text_lines nm w kv) = cell_content_lines nm w kv.
Proof.
  unfold cell_text_lines, cell_content_lines.
  destruct (cell_cases kv) as [[v E] | [a [ms [b E]]]]; rewrite E.
  - destruct (one_cell_facts E) as [Hrow [Hw1 ->]].
    apply (@quoted_lines_content nm [(fst kv, v)] w Hnm Hrow Hw1).
  - pose proof Hok as H. rewrite E in H.
    destruct H as [Ha [Hta [Hms [Hb [Hlb [Hcb _]]]]]].
    destruct key_padded_facts as [_ [Hs [Hc [Hu _]]]].
    set (K := Py.ljust (CIFCategory.full_key nm (fst kv)) w) in *.
    change (K :: (";'" ++ a)%string
              :: ms ++ [(b ++ "'")%string; ";"; ""])%list
      with ((K :: (";'" ++ a)%string :: ms)
            ++ [(b ++ "'")%string; ";"; ""])%list.
    change (CIFCategory.full_key nm (fst kv) :: (";'" ++ a)%string
              :: ms ++ [(b ++ "'")%string; ";"])%list
      with ((CIFCategory.full_key nm (fst kv) :: (";'" ++ a)%string :: ms)
            ++ [(b ++ "'")%string; ";"])%list.
    rewrite content_lines_app. f_equal.
    + rewrite content_lines_kept.
      * cbn [map]. rewrite Hs. f_equal.
        rewrite strip_fixed;
          [|reflexivity
           |apply (@no_trailing_append ";'" a);
              [discriminate | reflexivity | exact Hta]].
        f_equal. rewrite <- (map_id ms) at 2. apply map_ext_in.
        intros l Hl. rewrite Forall_forall in Hms.
        destruct (inner_line_parts _ (Hms l Hl)) as [_ [_ [_ [H1 [H2 _]]]]].
        now apply strip_fixed.
      * constructor.
        { rewrite Hs. split; [|exact Hc].
          destruct (CIFCategory.full_key nm (fst kv)); discriminate. }
        constructor.
        { rewrite strip_fixed;
            [split; [discriminate | reflexivity]
            |reflexivity
            |apply (@no_trailing_append ";'" a);
               [discriminate | reflexivity | exact Hta]]. }
        revert Hms. apply Forall_impl. intros l Hl.
        destruct (inner_line_parts _ Hl) as [_ [_ [Hne [H1 [H2 [H3 _]]]]]].
        rewrite strip_fixed by assumption. now split.
    + assert (Hq : Py.strip (b ++ "'") = b ++ "'").
      { apply strip_fixed; [|apply no_trailing_quote].
        now apply no_leading_append. }
      unfold content_lines. cbn [filter]. unfold _is_empty.
      rewrite Hq.
      rewrite (@first_is_append "#" b "'" Hcb eq_refl).
      assert (Hlen : (len (b ++ "'") =? 0)%nat = false).
      { apply Nat.eqb_neq. unfold len. rewrite length_append. cbn. lia. }
      rewrite Hlen. cbn [orb negb map]. now rewrite Hq.
Qed.

Lemma add_to_last_snoc (out : list string) (x extra : string) :
  add_to_last (out ++ [x]) extra = Ok (out ++ [(x ++ extra)%string])%list.
Proof.
  induction out as [|y out IH]; [reflexivity|].
  cbn [app]. destruct (out ++ [x])%list as [|s l] eqn:E;
    [destruct out; discriminate|].
  change (add_to_last (y :: s :: l) extra)
    with (r <- add_to_last (s :: l) extra ;; Ok (y :: r)).
  now rewrite IH.
Qed.

Lemma to_single_text (ms : list string) (pre a b : string)
  (L out : list string) :
  Forall (fun l => String.eqb l ";" = false) ms ->
  _to_single_loop false (ms ++ (b ++ "'") :: ";" :: L) (Some (pre ++ a)) out
  = (out' <-
       add_to_last out
         (String Py.SP (_quote (pre ++ value_of (Many a ms b) ++ "'"))) ;;
     _to_single_loop false L None out').
Proof.
  intros Hms. revert pre a. induction Hms as [|m ms Hm _ IH]; intros pre a.
  - cbn [app _to_single_loop]. rewrite closing_differs. cbn [negb].
    change (String.eqb ";" ";") with true. cbn [negb].
    rewrite para_nil. now rewrite !append_assoc.
  - cbn [app _to_single_loop]. rewrite Hm. cbn [negb].
    replace ((pre ++ a) ++ String Py.LF m)
      with ((pre ++ a ++ Py.str1 Py.LF) ++ m)
      by (now rewrite !append_assoc).
    rewrite IH. rewrite para_cons. now rewrite !append_assoc.
Qed.

Lemma to_single_cell (L out : list string) :
  _to_single_loop false (cell_content_lines nm w kv ++ L) None out
  = _to_single_loop false L None (out ++ [cell_single_line nm w kv])%list.
Proof.
  unfold cell_content_lines, cell_single_line.
  destruct (cell_cases kv) as [[v E] | [a [ms [b E]]]]; rewrite E.
  - destruct (one_cell_facts E) as [Hrow [Hw1 Hl]].
    destruct (@quoted_line_facts nm [(fst kv, v)] w Hnm Hrow Hw1
                (fst kv, v) (or_introl eq_refl)) as [_ [_ [_ [_ Hu]]]].
    rewrite <- Hl in Hu. cbn [app _to_single_loop].
    rewrite (first_is_first _ _ Hu). cbn [bind].
    change (Ascii.eqb "_" ";") with false.
    change (Ascii.eqb "_" "_") with true. reflexivity.
  - pose proof Hok as H. rewrite E in H.
    destruct H as [Ha [_ [Hms [Hb _]]]].
    destruct key_padded_facts as [_ [_ [_ [Hu _]]]].
    cbn [app _to_single_loop].
    rewrite (first_is_first _ _ Hu). cbn [bind].
    change (Ascii.eqb "_" ";") with false.
    change (Ascii.eqb "_" "_") with true. cbn [negb andb].
    cbn [append Py.first bind]. change (Ascii.eqb ";" ";") with true.
    cbv iota. cbn [Py.drop].
    rewrite <- app_assoc. cbn [app].
    rewrite (@to_single_text ms "'" a b L).
    2:{ revert Hms. apply Forall_impl. intros l Hl.
        now apply inner_line_parts in Hl. }
    rewrite add_to_last_snoc. cbn [bind].
    unfold text_line in *. apply andb_true_iff in Ha as [Ha _].
    apply andb_true_iff in Hb as [Hb _].
    assert (Hq : Forall (fun l => quote_free l = true) ms).
    { revert Hms. apply Forall_impl. intros l Hl.
      now apply inner_line_parts in Hl. }
    destruct (@para_facts a ms b Ha Hq Hb) as [Hf Hl].
    destruct (quote_of_text _ Hf Hl) as [Eq _].
    rewrite Eq.
    change ("'" ++ value_of (Many a ms b) ++ "'")
      with (squoted (value_of (Many a ms b))).
    rewrite quote_squoted. reflexivity.
Qed.

Lemma cell_single_parts :
  _split_one_line (cell_single_line nm w kv)
  = Ok [CIFCategory.full_key nm (fst kv); value_of (snd kv)].
Proof.
  unfold cell_single_line. destruct (cell_cases kv) as [[v E] | [a [ms [b E]]]]; rewrite E.
  - destruct (one_cell_facts E) as [Hrow [Hw1 ->]].
    apply (@quoted_line_parts nm [(fst kv, v)] w Hnm Hrow Hw1 (fst kv, v)).
    now left.
  - pose proof Hok as H. rewrite E in H.
    destruct H as [Ha [_ [Hms [Hb _]]]].
    unfold text_line in *. apply andb_true_iff in Ha as [Ha _].
    apply andb_true_iff in Hb as [Hb _].
    assert (Hq : Forall (fun l => quote_free l = true) ms).
    { revert Hms. apply Forall_impl. intros l Hl.
      now apply inner_line_parts in Hl. }
    destruct (@para_facts a ms b Ha Hq Hb) as [Hf Hl].
    destruct (quote_of_text _ Hf Hl) as [_ Hs].
    apply (@split_key_value _ 0); [apply key_padded_facts | exact Hs].
Qed.

Lemma cell_first_line :
  exists first rest,
    cell_content_lines nm w kv = first :: rest
    /\ Py.first_is "_" first = true.
Proof.
  unfold cell_content_lines. destruct (cell_cases kv) as [[v E] | [a [ms [b E]]]]; rewrite E.
  - destruct (one_cell_facts E) as [Hrow [Hw1 Hl]].
    exists (cell_line nm w kv), []. split; [reflexivity|]. rewrite Hl.
    apply (@quoted_line_facts nm [(fst kv, v)] w Hnm Hrow Hw1). now left.
  - eexists; eexists. split; [reflexivity | apply key_padded_facts].
Qed.

End OneCell.

Section Cells.

Variable nm : string.
Variable items : list (string * cell).
Variable w : nat.
Hypothesis Hnm : label nm = true.
Hypothesis Hrow : one_row_of_cells items.
Hypothesis Hw :
  forall kv, In kv items -> len (CIFCategory.full_key nm (fst kv)) + 3 <= w.

Lemma cells_text (its : list (string * cell)) :
  incl its items ->
  text_of (map (cell_line nm w) its)
  = text_of (concat (map (cell_text_lines nm w) its)).
Proof.
  induction its as [|kv its IH]; intros Hincl; [reflexivity|].
  assert (Hin : In kv items) by (apply Hincl; now left).
  destruct Hrow as [_ [_ Hall]]. destruct (Hall kv Hin) as [_ Hok].
  cbn [map concat]. rewrite (cell_line_text nm w kv _ Hok).
  rewrite !text_of_app, IH; [reflexivity|].
  intros x Hx. apply Hincl. now right.
Qed.

Lemma cells_no_break (its : list (string * cell)) :
  incl its items ->
  Forall (fun l => all_chars no_break l = true)
    (concat (map (cell_text_lines nm w) its)).
Proof.
  intros Hincl. apply Forall_concat, Forall_forall.
  intros L HL. apply in_map_iff in HL as [kv [<- Hin]].
  apply Hincl in Hin. destruct Hrow as [_ [_ Hall]].
  destruct (Hall kv Hin) as [Hk Hok].
  apply (@cell_text_no_break nm w kv Hnm Hk Hok (Hw kv Hin)).
Qed.

Lemma cells_content (its : list (string * cell)) :
  incl its items ->
  content_lines (concat (map (cell_text_lines nm w) its))
  = concat (map (cell_content_lines nm w) its).
Proof.
  induction its as [|kv its IH]; intros Hincl; [reflexivity|].
  assert (Hin : In kv items) by (apply Hincl; now left).
  destruct Hrow as [_ [_ Hall]]. destruct (Hall kv Hin) as [Hk Hok].
  cbn [map concat]. rewrite content_lines_app.
  rewrite (@cell_content nm w kv Hnm Hk Hok (Hw kv Hin)).
  rewrite IH; [reflexivity|]. intros x Hx. apply Hincl. now right.
Qed.

Lemma cells_to_single (its : list (string * cell)) (out : list string) :
  incl its items ->
  _to_single_loop false (concat (map (cell_content_lines nm w) its)) None out
  = Ok (out ++ map (cell_single_line nm w) its)%list.
Proof.
  revert out. induction its as [|kv its IH]; intros out Hincl.
  - cbn. now rewrite app_nil_r.
  - assert (Hin : In kv items) by (apply Hincl; now left).
    destruct Hrow as [_ [_ Hall]]. destruct (Hall kv Hin) as [Hk Hok].
    cbn [map concat].
    rewrite (@to_single_cell nm w kv Hnm Hk Hok (Hw kv Hin)).
    rewrite IH by (intros x Hx; apply Hincl; now right).
    now rewrite <- app_assoc.
Qed.

Lemma deserialize_cell_lines (its : list (string * cell))
  (acc : sdict CIFColumn.t) :
  incl its items ->
  NoDup (map fst its) ->
  (forall k, In k (map fst its) -> ~ In k (dict_keys acc)) ->
  CIFCategory._deserialize_single_loop (map (cell_single_line nm w) its) acc
  = Ok (acc ++ cell_columns its)%list.
Proof.
  revert acc. induction its as [|kv its IH]; intros acc Hincl Hnd Hfresh.
  - simpl. now rewrite app_nil_r.
  - assert (Hin : In kv items) by (apply Hincl; now left).
    destruct Hrow as [_ [_ Hall]]. destruct (Hall kv Hin) as [Hk Hok].
    cbn [map CIFCategory._deserialize_single_loop].
    rewrite (@cell_single_parts nm w kv Hnm Hk Hok (Hw kv Hin)).
    cbn [bind index nth_error].
    rewrite full_key_column by assumption. cbn [bind].
    rewrite column_of_str. cbn [bind].
    inversion Hnd as [|? ? Hfr Hnd']; subst.
    rewrite sset_fresh by (apply Hfresh; now left).
    rewrite IH.
    + rewrite <- app_assoc. reflexivity.
    + intros x Hx. apply Hincl. now right.
    + exact Hnd'.
    + intros k' Hk' Hin'. rewrite dict_keys_app in Hin'.
      apply in_app_or in Hin' as [Hin' | [<- | []]].
      * apply (Hfresh k'); [now right | exact Hin'].
      * contradiction.
Qed.

Lemma deserialize_cells_content (text : string) (ew : bool) :
  content_lines (Py.splitlines text)
  = concat (map (cell_content_lines nm w) items) ->
  exists name,
    CIFCategory.deserialize text ew
    = Ok (CIFCategory.mk name None (cell_columns items)).
Proof.
  intros Hcontent. pose proof Hrow as [Hne [Hnd Hall]].
  assert (Hhd : exists kv0 its, items = kv0 :: its)
    by (destruct items; [congruence | eauto]).
  destruct Hhd as [kv0 [its Eit]].
  assert (Hin0 : In kv0 items) by (rewrite Eit; now left).
  destruct (Hall kv0 Hin0) as [Hk0 Hok0].
  destruct (@cell_first_line nm w kv0 Hnm Hk0 Hok0 (Hw kv0 Hin0))
    as [first [rest [Efirst Hu]]].
  set (lines := concat (map (cell_content_lines nm w) items)) in *.
  assert (Hlines : exists more, lines = first :: more).
  { unfold lines. rewrite Eit. cbn [map concat]. rewrite Efirst.
    cbn [app]. eauto. }
  destruct Hlines as [more Hlines].
  exists (Some (Py.slice first 1 (Py.find "." first))).
  unfold CIFCategory.deserialize. rewrite Hcontent.
  assert (Hloop : _is_loop_start first = false).
  { destruct first as [|c l]; [discriminate|].
    simpl in Hu. apply Ascii.eqb_eq in Hu. now subst. }
  assert (Hidx : index lines 0 = Ok first) by (now rewrite Hlines).
  rewrite Hidx. cbn [bind]. rewrite Hloop, Hidx. cbn [bind].
  unfold _parse_category_name. rewrite (first_is_first _ _ Hu).
  cbn [bind]. change (Ascii.eqb "_" "_") with true. cbn [negb].
  unfold _to_single, lines. rewrite cells_to_single by apply incl_refl.
  cbn [app bind]. unfold CIFCategory._deserialize_single.
  rewrite deserialize_cell_lines;
    [|apply incl_refl | exact Hnd | intros k _ []].
  cbn [app bind]. unfold CIFCategory.__init__.
  rewrite coerce_columns_id.
  - reflexivity.
  - unfold cell_columns, dict_keys. rewrite map_map. exact Hnd.
  - intros k _ [].
Qed.

End Cells.

Lemma raw_cells_values (items : list (string * cell)) :
  raw_cells items
  = raw_values (map (fun kv => (fst kv, value_of (snd kv))) items).
Proof. unfold raw_cells, raw_values. now rewrite map_map. Qed.

Lemma cell_columns_values (items : list (string * cell)) :
  cell_columns items
  = one_row_columns (map (fun kv => (fst kv, value_of (snd kv))) items).
Proof. unfold cell_columns, one_row_columns. now rewrite map_map. Qed.

Lemma init_cells (name : option string) (items : list (string * cell)) :
  one_row_of_cells items ->
  CIFCategory.__init__ (Some (raw_cells items)) name
  = Ok (CIFCategory.mk name None (cell_columns items)).
Proof.
  intros [_ [Hnd _]]. unfold CIFCategory.__init__.
  rewrite raw_cells_values, cell_columns_values.
  rewrite coerce_fresh_values; [reflexivity | | intros k _ []].
  now rewrite map_map.
Qed.

Lemma serialize_cell_lines (nm : string) (items : list (string * cell))
  (M : nat) :
  (forall kv, In kv items -> cell_ok (snd kv)) ->
  CIFCategory.max_len (map (fun kv => CIFCategory.full_key nm (fst kv)) items)
  = Ok M ->
  CIFCategory._serialize_single
    (CIFCategory.mk (Some nm) (Some 1) (cell_columns items))
  = Ok (map (cell_line nm (M + 3)) items).
Proof.
  intros Hok HM. unfold CIFCategory._serialize_single, cell_columns.
  unfold CIFCategory.keys.
  cbn [CIFCategory._name CIFCategory._columns].
  unfold dict_keys, dict_values.
  replace (map (CIFCategory.full_key nm)
             (map fst
                (map (fun kv => (fst kv, column_of_tokens [value_of (snd kv)]))
                   items)))
    with (map (fun kv => CIFCategory.full_key nm (fst kv)) items)
    by (now rewrite !map_map).
  replace (map snd
             (map (fun kv => (fst kv, column_of_tokens [value_of (snd kv)]))
                items))
    with (map (fun kv => column_of_tokens [value_of (snd kv)]) items)
    by (now rewrite !map_map).
  rewrite HM. cbn [bind]. clear HM.
  induction items as [|kv items IH]; [reflexivity|].
  cbn [map combine mapM fst snd].
  rewrite as_item_token, (@cell_value_kept (snd kv) (Hok kv (or_introl eq_refl))).
  cbn [bind _quote_item].
  rewrite IH by (intros x Hx; apply Hok; now right).
  reflexivity.
Qed.

Lemma serialize_cells (nm : string) (items : list (string * cell)) :
  items <> [] -> (forall kv, In kv items -> cell_ok (snd kv)) ->
  exists M,
    (forall kv, In kv items ->
       len (CIFCategory.full_key nm (fst kv)) + 3 <= M + 3)
    /\ CIFCategory.serialize
         (CIFCategory.mk (Some nm) None (cell_columns items))
       = (CIFCategory.mk (Some nm) (Some 1) (cell_columns items),
          Ok (text_of (map (cell_line nm (M + 3)) items))).
Proof.
  intros Hne Hok.
  destruct (CIFCategory.max_len
              (map (fun kv => CIFCategory.full_key nm (fst kv)) items))
    as [M| |] eqn:HM; try (destruct items; [congruence | discriminate]).
  exists M. split.
  - intros kv Hin.
    assert (len (CIFCategory.full_key nm (fst kv)) <= M); [|lia].
    apply (max_len_bound _ HM). apply in_map_iff. now exists kv.
  - unfold CIFCategory.serialize.
    cbn [CIFCategory._name CIFCategory._columns CIFCategory._row_count].
    assert (Hc : cell_columns items <> [])
      by (destruct items; [congruence | discriminate]).
    destruct (cell_columns items) as [|c cs] eqn:E; [congruence|].
    cbn [List.length Nat.eqb]. rewrite <- E in *.
    rewrite (@check_lengths_uniform _ None 1 Hc).
    + cbn [bind]. rewrite (serialize_cell_lines nm items Hok HM).
      reflexivity.
    + intros kc Hin. unfold cell_columns in Hin.
      apply in_map_iff in Hin as [kv [<- _]]. reflexivity.
    + now left.
Qed.

(** X25: a category built, under a name free of white space and dots,
    from one string for each of its columns, the columns named by
    distinct labels, each string being a value that one line carries and
    that does not end with NUL, or a text of several lines (lines without
    quote characters, the first without white space at its end, the last
    without white space at its start, no comment and not ending with NUL,
    those between not empty, without white space at their ends, no
    comment and not the closing line), is serialized to a text that is
    deserialized to a category equal to it, each column giving its string
    back. *)
Theorem multi_line_round_trip (nm : string) (items : list (string * cell))
  (ew : bool) :
  label nm = true -> one_row_of_cells items ->
  exists x x' text y,
    CIFCategory.__init__ (Some (raw_cells items)) (Some nm) = Ok x
    /\ CIFCategory.serialize x = (x', Ok text)
    /\ CIFCategory.deserialize text ew = Ok y
    /\ CIFCategory.__eq__ y x' = Ok true
    /\ CIFCategory._columns y
       = map (fun kv => (fst kv, column_of_tokens [value_of (snd kv)])) items.
Proof.
  intros Hnm Hrow.
  destruct (serialize_cells nm (proj1 Hrow)
              (fun kv Hin => proj2 (proj2 (proj2 Hrow) kv Hin)))
    as [M [HM Hs]].
  destruct (@deserialize_cells_content nm items (M + 3) Hnm Hrow HM
              (text_of (map (cell_line nm (M + 3)) items)) ew)
    as [name Hd].
  { rewrite (@cells_text nm items (M + 3) Hrow items (incl_refl _)).
    rewrite splitlines_content_text_of.
    - eapply cells_content; try eassumption; apply incl_refl.
    - eapply cells_no_break; try eassumption; apply incl_refl. }
  do 4 eexists. split; [now apply init_cells|].
  split; [exact Hs|]. split; [exact Hd|]. split; [|reflexivity].
  apply category_eq_same_columns; [reflexivity|].
  intros kc Hin. apply in_map_iff in Hin as [kv [<- _]].
  apply text_column_of_tokens.
Qed.

Lemma multi_line_round_trip_example :
  exists x x' y,
    CIFCategory.__init__ (Some (raw_cells notes)) (Some "note") = Ok x
    /\ CIFCategory.serialize x
       = (x', Ok (text_of ["_note.title   'two words'";
                           "_note.text    ";
                           ";'first line";
                           "second line'";
                           ";";
                           ""]))
    /\ CIFCategory.deserialize
         (text_of ["_note.title   'two words'";
                   "_note.text    ";
                   ";'first line";
                   "second line'";
                   ";";
                   ""]) false = Ok y
    /\ CIFCategory.__eq__ y x' = Ok true
    /\ CIFCategory._columns y
       = [("title", column_of_tokens ["two words"]);
          ("text", column_of_tokens [text_of ["first line"] ++ "second line"])].
Proof.
  assert (Hrow : one_row_of_cells notes).
  { split; [discriminate|]. split.
    - repeat constructor; simpl; intuition discriminate.
    - intros kv [<- | [<- | []]]; split; try reflexivity.
      cbn [snd cell_ok]. repeat split; try reflexivity. constructor. }
  destruct (@multi_line_round_trip "note" notes false eq_refl Hrow)
    as [x [x' [text [y [Hi [Hs [Hd [He Hc]]]]]]]].
  exists x, x', y. split; [exact Hi|].
  vm_compute in Hi. injection Hi as <-.
  assert (Ht : text
               = text_of ["_note.title   'two words'";
                          "_note.text    ";
                          ";'first line";
                          "second line'";
                          ";";
                          ""]).
  { vm_compute in Hs. injection Hs as _ <-. reflexivity. }
  rewrite <- Ht. split; [exact Hs|]. split; [exact Hd|].
  split; [exact He | exact Hc].
Defined.
